(** * polykube-cni-plugin: node bootstrap (address derivation, peer reachability)

    A shallow embedding of the [init] program of polykube-cni-plugin:
    the node addressing resolver, the reachability loop of main.go and
    the CNI configuration emitter of conf.go, together with
    the parts of the Go libraries they call ([net], [math/big],
    [strconv], [strings], containernetworking/plugins [pkg/ip] v1.0.1 as
    pinned in go.mod).

    Conventions.
    - A Go byte is a [Z] in [0, 256); a byte slice is a [list Z].  The
      nil slice and the empty slice are both [[]]: no function below
      produces an empty slice that is not nil.
    - A Go [(T, error)] result is an [outcome T]: [Ok v] for [(v, nil)],
      [Err e] for [(nil, e)], [Panic] for a run-time panic (index out of
      range).
    - Functions that log or touch the kernel, the polycube daemon or the
      file system run in the monad [M] over the state [St].
    - The rest of the program (the configuration from the environment,
      the VXLAN interface, the cubes of polycube.go and [main]) runs in
      the monad [W] over [World], which adds to [St] the calls made to
      the kernel and to polycube, each with its answer. *)

From Stdlib Require Import ZArith List String Ascii Bool Lia.
Import ListNotations.
Open Scope string_scope.
Open Scope list_scope.
Open Scope Z_scope.

(** ** Outcomes and errors *)

(** [fmt.Errorf] and [errors.New] values are identified by their format
    string; errors that come from a library call carry the library's
    text. *)
Definition error := string.

Inductive outcome (A : Type) : Type :=
| Ok (a : A)
| Err (e : error)
| Panic.
Arguments Ok {A} a.
Arguments Err {A} e.
Arguments Panic {A}.

Definition is_ok {A} (o : outcome A) : bool :=
  match o with Ok _ => true | _ => false end.

Definition is_err {A} (o : outcome A) : bool :=
  match o with Err _ => true | _ => false end.

(** ** Go's [net] package: addresses *)

Definition net_IP := list Z.
Definition net_IPMask := list Z.
Definition net_HardwareAddr := list Z.

Record net_IPNet : Type := mkIPNet { IP : net_IP; Mask : net_IPMask }.

Definition is_byte (b : Z) : Prop := 0 <= b < 256.

Definition IPv4len : nat := 4.
Definition IPv6len : nat := 16.

Definition v4InV6Prefix : list Z := [0; 0; 0; 0; 0; 0; 0; 0; 0; 0; 255; 255].

Definition bytes_eqb (a b : list Z) : bool :=
  if list_eq_dec Z.eq_dec a b then true else false.

(** [net.IPv4(a, b, c, d)]: the 16-byte form of an IPv4 address. *)
Definition IPv4 (a b c d : Z) : net_IP := v4InV6Prefix ++ [a; b; c; d].

(** [func (ip IP) To4() IP] *)
Definition To4 (ip : net_IP) : net_IP :=
  if (List.length ip =? IPv4len)%nat then ip
  else if ((List.length ip =? IPv6len)%nat
           && forallb (Z.eqb 0) (firstn 10 ip)
           && (nth 10 ip 0 =? 255) && (nth 11 ip 0 =? 255))%bool
       then skipn 12 ip
       else [].

(** [func (ip IP) To16() IP] *)
Definition To16 (ip : net_IP) : net_IP :=
  if (List.length ip =? IPv4len)%nat
  then IPv4 (nth 0 ip 0) (nth 1 ip 0) (nth 2 ip 0) (nth 3 ip 0)
  else if (List.length ip =? IPv6len)%nat then ip
       else [].

(** [func (ip IP) Equal(x IP) bool] *)
Definition IP_Equal (ip x : net_IP) : bool :=
  if (List.length ip =? List.length x)%nat then bytes_eqb ip x
  else if ((List.length ip =? IPv4len)%nat && (List.length x =? IPv6len)%nat)%bool
       then (bytes_eqb (firstn 12 x) v4InV6Prefix && bytes_eqb ip (skipn 12 x))%bool
  else if ((List.length ip =? IPv6len)%nat && (List.length x =? IPv4len)%nat)%bool
       then (bytes_eqb (firstn 12 ip) v4InV6Prefix && bytes_eqb (skipn 12 ip) x)%bool
  else false.

(** ** Go's [math/big]: the two conversions [pkg/ip] uses *)

(** [big.Int.SetBytes]: the bytes read as a big-endian unsigned
    integer. *)
Definition SetBytes (buf : list Z) : Z :=
  fold_left (fun acc b => acc * 256 + b) buf 0.

Fixpoint be_bytes (fuel : nat) (n : Z) (acc : list Z) : list Z :=
  match fuel with
  | O => acc
  | S f => if n <=? 0 then acc else be_bytes f (n / 256) (n mod 256 :: acc)
  end.

(** [big.Int.Bytes]: the absolute value as a big-endian byte slice,
    without leading zero bytes (zero is the empty slice). *)
Definition Bytes (x : Z) : list Z :=
  be_bytes (S (Z.to_nat (Z.log2 (Z.abs x)))) (Z.abs x) [].

(** ** containernetworking/plugins v1.0.1, [pkg/ip/cidr.go]

    The version go.mod pins.  Its [intToIP] is the bare [i.Bytes()]; the
    padding of the result to four or sixteen bytes came with a later
    release of the library. *)

(** [func ipToInt(ip net.IP) big.Int] *)
Definition ipToInt (ip : net_IP) : Z :=
  match To4 ip with
  | [] => SetBytes (To16 ip)
  | v => SetBytes v
  end.

(** [func intToIP(i big.Int) net.IP { return net.IP(i.Bytes()) }] *)
Definition intToIP (i : Z) : net_IP := Bytes i.

(** [func NextIP(ip net.IP) net.IP] *)
Definition NextIP (ip : net_IP) : net_IP := intToIP (ipToInt ip + 1).

(** [func PrevIP(ip net.IP) net.IP] *)
Definition PrevIP (ip : net_IP) : net_IP := intToIP (ipToInt ip - 1).

(** The four-byte big-endian form of a number below [2^32]. *)
Definition be4 (v : Z) : net_IP :=
  [v / 256 / 256 / 256 mod 256; v / 256 / 256 mod 256; v / 256 mod 256; v mod 256].

(** ** Logging (logrus) and the program state *)

(** A log entry keeps the level and the message; the structured fields
    are dropped.  logrus' [Fatal] writes the entry and then calls the
    logger's exit function; the embedding records the entry and goes on
    to the [return] that follows it in the source, so that a run in
    which the process was terminated is one whose log holds a [Fatal]
    entry ([fatal_logged]). *)
Inductive LogEntry : Type :=
| Info (msg : string)
| Warning (msg : string)
| Fatal (msg : string).

Definition is_fatal (e : LogEntry) : bool :=
  match e with Fatal _ => true | _ => false end.

(** ** Go's [strings] and [strconv] *)

(** [strings.HasPrefix(s, prefix)] *)
Fixpoint HasPrefix (s prefix : string) : bool :=
  match prefix, s with
  | EmptyString, _ => true
  | String p prefix', String c s' => Ascii.eqb c p && HasPrefix s' prefix'
  | String _ _, EmptyString => false
  end.

(** [strings.TrimPrefix(s, prefix)]: [s] without the leading [prefix],
    or [s] itself when it does not start with it. *)
Definition TrimPrefix (s prefix : string) : string :=
  if HasPrefix s prefix
  then String.substring (String.length prefix) (String.length s - String.length prefix) s
  else s.

Definition is_digit (c : ascii) : bool :=
  ((48 <=? nat_of_ascii c) && (nat_of_ascii c <=? 57))%nat.

Definition digit_val (c : ascii) : Z := Z.of_nat (nat_of_ascii c) - 48.

Definition ErrSyntax : error := "invalid syntax".
Definition ErrRange : error := "value out of range".

Definition maxUint64 : Z := 2 ^ 64 - 1.

(** A library or system call that returns [(T, error)]. *)
Inductive result (A : Type) : Type :=
| Success (a : A)
| Failure (e : error).
Arguments Success {A} a.
Arguments Failure {A} e.

(** The digit loop of [strconv.ParseUint(s, 10, 64)]: a character that
    is not a decimal digit is a syntax error, a value that leaves
    [uint64] a range error, whichever comes first. *)
Fixpoint parse_digits (s : string) (n : Z) : result Z :=
  match s with
  | EmptyString => Success n
  | String c r =>
    if is_digit c then
      if n >=? maxUint64 / 10 + 1 then Failure ErrRange
      else
        let n1 := n * 10 + digit_val c in
        if n1 >? maxUint64 then Failure ErrRange else parse_digits r n1
    else Failure ErrSyntax
  end.

(** [strconv.Atoi] on a 64-bit platform ([strconv.ParseInt(s, 10, 0)];
    the fast path for short strings computes the same): an optional
    sign, then one or more decimal digits, and the value has to fit an
    [int]. *)
Definition Atoi (s : string) : result Z :=
  match s with
  | EmptyString => Failure ErrSyntax
  | String c r =>
    let neg := Ascii.eqb c "-" in
    let body := if (neg || Ascii.eqb c "+")%bool then r else s in
    match body with
    | EmptyString => Failure ErrSyntax
    | _ =>
      match parse_digits body 0 with
      | Failure e => Failure e
      | Success un =>
        if (negb neg && (un >=? 2 ^ 63))%bool then Failure ErrRange
        else if (neg && (un >? 2 ^ 63))%bool then Failure ErrRange
        else Success (if neg then - un else un)
      end
    end
  end.

(** ** Go's [net] package: text forms *)

Definition digit (d : Z) : ascii := ascii_of_nat (48 + Z.to_nat d).

Fixpoint uitoa_aux (fuel : nat) (v : Z) (acc : string) : string :=
  match fuel with
  | O => acc
  | S f =>
    let acc' := String (digit (v mod 10)) acc in
    if v <? 10 then acc' else uitoa_aux f (v / 10) acc'
  end.

(** Decimal text of a non-negative number ([uitoa], [ubtoa]). *)
Definition uitoa (v : Z) : string := uitoa_aux (S (Z.to_nat (Z.log2 v))) v "".

Definition hexDigit (d : Z) : ascii :=
  if d <? 10 then ascii_of_nat (48 + Z.to_nat d) else ascii_of_nat (87 + Z.to_nat d).

(** [hexString]: two lower-case hexadecimal digits per byte. *)
Fixpoint hexString (b : list Z) : string :=
  match b with
  | [] => ""
  | v :: r => String (hexDigit (Z.shiftr v 4)) (String (hexDigit (Z.land v 15)) (hexString r))
  end.

Definition dotted (p4 : list Z) : string :=
  (uitoa (nth 0 p4 0) ++ "." ++ uitoa (nth 1 p4 0) ++ "." ++
   uitoa (nth 2 p4 0) ++ "." ++ uitoa (nth 3 p4 0))%string.

(** ** Data of the libraries the program talks to *)

(** [netlink.Link], through [Attrs()]. *)
Module Link.
Record t : Type := mk { Name : string; Index : Z; HardwareAddr : net_HardwareAddr }.
End Link.

(** [netlink.Addr]: it embeds the [net.IPNet] of the address. *)
Module Addr.
Record t : Type := mk { IPNet : net_IPNet }.
End Addr.

(** [netlink.Route], the kernel route the probe returns. *)
Module NlRoute.
Record t : Type := mk { LinkIndex : Z; Gw : net_IP }.
End NlRoute.

(** [netlink.Neigh] *)
Module Neigh.
Record t : Type :=
  mk { LinkIndex : Z; State : Z; IP : net_IP; HardwareAddr : net_HardwareAddr }.
End Neigh.

(** [netlink.NUD_PERMANENT] *)
Definition NUD_PERMANENT : Z := 128.

(** [v1.NodeAddress] and [v1.Node] of the Kubernetes API. *)
Module NodeAddress.
Record t : Type := mk { Type_ : string; Address : string }.
End NodeAddress.

Definition NodeInternalIP : string := "InternalIP".

Module Node.
Record t : Type :=
  mk { Name : string; PodCIDR : string; Addresses : list NodeAddress.t }.
End Node.

(** [router.Ports], [router.Router] and [router.Route] of the polycube
    REST client. *)
Module Ports.
Record t : Type := mk { Name : string; Ip : string; Mac : string; Peer : string }.
End Ports.

Module Router.
Record t : Type := mk { Name : string; Ports : list Ports.t }.
End Router.

Module Route.
Record t : Type := mk { Network : string; Nexthop : string; Interface_ : string }.
End Route.

(** ** The program's types (types.go) *)

Module GwInfo.
Record t : Type := mk { IPNet : net_IPNet; MAC : net_HardwareAddr }.
End GwInfo.

Module Iface.
Record t : Type := mk { IPNet : net_IPNet; Link : Link.t }.
End Iface.

Record EnvConf : Type := mkEnvConf {
  nodeName : string;
  vxlanIfName : string;
  vtepCIDR : net_IPNet;
  CNIConfFilePath : string;
  vClusterCIDR : net_IPNet;
  MTU : Z;
  bridgeName : string;
  routerName : string;
  lbrpName : string;
  k8sDispName : string
}.

Record NodeInfo : Type := mkNodeInfo {
  name : string;
  kNode : Node.t;
  podCIDR : net_IPNet;
  podGwInfo : GwInfo.t;
  extIface : Iface.t;
  nodeVtepIPNet : net_IPNet;
  nodeGwInfo : GwInfo.t
}.

(** The values [CreateCNIConfFile] substitutes into [confFormat], under
    the JSON keys of the template. *)
Record CNIConf : Type := mkCNIConf {
  conf_MTU : Z;
  conf_vclustercidr : string;
  conf_bridge : string;
  conf_gateway_ip : string;
  conf_gateway_mac : string;
  ipam_subnet : string;
  ipam_rangeStart : string;
  ipam_rangeEnd : string;
  ipam_gateway : string
}.

(** ** The environment: what the libraries and the system answer

    The parsers of [net], the text form of an IPv6 address, the
    Kubernetes API server, the kernel (netlink) and the polycube daemon
    are not part of the repository; they are the fields of [Env].  A
    call that changes the system ([NeighAppend], [CreateRouterRouteByID],
    [os.Create], [Fprintf]) answers with the error it returns, if any,
    and its effect is recorded in the state [St]. *)
Record Env : Type := mkEnv {
  ParseCIDR : string -> result (net_IP * net_IPNet);
  ParseIP : string -> net_IP;
  ParseMAC : string -> result net_HardwareAddr;
  IPv6String : net_IP -> string;
  NodesGet : string -> result Node.t;
  NodesList : result (list Node.t);
  LinkList : result (list Link.t);
  AddrList : Link.t -> result (list Addr.t);
  RouteGet : net_IP -> result (list NlRoute.t);
  NeighList : Z -> result (list Neigh.t);
  LinkByName : string -> result Link.t;
  NeighAppend : list Neigh.t -> Neigh.t -> option error;
  ReadRouterByID : string -> result Router.t;
  CreateRouterRouteByID : string -> Route.t -> option error;
  os_Create : string -> option error;
  Fprintf : string -> CNIConf -> option error
}.

(** The state the program changes: the log, the entries appended to the
    kernel's forwarding database, the routes created on polycube routers
    (router name, route) and the files written (path, content once
    written). *)
Record St : Type := mkSt {
  log : list LogEntry;
  fdb : list Neigh.t;
  routes : list (string * Route.t);
  files : list (string * option CNIConf)
}.

Definition fatal_logged (s : St) : bool := existsb is_fatal (log s).

(** ** The monad of the program *)

Definition M (A : Type) : Type := St -> St * outcome A.

Definition ret {A} (a : A) : M A := fun s => (s, Ok a).

Definition fail {A} (e : error) : M A := fun s => (s, Err e).

Definition panic {A} : M A := fun s => (s, Panic).

Definition bind {A B} (m : M A) (k : A -> M B) : M B :=
  fun s =>
    match m s with
    | (s', Ok a) => k a s'
    | (s', Err e) => (s', Err e)
    | (s', Panic) => (s', Panic)
    end.

(** [if err != nil { return fmt.Errorf(e', ...) }] around a call. *)
Definition wrap_err {A} (m : M A) (e' : error) : M A :=
  fun s =>
    match m s with
    | (s', Err _) => (s', Err e')
    | r => r
    end.

Definition logf (e : LogEntry) : M unit :=
  fun s => (mkSt (log s ++ [e]) (fdb s) (routes s) (files s), Ok tt).

Definition add_fdb (n : Neigh.t) : M unit :=
  fun s => (mkSt (log s) (fdb s ++ [n]) (routes s) (files s), Ok tt).

Definition add_route (r : string) (rt : Route.t) : M unit :=
  fun s => (mkSt (log s) (fdb s) (routes s ++ [(r, rt)]) (files s), Ok tt).

Definition put_file (path : string) (c : option CNIConf) : M unit :=
  fun s => (mkSt (log s) (fdb s) (routes s) ((path, c) :: files s), Ok tt).

Definition get_fdb : M (list Neigh.t) := fun s => (s, Ok (fdb s)).

Declare Scope prog_scope.
Delimit Scope prog_scope with prog.
Notation "x <- m ;; k" := (bind m (fun x => k))
  (at level 61, m at next level, right associativity) : prog_scope.
Notation "m ;; k" := (bind m (fun _ => k))
  (at level 61, right associativity) : prog_scope.
Open Scope prog_scope.

(** ** Text forms of addresses ([net]) *)

(** [func (ip IP) String() string]; the text of a 16-byte address that
    is not an IPv4 one is the environment's [IPv6String]. *)
Definition IP_String (env : Env) (ip : net_IP) : string :=
  if (List.length ip =? 0)%nat then "<nil>"
  else if (List.length (To4 ip) =? IPv4len)%nat then dotted (To4 ip)
  else if negb (List.length ip =? IPv6len)%nat then ("?" ++ hexString ip)%string
  else IPv6String env ip.

(** [func (m IPMask) String() string] *)
Definition IPMask_String (m : net_IPMask) : string :=
  if (List.length m =? 0)%nat then "<nil>" else hexString m.

Fixpoint leading_ones (fuel : nat) (v n : Z) : Z * Z :=
  match fuel with
  | O => (n, v)
  | S f => if Z.land v 128 =? 0 then (n, v) else leading_ones f ((v * 2) mod 256) (n + 1)
  end.

(** [func simpleMaskLength(mask IPMask) int]: the number of leading one
    bits when the mask is that many ones followed by zeros, else [-1]. *)
Fixpoint simpleMaskLength_from (n : Z) (mask : net_IPMask) : Z :=
  match mask with
  | [] => n
  | v :: rest =>
    if v =? 255 then simpleMaskLength_from (n + 8) rest
    else
      let (n', v') := leading_ones 8 v n in
      if negb (v' =? 0) then -1
      else if forallb (Z.eqb 0) rest then n' else -1
  end.

Definition simpleMaskLength (mask : net_IPMask) : Z := simpleMaskLength_from 0 mask.

(** [func networkNumberAndMask(n IPNet) (ip IP, m IPMask)]; [None] is
    the pair of nils. *)
Definition networkNumberAndMask (n : net_IPNet) : option (net_IP * net_IPMask) :=
  let ip4 := To4 (IP n) in
  let ip := match ip4 with [] => IP n | _ => ip4 end in
  match ip4, negb (List.length ip =? IPv6len)%nat with
  | [], true => None
  | _, _ =>
    let m := Mask n in
    if (List.length m =? IPv4len)%nat then
      if negb (List.length ip =? IPv4len)%nat then None else Some (ip, m)
    else if (List.length m =? IPv6len)%nat then
      if (List.length ip =? IPv4len)%nat then Some (ip, skipn 12 m) else Some (ip, m)
    else None
  end.

(** [func (n IPNet) String() string] *)
Definition IPNet_String (env : Env) (n : net_IPNet) : string :=
  match networkNumberAndMask n with
  | None => "<nil>"
  | Some (nn, m) =>
    let l := simpleMaskLength m in
    if l =? -1 then (IP_String env nn ++ "/" ++ IPMask_String m)%string
    else (IP_String env nn ++ "/" ++ uitoa l)%string
  end.

Fixpoint hw_bytes (a : list Z) : string :=
  match a with
  | [] => ""
  | b :: r =>
    String ":" (String (hexDigit (Z.shiftr b 4)) (String (hexDigit (Z.land b 15)) (hw_bytes r)))
  end.

(** [func (a HardwareAddr) String() string]: the bytes in hexadecimal,
    separated by colons. *)
Definition HardwareAddr_String (a : net_HardwareAddr) : string :=
  match hw_bytes a with
  | EmptyString => ""
  | String _ s => s
  end.

(** ** The node addressing resolver *)

(** [func GetNode(name string) (v1.Node, error)] *)
Definition GetNode (env : Env) (name : string) : M Node.t :=
  match NodesGet env name with
  | Failure _ =>
    logf (Fatal "failed to retrieve cluster node info") ;;
    fail "failed to retrieve the %q cluster node info: %v"
  | Success node =>
    logf (Info "cluster node info retrieved") ;;
    ret node
  end.

(** [func ParseNodePodCIDR(node v1.Node) (net.IPNet, error)] *)
Definition ParseNodePodCIDR (env : Env) (node : Node.t) : M net_IPNet :=
  match ParseCIDR env (Node.PodCIDR node) with
  | Failure _ =>
    logf (Fatal "failed to parse cluster node Pod CIDR") ;;
    fail "failed to parse %q cluster node Pod CIDR: %v"
  | Success (_, podCIDR) =>
    (* making sure that the pods CIDR is IPv4 *)
    let podCIDR := mkIPNet (To4 (IP podCIDR)) (Mask podCIDR) in
    match IP podCIDR with
    | [] =>
      logf (Fatal "failed to parse cluster node Pod CIDR") ;;
      fail "failed to parse %q cluster node Pod CIDR: unsupported IPv6 Pod CIDR"
    | _ =>
      logf (Info "parsed cluster node Pod CIDR") ;;
      ret podCIDR
    end
  end.

(** [^b] on a [uint8]. *)
Definition uint8_not (b : Z) : Z := Z.land (Z.lnot b) 255.

(** [l[i] = v]; [None] when [i] is out of range (the run-time panic). *)
Definition set_index (l : list Z) (i : nat) (v : Z) : option (list Z) :=
  if (i <? List.length l)%nat then Some (firstn i l ++ v :: skipn (S i) l) else None.

(** [for i := range subIP { subBroadcastIP[i] = subIP[i] | ^subMask[i] }];
    [None] when an index is out of range. *)
Fixpoint broadcast_loop (idx : list nat) (subIP subMask : list Z)
  (subBroadcastIP : list Z) : option (list Z) :=
  match idx with
  | [] => Some subBroadcastIP
  | i :: rest =>
    match nth_error subIP i, nth_error subMask i with
    | Some a, Some m =>
      match set_index subBroadcastIP i (Z.lor a (uint8_not m)) with
      | Some b' => broadcast_loop rest subIP subMask b'
      | None => None
      end
    | _, _ => None
    end
  end.

(** [func CalcNodePodDefaultGateway(podCIDR net.IPNet) (GwInfo, error)] *)
Definition CalcNodePodDefaultGateway (podCIDR : net_IPNet) : M GwInfo.t :=
  (* calculating the broadcast address *)
  let subIP := IP podCIDR in
  let subMask := Mask podCIDR in
  match broadcast_loop (seq 0 (List.length subIP)) subIP subMask [0; 0; 0; 0] with
  | None => panic
  | Some subBroadcastIP =>
    (* using the address preceding the broadcast address as default gateway *)
    let gwIP := PrevIP subBroadcastIP in
    let gwIPNet := mkIPNet gwIP subMask in
    let gwInfo := GwInfo.mk gwIPNet [] in
    logf (Info "calculated default gateway info for Pod CIDR") ;;
    ret gwInfo
  end.

(** [func GetRouter(name string) (router.Router, error)] (polycube.go) *)
Definition GetRouter (env : Env) (name : string) : M Router.t :=
  match ReadRouterByID env name with
  | Failure _ =>
    logf (Fatal "failed to retrieve router") ;;
    fail "failed to retrieve %q router - error: %s, response: %+v"
  | Success r =>
    logf (Info "router retrieved") ;;
    ret r
  end.

(** [func GetNodePodDefaultGatewayMAC(conf EnvConf) (net.HardwareAddr, error)] *)
Definition GetNodePodDefaultGatewayMAC (env : Env) (conf : EnvConf)
  : M net_HardwareAddr :=
  r <- GetRouter env (routerName conf) ;;
  match find (fun port => String.eqb (Ports.Name port) "to_br0") (Router.Ports r) with
  | Some port =>
    match ParseMAC env (Ports.Mac port) with
    | Failure _ =>
      logf (Fatal "failed to parse cluster node pod default gateway mac") ;;
      fail "failed to parse %q cluster node pod %q default gateway mac: %v"
    | Success routerMAC =>
      logf (Info "cluster node pod default gateway mac retrieved") ;;
      ret routerMAC
    end
  | None =>
    logf (Fatal "failed to retrieve cluster node pod default gateway mac") ;;
    fail "failed to retrieve %q cluster node pod %q default gateway mac: %q port not found"
  end.

(** The address of the first [NodeInternalIP] entry of the node, parsed;
    nil when the node has none. *)
Definition internalIP (env : Env) (node : Node.t) : net_IP :=
  match find (fun addr => String.eqb (NodeAddress.Type_ addr) NodeInternalIP)
             (Node.Addresses node) with
  | Some addr => ParseIP env (NodeAddress.Address addr)
  | None => []
  end.

(** The search of [GetNodeExtIface] through the interfaces: the first
    address of the first interface that is [Equal] to [extIfaceIP]. *)
Fixpoint scan_links (env : Env) (extIfaceIP : net_IP) (links : list Link.t)
  : M Iface.t :=
  match links with
  | [] =>
    logf (Fatal "failed to retrieve cluster node external interface info") ;;
    fail "failed to retrieve %q cluster node external interface info"
  | link :: rest =>
    match AddrList env link with
    | Failure _ =>
      logf (Fatal "failed to retrieve addresses list for node interface") ;;
      fail "failed to retrieve addresses list for %q cluster node %q interface: %v"
    | Success addrs =>
      match find (fun addr => IP_Equal (IP (Addr.IPNet addr)) extIfaceIP) addrs with
      | Some addr =>
        logf (Info "obtained cluster node external interface info") ;;
        ret (Iface.mk (Addr.IPNet addr) link)
      | None => scan_links env extIfaceIP rest
      end
    end
  end.

(** [func GetNodeExtIface(node v1.Node) (Iface, error)] *)
Definition GetNodeExtIface (env : Env) (node : Node.t) : M Iface.t :=
  (* extracting ip of the node external interface *)
  let extIfaceIP := internalIP env node in
  match extIfaceIP with
  | [] =>
    logf (Fatal "failed to parse cluster node external interface IP") ;;
    fail "failed to parse %q cluster node external interface IP"
  | _ =>
    (* retrieving the interfaces list *)
    match LinkList env with
    | Failure _ =>
      logf (Fatal "failed to retrieve cluster node interfaces list") ;;
      fail "failed to retrieve %q cluster node interfaces list: %v"
    | Success links => scan_links env extIfaceIP links
    end
  end.

(** [func CalcNodeVtepIPNet(node v1.Node, vtepCIDR net.IPNet) (net.IPNet, error)] *)
Definition CalcNodeVtepIPNet (node : Node.t) (vtepCIDR : net_IPNet) : M net_IPNet :=
  (* extracting the worker number *)
  match Atoi (TrimPrefix (Node.Name node) "worker") with
  | Failure _ =>
    logf (Fatal "failed to extract cluster node number for Vtep IP evaluation") ;;
    fail "failed to extract %q cluster node number for Vtep IP evaluation: %v"
  | Success n =>
    (* for i := 0; i < n; i++ { nodeVtepIP = ip.NextIP(nodeVtepIP) } *)
    let nodeVtepIP := Nat.iter (Z.to_nat n) NextIP (IP vtepCIDR) in
    let nodeVtepIPNet := mkIPNet nodeVtepIP (Mask vtepCIDR) in
    logf (Info "cluster node Vtep IP address calculated") ;;
    ret nodeVtepIPNet
  end.

(** [func GetNodeDefaultGateway(extIface Iface) (GwInfo, error)] *)
Definition GetNodeDefaultGateway (env : Env) (extIface : Iface.t) : M GwInfo.t :=
  (* retrieving the default route *)
  match RouteGet env (IPv4 1 0 0 0) with
  | Failure _ =>
    logf (Fatal "failed to retrieve the cluster node default route through cluster node external interface") ;;
    fail "failed to retrieve the cluster node default route: %v"
  | Success routes =>
    match routes with
    | [route] =>
      (* checking that the route link index is equal to the external interface index *)
      let routeLI := NlRoute.LinkIndex route in
      let extIfaceLI := Link.Index (Iface.Link extIface) in
      if negb (routeLI =? extIfaceLI) then
        logf (Fatal "the route link index doesn't match the external interface link index") ;;
        fail "the route link index doesn't match the %q external interface link index - routeLinkIndex: %d, extIfaceLinkIndex: %d"
      else
        let gwIPNet := mkIPNet (NlRoute.Gw route) (Mask (Iface.IPNet extIface)) in
        (* retrieving the neighbor list of the external interface *)
        match NeighList env extIfaceLI with
        | Failure _ =>
          logf (Fatal "failed to retrieve the external interface neighbor list") ;;
          fail "failed to determine default gateway mac address"
        | Success neighs =>
          (* searching for a neighbor whose IP address is the default gateway one *)
          match find (fun neigh => IP_Equal (Neigh.IP neigh) (IP gwIPNet)) neighs with
          | Some neigh =>
            let gwInfo := GwInfo.mk gwIPNet (Neigh.HardwareAddr neigh) in
            logf (Info "cluster node default gateway info retrieved") ;;
            ret gwInfo
          | None =>
            logf (Fatal "failed to retrieve the cluster node default gateway through cluster node external interface") ;;
            fail "failed to retrieve the cluster node default gateway through cluster node %q external interface"
          end
        end
    | _ =>
      logf (Fatal "failed to determine a cluster node single default route") ;;
      fail "failed to determine a single node default route - found routes: %+v"
    end
  end.

(** [func AddNode(vxlanIfName string, nodeIP net.IP, nodePodCIDR net.IPNet, nodeVtepIP net.IP) error];
    the route goes to the router ["r0"], under the key made of its
    network and next hop. *)
Definition AddNode (env : Env) (vxlanIfName : string) (nodeIP : net_IP)
  (nodePodCIDR : net_IPNet) (nodeVtepIP : net_IP) : M unit :=
  (* retrieving vxlan interface *)
  match LinkByName env vxlanIfName with
  | Failure _ =>
    logf (Fatal "failed to retrieve the cluster node vxlan interface") ;;
    fail "failed to retrieve the cluster node %q vxlan interface: %v"
  | Success link =>
    (* appending to bridge fdb a rule for the new node *)
    let neigh := Neigh.mk (Link.Index link) NUD_PERMANENT nodeIP [0; 0; 0; 0; 0; 0] in
    table <- get_fdb ;;
    match NeighAppend env table neigh with
    | Some _ =>
      logf (Fatal "failed to configure the node fdb for allowing communication with the new node IP through the vxlan interface") ;;
      fail "failed to configure the node fdb for allowing communication with the new node %q IP through the %q vxlan interface: %v"
    | None =>
      add_fdb neigh ;;
      logf (Info "node fdb configured in order to allow communication with the new node through vxlan interface") ;;
      (* adding route to router in order to make node pod CIDR reachable *)
      let route := Route.mk (IPNet_String env nodePodCIDR) (IP_String env nodeVtepIP) "to_vxlan0" in
      match CreateRouterRouteByID env "r0" route with
      | Some _ =>
        logf (Fatal "failed to set router route for allowing communication with the new node IP through the vxlan interface") ;;
        fail "failed to set %q router route for allowing communication with the new node %q IP through the %q vxlaninterface - error: %v, response: %+v"
      | None =>
        add_route "r0" route ;;
        logf (Info "router route configured in order to allow communication with the new node through 6vxlan interface") ;;
        ret tt
      end
    end
  end.

(** [func BuildNodeInfo(conf EnvConf) (NodeInfo, error)] *)
Definition BuildNodeInfo (env : Env) (conf : EnvConf) : M NodeInfo :=
  node <- GetNode env (nodeName conf) ;;
  podCIDR <- ParseNodePodCIDR env node ;;
  podGwInfo <- CalcNodePodDefaultGateway podCIDR ;;
  extIface <- GetNodeExtIface env node ;;
  nodeVtepIPNet <- CalcNodeVtepIPNet node (vtepCIDR conf) ;;
  nodeGwInfo <- GetNodeDefaultGateway env extIface ;;
  ret (mkNodeInfo (nodeName conf) node podCIDR podGwInfo extIface nodeVtepIPNet nodeGwInfo).

(** ** Reachability of the other nodes (main.go) *)

(** The guard of the loop of [addOtherNodes]:
    [strings.HasPrefix(node.Name, "worker") && node.Name != conf.nodeName]. *)
Definition is_other_worker (conf : EnvConf) (node : Node.t) : bool :=
  HasPrefix (Node.Name node) "worker" && negb (String.eqb (Node.Name node) (nodeName conf)).

(** The body of [for _, node := range nodes.Items] in [addOtherNodes]. *)
Fixpoint addOtherNodes_loop (env : Env) (conf : EnvConf) (nodes : list Node.t) : M unit :=
  match nodes with
  | [] => ret tt
  | node :: rest =>
    if is_other_worker conf node then
      let nodeIP := internalIP env node in
      match ParseCIDR env (Node.PodCIDR node) with
      | Failure _ =>
        logf (Fatal "failed to parse cluster node podCIDR") ;;
        fail "failed to retrieve %q cluster node podCIDR: %v"
      | Success (_, nodePodCIDR) =>
        nodeVtepIPNet <- wrap_err (CalcNodeVtepIPNet node (vtepCIDR conf))
                           "failed to add %q cluster node podCIDR: %v" ;;
        wrap_err (AddNode env (vxlanIfName conf) nodeIP nodePodCIDR (IP nodeVtepIPNet))
          "failed to add %q cluster node podCIDR: %v" ;;
        addOtherNodes_loop env conf rest
      end
    else addOtherNodes_loop env conf rest
  end.

(** [func addOtherNodes(conf EnvConf) error] *)
Definition addOtherNodes (env : Env) (conf : EnvConf) : M unit :=
  match NodesList env with
  | Failure _ =>
    logf (Fatal "failed to retrieve cluster nodes info") ;;
    fail "failed to retrieve cluster nodes info: %v"
  | Success nodes => addOtherNodes_loop env conf nodes
  end.

(** ** The CNI configuration file (conf.go) *)

(** [func CreateCNIConfFile(conf EnvConf, nodeInfo NodeInfo) error] *)
Definition CreateCNIConfFile (env : Env) (conf : EnvConf) (nodeInfo : NodeInfo) : M unit :=
  let fName := CNIConfFilePath conf in
  match os_Create env fName with
  | Some _ =>
    logf (Fatal "failed to create cni config file") ;;
    fail "failed to create cni config file in %q: %v"
  | None =>
    put_file fName None ;;
    let podCIDR := podCIDR nodeInfo in
    let podGwIP := IP (GwInfo.IPNet (podGwInfo nodeInfo)) in
    let podGwMAC := GwInfo.MAC (podGwInfo nodeInfo) in
    let c := mkCNIConf
               (MTU conf)
               (IPNet_String env (vClusterCIDR conf))
               (bridgeName conf)
               (IP_String env podGwIP)
               (HardwareAddr_String podGwMAC)
               (IPNet_String env podCIDR)
               (IP_String env (NextIP (IP podCIDR)))   (* .1 *)
               (IP_String env (PrevIP podGwIP))        (* .253 *)
               (IP_String env podGwIP) in
    match Fprintf env fName c with
    | Some _ =>
      logf (Fatal "failed to write cni config file") ;;
      fail "failed to write cni config file in %q: %v"
    | None =>
      put_file fName (Some c) ;;
      ret tt
    end
  end.

(** ** A sample environment

    Three nodes ([master], [worker1], [worker2]); the node that runs
    the program is [worker1], whose uplink [eth0] (index 2) holds
    10.0.0.11/24 behind the gateway 10.0.0.1. *)
Module Sample.

Definition ip4 (a b c d : Z) : net_IP := [a; b; c; d].
Definition mask24 : net_IPMask := [255; 255; 255; 0].
Definition mask16 : net_IPMask := [255; 255; 0; 0].

Definition master : Node.t :=
  Node.mk "master" "10.10.0.0/24" [NodeAddress.mk "InternalIP" "10.0.0.10"].
Definition worker1 : Node.t :=
  Node.mk "worker1" "10.10.1.0/24"
    [NodeAddress.mk "Hostname" "worker1"; NodeAddress.mk "InternalIP" "10.0.0.11"].
Definition worker2 : Node.t :=
  Node.mk "worker2" "10.10.2.0/24" [NodeAddress.mk "InternalIP" "10.0.0.12"].

Definition lo : Link.t := Link.mk "lo" 1 [].
Definition eth0 : Link.t := Link.mk "eth0" 2 [82; 84; 0; 0; 0; 11].
Definition vxlan0 : Link.t := Link.mk "vxlan0" 7 [2; 0; 0; 0; 0; 7].

Definition gwMAC : net_HardwareAddr := [82; 84; 0; 0; 0; 1].

Definition r0 : Router.t :=
  Router.mk "r0"
    [Ports.mk "to_br0" "10.10.1.254/24" "aa:bb:cc:dd:ee:ff" "br0:to_r0";
     Ports.mk "to_vxlan0" "" "" "vxlan0";
     Ports.mk "to_lbrp0" "10.0.0.11/24" "52:54:00:00:00:0b" "lbrp0:to_r0"].

Definition parseCIDR (s : string) : result (net_IP * net_IPNet) :=
  if String.eqb s "10.10.0.0/24" then Success (IPv4 10 10 0 0, mkIPNet (ip4 10 10 0 0) mask24)
  else if String.eqb s "10.10.1.0/24" then Success (IPv4 10 10 1 0, mkIPNet (ip4 10 10 1 0) mask24)
  else if String.eqb s "10.10.2.0/24" then Success (IPv4 10 10 2 0, mkIPNet (ip4 10 10 2 0) mask24)
  else Failure "invalid CIDR address".

Definition parseIP (s : string) : net_IP :=
  if String.eqb s "10.0.0.10" then IPv4 10 0 0 10
  else if String.eqb s "10.0.0.11" then IPv4 10 0 0 11
  else if String.eqb s "10.0.0.12" then IPv4 10 0 0 12
  else [].

Definition parseMAC (s : string) : result net_HardwareAddr :=
  if String.eqb s "aa:bb:cc:dd:ee:ff" then Success [170; 187; 204; 221; 238; 255]
  else Failure "invalid MAC address".

Definition env : Env :=
  mkEnv parseCIDR parseIP parseMAC
    (fun _ => "::")
    (fun n => if String.eqb n "worker1" then Success worker1 else Failure "not found")
    (Success [master; worker1; worker2])
    (Success [lo; eth0])
    (fun l => if Link.Index l =? 1 then Success [Addr.mk (mkIPNet (ip4 127 0 0 1) [255; 0; 0; 0])]
              else Success [Addr.mk (mkIPNet (ip4 10 0 0 11) mask24)])
    (fun _ => Success [NlRoute.mk 2 (ip4 10 0 0 1)])
    (fun _ => Success [Neigh.mk 2 2 (ip4 10 0 0 12) [82; 84; 0; 0; 0; 12];
                       Neigh.mk 2 2 (ip4 10 0 0 1) gwMAC])
    (fun n => if String.eqb n "vxlan0" then Success vxlan0 else Failure "Link not found")
    (fun _ _ => None)
    (fun n => if String.eqb n "r0" then Success r0 else Failure "404")
    (fun _ _ => None)
    (fun _ => None)
    (fun _ _ => None).

Definition conf : EnvConf :=
  mkEnvConf "worker1" "vxlan0" (mkIPNet (ip4 10 18 0 0) mask16)
    "/etc/cni/net.d/00-polykube.json" (mkIPNet (ip4 10 10 0 0) mask16) 1450
    "br0" "r0" "lbrp0" "k0".

Definition st0 : St := mkSt [] [] [] [].

End Sample.

(** * The rest of the program *)

(** ** [utils] (utils.go) *)

(** [func CreatePeer(serviceName, servicePort string) string] *)
Definition CreatePeer (serviceName servicePort : string) : string :=
  (serviceName ++ ":" ++ servicePort)%string.

(** [func Truncate(s string, n int) string]; the slice [s[:n]] with a
    negative [n] is a run-time panic. *)
Definition Truncate (s : string) (n : Z) : outcome string :=
  if Z.of_nat (String.length s) >? n then
    if n <? 0 then Panic else Ok (String.substring 0 (Z.to_nat n) s)
  else Ok s.

(** ** What the program asks of the kernel and of polycube *)

(** [netlink.Vxlan], the fields [CreateNodeVxlanIface] sets. *)
Module Vxlan.
Record t : Type := mk { Name : string; VxlanId : Z; VtepDevIndex : Z; Port : Z }.
End Vxlan.

(** The netlink calls that change the kernel's links. *)
Inductive KernelOp : Type :=
| LinkAdd (link : Vxlan.t)
| LinkSetUp (link : Link.t)
| AddrAdd (link : Link.t) (addr : net_IPNet).

(** [simplebridge.Ports] and [simplebridge.Simplebridge], the fields the
    program sets. *)
Module SbPorts.
Record t : Type := mk { Name : string; Peer : string }.
End SbPorts.

Module Simplebridge.
Record t : Type := mk { Name : string; Loglevel : string; Ports : list SbPorts.t }.
End Simplebridge.

(** [router.ArpTable], and [router.Router] as [CreateRouter] fills it. *)
Module ArpTable.
Record t : Type := mk { Address : string; Mac : string; Interface_ : string }.
End ArpTable.

Module RouterBody.
Record t : Type := mk {
  Name : string;
  Ports : list Ports.t;
  Loglevel : string;
  Route : list Route.t;
  ArpTable_ : list ArpTable.t
}.
End RouterBody.

(** [lbrp.Ports] and [lbrp.Lbrp]. *)
Module LbPorts.
Record t : Type := mk { Name : string; Type_ : string; Peer : string }.
End LbPorts.

Module Lbrp.
Record t : Type := mk { Name : string; Loglevel : string; Ports : list LbPorts.t }.
End Lbrp.

(** [k8sdispatcher.Ports] and [k8sdispatcher.K8sdispatcher]; the two
    rule tables of the latter are never set and are left out. *)
Module KPorts.
Record t : Type := mk { Name : string; Type_ : string; Peer : string }.
End KPorts.

Module K8sdispatcher.
Record t : Type := mk {
  Name : string;
  Uuid : string;
  Type_ : string;
  ServiceName : string;
  Loglevel : string;
  Ports : list KPorts.t;
  Shadow : bool;
  Span : bool;
  ClusterIpSubnet : string;
  ClientSubnet : string;
  InternalSrcIp : string;
  NodeportRange : string
}.
End K8sdispatcher.

(** The requests of the polycube REST clients: the creation of a cube
    by name, of a port of a cube, and the update of a port of a cube. *)
Inductive Request : Type :=
| CreateSimplebridgeByID (name : string) (br : Simplebridge.t)
| CreateRouterByID (name : string) (r : RouterBody.t)
| CreateLbrpByID (name : string) (lb : Lbrp.t)
| CreateK8sdispatcherByID (name : string) (k : K8sdispatcher.t)
| CreateK8sdispatcherPortsByID (name portName : string) (port : KPorts.t)
| UpdateSimplebridgePortsByID (name portName : string) (port : SbPorts.t)
| UpdateRouterPortsByID (name portName : string) (port : Ports.t)
| UpdateLbrpPortsByID (name portName : string) (port : LbPorts.t)
| UpdateK8sdispatcherPortsByID (name portName : string) (port : KPorts.t).

(** The process environment, and the answers of the kernel and of the
    polycube daemon to a call, given the calls made so far: [None] when
    the call is accepted, the error otherwise. *)
Record Sys : Type := mkSys {
  Getenv : string -> string;
  KernelCall : list (KernelOp * option error) -> KernelOp -> option error;
  RestCall : list (Request * option error) -> Request -> option error
}.

(** The state of the whole program: the state [St] of the resolver, and
    the calls made to the kernel and to polycube, each with its answer,
    in the order they were made. *)
Record World : Type := mkWorld {
  base : St;
  kernel : list (KernelOp * option error);
  rest : list (Request * option error)
}.

Definition W (A : Type) : Type := World -> World * outcome A.

Definition retW {A} (a : A) : W A := fun w => (w, Ok a).

Definition failW {A} (e : error) : W A := fun w => (w, Err e).

Definition bindW {A B} (m : W A) (k : A -> W B) : W B :=
  fun w =>
    match m w with
    | (w', Ok a) => k a w'
    | (w', Err e) => (w', Err e)
    | (w', Panic) => (w', Panic)
    end.

(** A function of the resolver, run on the [base] of the world. *)
Definition liftW {A} (m : M A) : W A :=
  fun w => let (s', r) := m (base w) in (mkWorld s' (kernel w) (rest w), r).

Definition kernel_call (sys : Sys) (op : KernelOp) : W (option error) :=
  fun w =>
    let answer := KernelCall sys (kernel w) op in
    (mkWorld (base w) (kernel w ++ [(op, answer)]) (rest w), Ok answer).

Definition rest_call (sys : Sys) (req : Request) : W (option error) :=
  fun w =>
    let answer := RestCall sys (rest w) req in
    (mkWorld (base w) (kernel w) (rest w ++ [(req, answer)]), Ok answer).

(** [if err != nil { panic(err) }] around a call. *)
Definition or_panic {A} (m : W A) : W A :=
  fun w =>
    match m w with
    | (w', Err _) => (w', Panic)
    | r => r
    end.

Declare Scope world_scope.
Delimit Scope world_scope with world.
Notation "x <- m ;; k" := (bindW m (fun x => k))
  (at level 61, m at next level, right associativity) : world_scope.
Notation "m ;; k" := (bindW m (fun _ => k))
  (at level 61, right associativity) : world_scope.

(** ** The configuration from the environment (conf.go) *)

(** [func getEnv(envVar string, defaultVal string) string] *)
Definition getEnv (sys : Sys) (envVar defaultVal : string) : M string :=
  let env_ := Getenv sys envVar in
  if String.eqb env_ "" then
    logf (Warning "env variable not found. Default value applied") ;;
    ret defaultVal
  else ret env_.

(** [func GetEnvConf() (EnvConf, error)] *)
Definition GetEnvConf (env : Env) (sys : Sys) : M EnvConf :=
  let nodeName := Getenv sys "NODE_K8S_NAME" in
  if String.eqb nodeName "" then
    logf (Fatal "K8S_NODE_NAME env variable not found") ;;
    panic
  else
    vxlanIfName <- getEnv sys "NODE_VXLAN_IFACE_NAME" "vxlan0" ;;
    vtep <- getEnv sys "NODE_VTEP_CIDR" "10.18.0.0/16" ;;
    match ParseCIDR env vtep with
    | Failure _ =>
      logf (Fatal "failed to parse env variable") ;;
      fail "failed to parse env variable: NODE_VTEP_CIDR must be in the format w.x.y.z/n"
    | Success (_, vtepCIDR) =>
      CNIConfFilePath <- getEnv sys "CNI_CONF_FILE_PATH" "/etc/cni/net.d/00-polykube.json" ;;
      vpods <- getEnv sys "POLYCUBE_VPODS_RANGE" "10.10.0.0/16" ;;
      match ParseCIDR env vpods with
      | Failure _ =>
        logf (Fatal "failed to parse env variable") ;;
        fail "failed to parse env variable: POLYCUBE_VPODS_RANGE must be in the format w.x.y.z/n"
      | Success (_, vClusterCIDR) =>
        mtu <- getEnv sys "POLYCUBE_MTU" "1450" ;;
        match Atoi mtu with
        | Failure _ =>
          logf (Fatal "failed to parse env variable") ;;
          fail "failed to parse env variable: POLYCUBE_MTU must be a positive integer"
        | Success MTU =>
          bridgeName <- getEnv sys "POLYCUBE_BRIDGE_NAME" "br0" ;;
          routerName <- getEnv sys "POLYCUBE_ROUTER_NAME" "r0" ;;
          lbrpName <- getEnv sys "POLYCUBE_LBRP_NAME" "lbrp0" ;;
          k8sDispName <- getEnv sys "POLYCUBE_K8SDISP_NAME" "k0" ;;
          ret (mkEnvConf nodeName vxlanIfName vtepCIDR CNIConfFilePath vClusterCIDR MTU
                 bridgeName routerName lbrpName k8sDispName)
        end
      end
    end.

Open Scope world_scope.

(** ** The VXLAN interface *)

(** [func CreateNodeVxlanIface(name string, extIface Iface, vtepIPNet net.IPNet) (Iface, error)] *)
Definition CreateNodeVxlanIface (env : Env) (sys : Sys) (name : string)
  (extIface : Iface.t) (vtepIPNet : net_IPNet) : W Iface.t :=
  let extIfaceIndex := Link.Index (Iface.Link extIface) in
  (* defining the vxlan interface properties *)
  let link_ := Vxlan.mk name 42 extIfaceIndex 4789 in
  (* creating the vxlan interface *)
  err <- kernel_call sys (LinkAdd link_) ;;
  match err with
  | Some _ =>
    liftW (logf (Fatal "failed to create the cluster node vxlan interface")) ;;
    failW "failed to create the cluster node %q vxlan interface: %v"
  | None =>
    (* retrieving the vxlan interface *)
    match LinkByName env name with
    | Failure _ =>
      liftW (logf (Fatal "failed to retrieve the cluster node vxlan interface")) ;;
      failW "failed to retrieve the cluster node %q vxlan interface: %v"
    | Success link =>
      (* setting up the vxlan interface *)
      err <- kernel_call sys (LinkSetUp link) ;;
      match err with
      | Some _ =>
        liftW (logf (Fatal "failed to set the cluster node vxlan interface up")) ;;
        failW "failed to set the cluster node %q vxlan interface up: %v"
      | None =>
        (* adding IPv4 address to the interface *)
        err <- kernel_call sys (AddrAdd link vtepIPNet) ;;
        match err with
        | Some _ =>
          liftW (logf (Fatal "failed to add IPv4 address to the cluster node vxlan interface")) ;;
          failW "failed to add IPv4 address to the cluster node %q vxlan interface: %v"
        | None =>
          let vxlanIface := Iface.mk vtepIPNet link in
          liftW (logf (Info "cluster node vxlan interface created")) ;;
          retW vxlanIface
        end
      end
    end
  end.

(** ** The cubes (polycube.go) *)

(** A REST call with the error handling every call of polycube.go has:
    [if resp, err := api.Call(...); err != nil { Fatal; return Errorf }]. *)
Definition request (sys : Sys) (req : Request) (fatalMsg : string) (e : error) : W unit :=
  err <- rest_call sys req ;;
  match err with
  | Some _ => liftW (logf (Fatal fatalMsg)) ;; failW e
  | None => retW tt
  end.

(** [func CreateBridge(name string) error] *)
Definition CreateBridge (sys : Sys) (name : string) : W unit :=
  (* defining bridge port that will be connected to the router *)
  let brToRPort := SbPorts.mk "to_r0" "" in
  let brPorts := [brToRPort] in
  let br := Simplebridge.mk name "TRACE" brPorts in
  request sys (CreateSimplebridgeByID name br)
    "failed to create bridge"
    "failed to create %q bridge - error: %s, response: %+v" ;;
  liftW (logf (Info "bridge created")).

(** [func CreateRouter(name string, extIface Iface, podsGwInfo GwInfo, nodeGwInfo GwInfo) error] *)
Definition CreateRouter (env : Env) (sys : Sys) (name : string) (extIface : Iface.t)
  (podsGwInfo nodeGwInfo : GwInfo.t) : W unit :=
  (* defining the router port that will be connected to the bridge *)
  let rToBrPort :=
    Ports.mk "to_br0" (IPNet_String env (GwInfo.IPNet podsGwInfo))
      (HardwareAddr_String (GwInfo.MAC podsGwInfo)) "" in
  (* defining the router port that will be connected to the vxlan interface *)
  let rToVxlanPort := Ports.mk "to_vxlan0" "" "" "" in
  (* defining the router port that will be connected to the lbrp *)
  let rToLbrpPort :=
    Ports.mk "to_lbrp0" (IPNet_String env (Iface.IPNet extIface))
      (HardwareAddr_String (Link.HardwareAddr (Iface.Link extIface))) "" in
  let rPorts := [rToBrPort; rToVxlanPort; rToLbrpPort] in
  (* defining router default route and the static arp entry for the default gateway *)
  let routes :=
    [Route.mk "0.0.0.0/0" (IP_String env (IP (GwInfo.IPNet nodeGwInfo))) "to_lbrp0"] in
  let arptable :=
    [ArpTable.mk (IP_String env (IP (GwInfo.IPNet nodeGwInfo)))
       (HardwareAddr_String (GwInfo.MAC nodeGwInfo)) "to_lbrp0"] in
  let r := RouterBody.mk name rPorts "TRACE" routes arptable in
  request sys (CreateRouterByID name r)
    "failed to create router"
    "failed to create %q router - error: %s, response: %+v" ;;
  liftW (logf (Info "router created")).

(** [func CreateLbrp(name string) error] *)
Definition CreateLbrp (sys : Sys) (name : string) : W unit :=
  (* defining the lbrp port that will be connected to the router interface *)
  let lbToRPort := LbPorts.mk "to_r0" "backend" "" in
  (* defining the lbrp port that will be connected to the k8sdispatcher interface *)
  let lbToKPort := LbPorts.mk "to_k0" "frontend" "" in
  let lbPorts := [lbToRPort; lbToKPort] in
  let lb := Lbrp.mk name "TRACE" lbPorts in
  request sys (CreateLbrpByID name lb)
    "failed to create lbrp"
    "failed to create %q lbrp - error: %s, response: %+v" ;;
  liftW (logf (Info "lbrp created")).

(** [func CreateK8sDispatcher(name string, podCIDR net.IPNet) error] *)
Definition CreateK8sDispatcher (env : Env) (sys : Sys) (name : string)
  (podCIDR : net_IPNet) : W unit :=
  (* defining the k8sdispatcher port that will be connected to the lbrp interface *)
  let kToLbPort := KPorts.mk "to_lbrp0" "BACKEND" "" in
  (* defining the k8sdispatcher port that will be connected to the node external interface *)
  let kToIntPort := KPorts.mk "to_int" "FRONTEND" "" in
  let kPorts := [kToLbPort] in
  let k := K8sdispatcher.mk name "" "" "" "TRACE" kPorts false false
             "11.11.11.0/24" (IPNet_String env podCIDR) "3.3.1.3" "30000-32767" in
  request sys (CreateK8sdispatcherByID name k)
    "failed to create k8sdispatcher"
    "failed to create %q k8sdispatcher - error: %s, response: %+v" ;;
  request sys (CreateK8sdispatcherPortsByID name "to_int" kToIntPort)
    "failed to create k8sdispatcher port"
    "failed to create %q k8sdispatcher port - error: %s, response: %+v" ;;
  liftW (logf (Info "k8sdispatcher created")).

(** [func ConnectCubes(conf EnvConf, extIface Iface) error] *)
Definition ConnectCubes (sys : Sys) (conf : EnvConf) (extIface : Iface.t) : W unit :=
  let brName := bridgeName conf in
  let rName := routerName conf in
  let lbName := lbrpName conf in
  let kName := k8sDispName conf in
  (* updating bridge "to_r0" port in order to set peer=r0:to_br0 *)
  request sys
    (UpdateSimplebridgePortsByID brName "to_r0" (SbPorts.mk "" (CreatePeer rName "to_br0")))
    "failed to set bridge port peer"
    "failed to set %q port peer on %q bridge to %q - error: %s, response: %+v" ;;
  liftW (logf (Info "bridge port peer set")) ;;
  (* updating router "to_br0" port in order to set peer=br0:to_r0 *)
  request sys
    (UpdateRouterPortsByID rName "to_br0" (Ports.mk "" "" "" (CreatePeer brName "to_r0")))
    "failed to set router port peer"
    "failed to set %q port peer on %q router to %q - error: %s, response: %+v" ;;
  liftW (logf (Info "router port peer set")) ;;
  (* updating router "to_vxlan0" port in order to set peer=vxlan0 *)
  request sys
    (UpdateRouterPortsByID rName "to_vxlan0" (Ports.mk "" "" "" "vxlan0"))
    "failed to set router port peer"
    "failed to set %q port peer on %q router to %q - error: %s, response: %+v" ;;
  liftW (logf (Info "router port peer set")) ;;
  (* updating router "to_lbrp0" port in order to set peer=lbrp0:to_r0 *)
  request sys
    (UpdateRouterPortsByID rName "to_lbrp0" (Ports.mk "" "" "" (CreatePeer lbName "to_r0")))
    "failed to set router port peer"
    "failed to set %q port peer on %q router to %q - error: %s, response: %+v" ;;
  liftW (logf (Info "router port peer set")) ;;
  (* updating lbrp "to_r0" port in order to set peer=r0:to_lbrp0 *)
  request sys
    (UpdateLbrpPortsByID lbName "to_r0" (LbPorts.mk "" "" (CreatePeer rName "to_lbrp0")))
    "failed to set lbrp port peer"
    "failed to set %q port peer on %q lbrp to %q - error: %s, response: %+v" ;;
  liftW (logf (Info "lbrp port peer set")) ;;
  (* updating lbrp "to_k0" port in order to set peer=k0:to_lbrp0 *)
  request sys
    (UpdateLbrpPortsByID lbName "to_k0" (LbPorts.mk "" "" (CreatePeer kName "to_lbrp0")))
    "failed to set lbrp port peer"
    "failed to set %q port peer on %q lbrp to %q - error: %s, response: %+v" ;;
  liftW (logf (Info "lbrp port peer set")) ;;
  (* updating k8sdispatcher "to_lbrp0" port in order to set peer=lbrp0:to_k0 *)
  request sys
    (UpdateK8sdispatcherPortsByID kName "to_lbrp0" (KPorts.mk "" "" (CreatePeer lbName "to_k0")))
    "failed to set k8sdispatcher port peer"
    "failed to set %q port peer on %q k8sdispatcher to %q - error: %s, response: %+v" ;;
  liftW (logf (Info "k8sdispatcher port peer set")) ;;
  (* updating k8sdispatcher "to_int" port in order to set peer=external_interface_name *)
  request sys
    (UpdateK8sdispatcherPortsByID kName "to_int"
       (KPorts.mk "" "" (Link.Name (Iface.Link extIface))))
    "failed to set k8sdispatcher port peer"
    "failed to set %q port peer on %q k8sdispatcher to %q - error: %s, response: %+v" ;;
  liftW (logf (Info "k8sdispatcher port peer set")) ;;
  retW tt.

(** [func CreateCubes(nodeInfo NodeInfo, conf EnvConf) error] *)
Definition CreateCubes (env : Env) (sys : Sys) (nodeInfo : NodeInfo) (conf : EnvConf)
  : W unit :=
  CreateBridge sys (bridgeName conf) ;;
  CreateRouter env sys (routerName conf) (extIface nodeInfo) (podGwInfo nodeInfo)
    (nodeGwInfo nodeInfo) ;;
  CreateLbrp sys (lbrpName conf) ;;
  CreateK8sDispatcher env sys (k8sDispName conf) (podCIDR nodeInfo) ;;
  ConnectCubes sys conf (extIface nodeInfo) ;;
  retW tt.

(** ** The program (main.go) *)

(** [nodeInfo.podGwInfo.MAC = podGwMAC] *)
Definition set_podGwMAC (nodeInfo : NodeInfo) (podGwMAC : net_HardwareAddr) : NodeInfo :=
  mkNodeInfo (name nodeInfo) (kNode nodeInfo) (podCIDR nodeInfo)
    (GwInfo.mk (GwInfo.IPNet (podGwInfo nodeInfo)) podGwMAC)
    (extIface nodeInfo) (nodeVtepIPNet nodeInfo) (nodeGwInfo nodeInfo).

(** [func main()]; every error is a panic. *)
Definition main (env : Env) (sys : Sys) : W unit :=
  conf <- or_panic (liftW (GetEnvConf env sys)) ;;
  nodeInfo <- or_panic (liftW (BuildNodeInfo env conf)) ;;
  or_panic (CreateNodeVxlanIface env sys (vxlanIfName conf) (extIface nodeInfo)
              (nodeVtepIPNet nodeInfo)) ;;
  or_panic (CreateCubes env sys nodeInfo conf) ;;
  podGwMAC <- or_panic (liftW (GetNodePodDefaultGatewayMAC env conf)) ;;
  let nodeInfo := set_podGwMAC nodeInfo podGwMAC in
  or_panic (liftW (CreateCNIConfFile env conf nodeInfo)) ;;
  or_panic (liftW (addOtherNodes env conf)).

Close Scope world_scope.

(** ** A sample system

    The process environment holds the node name only; the kernel and
    the polycube daemon accept every call; the parser knows the default
    ranges too. *)
Module SampleSys.

Definition parseCIDR (s : string) : result (net_IP * net_IPNet) :=
  if String.eqb s "10.18.0.0/16"
  then Success (IPv4 10 18 0 0, mkIPNet (Sample.ip4 10 18 0 0) Sample.mask16)
  else if String.eqb s "10.10.0.0/16"
  then Success (IPv4 10 10 0 0, mkIPNet (Sample.ip4 10 10 0 0) Sample.mask16)
  else Sample.parseCIDR s.

Definition env : Env :=
  mkEnv parseCIDR (ParseIP Sample.env) (ParseMAC Sample.env) (IPv6String Sample.env)
    (NodesGet Sample.env) (NodesList Sample.env) (LinkList Sample.env)
    (AddrList Sample.env) (RouteGet Sample.env) (NeighList Sample.env)
    (LinkByName Sample.env) (NeighAppend Sample.env) (ReadRouterByID Sample.env)
    (CreateRouterRouteByID Sample.env) (os_Create Sample.env) (Fprintf Sample.env).

(** The same environment with a router that refuses every route. *)
Definition env_router_down : Env :=
  mkEnv parseCIDR (ParseIP Sample.env) (ParseMAC Sample.env) (IPv6String Sample.env)
    (NodesGet Sample.env) (NodesList Sample.env) (LinkList Sample.env)
    (AddrList Sample.env) (RouteGet Sample.env) (NeighList Sample.env)
    (LinkByName Sample.env) (NeighAppend Sample.env) (ReadRouterByID Sample.env)
    (fun _ _ => Some "500 Internal Server Error")
    (os_Create Sample.env) (Fprintf Sample.env).

Definition sys : Sys :=
  mkSys (fun v => if String.eqb v "NODE_K8S_NAME" then "worker1" else "")
        (fun _ _ => None)
        (fun _ _ => None).

Definition w0 : World := mkWorld Sample.st0 [] [].

End SampleSys.

(** ** Notions used by the properties *)

(** The broadcast address of a CIDR, byte by byte: the network address
    OR-ed with the complement of the mask. *)
Definition broadcastIP (c : net_IPNet) : net_IP :=
  map (fun am => Z.lor (fst am) (uint8_not (snd am))) (combine (IP c) (Mask c)).

Fixpoint all_digits (s : string) : bool :=
  match s with
  | EmptyString => true
  | String c r => is_digit c && all_digits r
  end.

(** A decimal integer, in the words of the specification: an optional
    sign followed by one or more decimal digits. *)
Definition is_decimal_integer (s : string) : bool :=
  match s with
  | EmptyString => false
  | String c r =>
    if (Ascii.eqb c "-" || Ascii.eqb c "+")%bool
    then negb (String.eqb r "") && all_digits r
    else all_digits s
  end.

(** The entry [AddNode] appends for a peer whose address is [nodeIP]. *)
Definition fdb_entry (link : Link.t) (nodeIP : net_IP) : Neigh.t :=
  Neigh.mk (Link.Index link) NUD_PERMANENT nodeIP [0; 0; 0; 0; 0; 0].

(** The route [AddNode] creates on the router. *)
Definition vxlan_route (env : Env) (nodePodCIDR : net_IPNet) (nodeVtepIP : net_IP)
  : string * Route.t :=
  ("r0", Route.mk (IPNet_String env nodePodCIDR) (IP_String env nodeVtepIP) "to_vxlan0").

(** The nodes [addOtherNodes] provisions: those whose name starts with
    [worker], the local node excepted. *)
Definition peers (conf : EnvConf) (nodes : list Node.t) : list Node.t :=
  filter (is_other_worker conf) nodes.

Definition is_fdb_entry_of (env : Env) (conf : EnvConf) (node : Node.t) (e : Neigh.t)
  : Prop :=
  exists link,
    LinkByName env (vxlanIfName conf) = Success link
    /\ e = fdb_entry link (internalIP env node).

Definition is_route_of (env : Env) (conf : EnvConf) (node : Node.t)
  (r : string * Route.t) : Prop :=
  exists x nodePodCIDR nodeVtepIPNet,
    ParseCIDR env (Node.PodCIDR node) = Success (x, nodePodCIDR)
    /\ (forall s, snd (CalcNodeVtepIPNet node (vtepCIDR conf) s) = Ok nodeVtepIPNet)
    /\ r = ("r0", Route.mk (IPNet_String env nodePodCIDR)
                           (IP_String env (IP nodeVtepIPNet)) "to_vxlan0").

(** The routes the probe query returned; a query that fails returns
    none (netlink returns [nil, err]). *)
Definition probe_routes (env : Env) : list NlRoute.t :=
  match RouteGet env (IPv4 1 0 0 0) with
  | Success routes => routes
  | Failure _ => []
  end.

(** The IPv4 neighbour table of a link as the query returned it; a
    query that fails returns no entry. *)
Definition neighbours (env : Env) (linkIndex : Z) : list Neigh.t :=
  match NeighList env linkIndex with
  | Success neighs => neighs
  | Failure _ => []
  end.

(** The configuration last written to [path], if any. *)
Definition emitted (s : St) (path : string) : option CNIConf :=
  match files s with
  | (p, Some c) :: _ => if String.eqb p path then Some c else None
  | _ => None
  end.

(** Every error return of [m] comes after a [Fatal] log entry. *)
Definition fatal_on_error {A} (m : M A) : Prop :=
  forall s, is_err (snd (m s)) = true -> fatal_logged (fst (m s)) = true.

(** ** Notions used by the properties of the rest of the program *)

Fixpoint no_colon (s : string) : bool :=
  match s with
  | EmptyString => true
  | String c r => negb (Ascii.eqb c ":") && no_colon r
  end.

(** The value of an environment variable, or the default when the
    variable is unset or empty. *)
Definition env_or (sys : Sys) (envVar defaultVal : string) : string :=
  if String.eqb (Getenv sys envVar) "" then defaultVal else Getenv sys envVar.

(** [m] changes nothing but the log. *)
Definition log_only {A} (m : M A) : Prop :=
  forall s,
    fdb (fst (m s)) = fdb s
    /\ routes (fst (m s)) = routes s
    /\ files (fst (m s)) = files s.

(** The calls of [plan] made one after the other on top of the trace
    [t], up to and including the first one that is refused. *)
Fixpoint issue {Op} (call : list (Op * option error) -> Op -> option error)
  (t : list (Op * option error)) (plan : list Op) : list (Op * option error) :=
  match plan with
  | [] => t
  | op :: r =>
    match call t op with
    | None => issue call (t ++ [(op, None)]) r
    | Some e => t ++ [(op, Some e)]
    end
  end.

(** Every call of [plan], made one after the other on top of [t], is
    accepted. *)
Fixpoint accepts {Op} (call : list (Op * option error) -> Op -> option error)
  (t : list (Op * option error)) (plan : list Op) : bool :=
  match plan with
  | [] => true
  | op :: r =>
    match call t op with
    | None => accepts call (t ++ [(op, None)]) r
    | Some _ => false
    end
  end.

Definition accepted {Op} (plan : list Op) : list (Op * option error) :=
  map (fun op => (op, None)) plan.

(** The kernel calls of [CreateNodeVxlanIface], once the interface it
    added is known as [link]. *)
Definition vxlan_plan (name : string) (extIface : Iface.t) (link : Link.t)
  (vtepIPNet : net_IPNet) : list KernelOp :=
  [LinkAdd (Vxlan.mk name 42 (Link.Index (Iface.Link extIface)) 4789);
   LinkSetUp link;
   AddrAdd link vtepIPNet].

(** The requests that create the four cubes and their ports. *)
Definition creation_plan (env : Env) (nodeInfo : NodeInfo) (conf : EnvConf) : list Request :=
  [CreateSimplebridgeByID (bridgeName conf)
     (Simplebridge.mk (bridgeName conf) "TRACE" [SbPorts.mk "to_r0" ""]);
   CreateRouterByID (routerName conf)
     (RouterBody.mk (routerName conf)
        [Ports.mk "to_br0" (IPNet_String env (GwInfo.IPNet (podGwInfo nodeInfo)))
           (HardwareAddr_String (GwInfo.MAC (podGwInfo nodeInfo))) "";
         Ports.mk "to_vxlan0" "" "" "";
         Ports.mk "to_lbrp0" (IPNet_String env (Iface.IPNet (extIface nodeInfo)))
           (HardwareAddr_String (Link.HardwareAddr (Iface.Link (extIface nodeInfo)))) ""]
        "TRACE"
        [Route.mk "0.0.0.0/0" (IP_String env (IP (GwInfo.IPNet (nodeGwInfo nodeInfo))))
           "to_lbrp0"]
        [ArpTable.mk (IP_String env (IP (GwInfo.IPNet (nodeGwInfo nodeInfo))))
           (HardwareAddr_String (GwInfo.MAC (nodeGwInfo nodeInfo))) "to_lbrp0"]);
   CreateLbrpByID (lbrpName conf)
     (Lbrp.mk (lbrpName conf) "TRACE"
        [LbPorts.mk "to_r0" "backend" ""; LbPorts.mk "to_k0" "frontend" ""]);
   CreateK8sdispatcherByID (k8sDispName conf)
     (K8sdispatcher.mk (k8sDispName conf) "" "" "" "TRACE"
        [KPorts.mk "to_lbrp0" "BACKEND" ""] false false
        "11.11.11.0/24" (IPNet_String env (podCIDR nodeInfo)) "3.3.1.3" "30000-32767");
   CreateK8sdispatcherPortsByID (k8sDispName conf) "to_int"
     (KPorts.mk "to_int" "FRONTEND" "")].

(** The requests that set the peer of each port. *)
Definition wiring_plan (conf : EnvConf) (extIface : Iface.t) : list Request :=
  [UpdateSimplebridgePortsByID (bridgeName conf) "to_r0"
     (SbPorts.mk "" (routerName conf ++ ":to_br0"));
   UpdateRouterPortsByID (routerName conf) "to_br0"
     (Ports.mk "" "" "" (bridgeName conf ++ ":to_r0"));
   UpdateRouterPortsByID (routerName conf) "to_vxlan0" (Ports.mk "" "" "" "vxlan0");
   UpdateRouterPortsByID (routerName conf) "to_lbrp0"
     (Ports.mk "" "" "" (lbrpName conf ++ ":to_r0"));
   UpdateLbrpPortsByID (lbrpName conf) "to_r0"
     (LbPorts.mk "" "" (routerName conf ++ ":to_lbrp0"));
   UpdateLbrpPortsByID (lbrpName conf) "to_k0"
     (LbPorts.mk "" "" (k8sDispName conf ++ ":to_lbrp0"));
   UpdateK8sdispatcherPortsByID (k8sDispName conf) "to_lbrp0"
     (KPorts.mk "" "" (lbrpName conf ++ ":to_k0"));
   UpdateK8sdispatcherPortsByID (k8sDispName conf) "to_int"
     (KPorts.mk "" "" (Link.Name (Iface.Link extIface)))]%string.

Definition cubes_plan (env : Env) (nodeInfo : NodeInfo) (conf : EnvConf) : list Request :=
  creation_plan env nodeInfo conf ++ wiring_plan conf (extIface nodeInfo).

(** The kinds of cube, and a port of a cube: kind, cube name, port
    name. *)
Inductive Cube : Type := BridgeCube | RouterCube | LbrpCube | K8sdispatcherCube.

Definition Endpoint : Type := (Cube * string * string)%type.

(** The ports a request creates. *)
Definition created_ports (req : Request) : list Endpoint :=
  match req with
  | CreateSimplebridgeByID n br =>
    map (fun p => (BridgeCube, n, SbPorts.Name p)) (Simplebridge.Ports br)
  | CreateRouterByID n r =>
    map (fun p => (RouterCube, n, Ports.Name p)) (RouterBody.Ports r)
  | CreateLbrpByID n lb =>
    map (fun p => (LbrpCube, n, LbPorts.Name p)) (Lbrp.Ports lb)
  | CreateK8sdispatcherByID n k =>
    map (fun p => (K8sdispatcherCube, n, KPorts.Name p)) (K8sdispatcher.Ports k)
  | CreateK8sdispatcherPortsByID n p _ => [(K8sdispatcherCube, n, p)]
  | _ => []
  end.

(** The port a request sets the peer of, with that peer. *)
Definition wired_port (req : Request) : list (Endpoint * string) :=
  match req with
  | UpdateSimplebridgePortsByID n p port => [((BridgeCube, n, p), SbPorts.Peer port)]
  | UpdateRouterPortsByID n p port => [((RouterCube, n, p), Ports.Peer port)]
  | UpdateLbrpPortsByID n p port => [((LbrpCube, n, p), LbPorts.Peer port)]
  | UpdateK8sdispatcherPortsByID n p port => [((K8sdispatcherCube, n, p), KPorts.Peer port)]
  | _ => []
  end.

(** Every error return of [m] comes after a [Fatal] log entry. *)
Definition fatal_on_errorW {A} (m : W A) : Prop :=
  forall w, is_err (snd (m w)) = true -> fatal_logged (base (fst (m w))) = true.

(** [m] changes nothing but the log. *)
Definition log_onlyW {A} (m : W A) : Prop :=
  forall w,
    kernel (fst (m w)) = kernel w
    /\ rest (fst (m w)) = rest w
    /\ fdb (base (fst (m w))) = fdb (base w)
    /\ routes (base (fst (m w))) = routes (base w)
    /\ files (base (fst (m w))) = files (base w).

(** [m] makes the requests of [plan] one after the other and stops at
    the first one that is refused; it returns an error then and
    succeeds otherwise, and it changes nothing else but the log. *)
Definition requests (sys : Sys) (m : W unit) (plan : list Request) : Prop :=
  forall w,
    rest (fst (m w)) = issue (RestCall sys) (rest w) plan
    /\ (if accepts (RestCall sys) (rest w) plan
        then snd (m w) = Ok tt
        else is_err (snd (m w)) = true)
    /\ kernel (fst (m w)) = kernel w
    /\ fdb (base (fst (m w))) = fdb (base w)
    /\ routes (base (fst (m w))) = routes (base w)
    /\ files (base (fst (m w))) = files (base w).

(** [m] never panics. *)
Definition never_panics {A} (m : M A) : Prop :=
  forall s, snd (m s) <> Panic.

(** The request of the route of the peer [node] is reached, with the
    forwarding database [table] at hand, and the router refuses it: the
    pod range and the VTEP address of the peer are obtained, the VXLAN
    interface is found, the kernel takes the FDB entry of the peer, and
    [CreateRouterRouteByID] returns an error. *)
Definition route_refused (env : Env) (conf : EnvConf) (node : Node.t)
  (table : list Neigh.t) : Prop :=
  exists x nodePodCIDR nodeVtepIPNet link,
    ParseCIDR env (Node.PodCIDR node) = Success (x, nodePodCIDR)
    /\ (forall s, snd (CalcNodeVtepIPNet node (vtepCIDR conf) s) = Ok nodeVtepIPNet)
    /\ LinkByName env (vxlanIfName conf) = Success link
    /\ NeighAppend env table (fdb_entry link (internalIP env node)) = None
    /\ CreateRouterRouteByID env "r0"
         (snd (vxlan_route env nodePodCIDR (IP nodeVtepIPNet))) <> None.

(** * Properties *)

(** ** Big-endian bytes and the successor of an address *)

Lemma be_bytes_4 (k : nat) (v : Z) :
  2 ^ 24 <= v < 2 ^ 32 -> be_bytes (5 + k) v [] = be4 v.
Proof.
  intros Hv. unfold be4. cbn [be_bytes Nat.add].
  assert (H1 : 0 < v) by lia.
  assert (H2 : 0 < v / 256) by (Z.to_euclidean_division_equations; lia).
  assert (H3 : 0 < v / 256 / 256) by (Z.to_euclidean_division_equations; lia).
  assert (H4 : 0 < v / 256 / 256 / 256) by (Z.to_euclidean_division_equations; lia).
  assert (H5 : v / 256 / 256 / 256 / 256 = 0) by (Z.to_euclidean_division_equations; lia).
  destruct (Z.leb_spec v 0); [lia|].
  destruct (Z.leb_spec (v / 256) 0); [lia|].
  destruct (Z.leb_spec (v / 256 / 256) 0); [lia|].
  destruct (Z.leb_spec (v / 256 / 256 / 256) 0); [lia|].
  rewrite H5. reflexivity.
Qed.

(** A number in [[2^24, 2^32)] has exactly four bytes. *)
Lemma Bytes_be4 (v : Z) : 2 ^ 24 <= v < 2 ^ 32 -> Bytes v = be4 v.
Proof.
  intros Hv. unfold Bytes. rewrite Z.abs_eq by lia.
  assert (24 <= Z.log2 v).
  { change 24 with (Z.log2 (2 ^ 24)). apply Z.log2_le_mono. lia. }
  replace (S (Z.to_nat (Z.log2 v))) with (5 + (Z.to_nat (Z.log2 v) - 4))%nat by lia.
  apply be_bytes_4; assumption.
Qed.

Lemma SetBytes_4 (a b c d : Z) :
  SetBytes [a; b; c; d] = ((a * 256 + b) * 256 + c) * 256 + d.
Proof. reflexivity. Qed.

Lemma SetBytes_4_range (a b c d : Z) :
  is_byte a -> is_byte b -> is_byte c -> is_byte d ->
  0 <= SetBytes [a; b; c; d] < 2 ^ 32.
Proof. unfold is_byte. intros. rewrite SetBytes_4. lia. Qed.

Lemma be4_SetBytes (a b c d : Z) :
  is_byte a -> is_byte b -> is_byte c -> is_byte d ->
  be4 (SetBytes [a; b; c; d]) = [a; b; c; d].
Proof.
  unfold is_byte. intros. rewrite SetBytes_4. unfold be4.
  repeat f_equal; Z.to_euclidean_division_equations; lia.
Qed.

Lemma SetBytes_be4 (v : Z) : 0 <= v < 2 ^ 32 -> SetBytes (be4 v) = v.
Proof.
  intros. unfold be4. rewrite SetBytes_4. Z.to_euclidean_division_equations; lia.
Qed.

Lemma ipToInt_be4 (v : Z) : 0 <= v < 2 ^ 32 -> ipToInt (be4 v) = v.
Proof.
  intros. change (ipToInt (be4 v)) with (SetBytes (be4 v)). apply SetBytes_be4. assumption.
Qed.

Lemma NextIP_be4 (v : Z) :
  0 <= v -> 2 ^ 24 <= v + 1 < 2 ^ 32 -> NextIP (be4 v) = be4 (v + 1).
Proof.
  intros H0 Hv. unfold NextIP, intToIP.
  rewrite ipToInt_be4 by lia. apply Bytes_be4. assumption.
Qed.

Lemma PrevIP_be4 (v : Z) :
  v < 2 ^ 32 -> 2 ^ 24 <= v - 1 -> PrevIP (be4 v) = be4 (v - 1).
Proof.
  intros H0 Hv. unfold PrevIP, intToIP.
  rewrite ipToInt_be4 by lia. apply Bytes_be4. lia.
Qed.

Lemma iter_NextIP_be4 (n : nat) (b : Z) :
  2 ^ 24 <= b -> b + Z.of_nat n < 2 ^ 32 ->
  Nat.iter n NextIP (be4 b) = be4 (b + Z.of_nat n).
Proof.
  intros Hb. induction n as [|n IH]; intros Hn.
  - cbn. f_equal. lia.
  - rewrite Nat.iter_succ, IH by lia. rewrite NextIP_be4 by lia. f_equal. lia.
Qed.

(** ** Bytes under [|] and [^] *)

Lemma uint8_not_byte (m : Z) : is_byte (uint8_not m).
Proof.
  unfold is_byte, uint8_not. change 255 with (Z.ones 8).
  rewrite Z.land_ones by lia. apply Z.mod_pos_bound. lia.
Qed.

Lemma lor_byte (a b : Z) : is_byte a -> is_byte b -> is_byte (Z.lor a b).
Proof.
  unfold is_byte. intros Ha Hb. split.
  - apply Z.lor_nonneg. lia.
  - destruct (Z.eq_dec (Z.lor a b) 0) as [E|E]; [lia|].
    assert (0 <= Z.lor a b) by (apply Z.lor_nonneg; lia).
    change 256 with (2 ^ 8). apply Z.log2_lt_pow2; [lia|].
    rewrite Z.log2_lor by lia.
    assert (Z.log2 a < 8).
    { destruct (Z.eq_dec a 0) as [->|]; [cbn; lia|]. apply Z.log2_lt_pow2; lia. }
    assert (Z.log2 b < 8).
    { destruct (Z.eq_dec b 0) as [->|]; [cbn; lia|]. apply Z.log2_lt_pow2; lia. }
    lia.
Qed.

Lemma byte_concat (x y : Z) : is_byte y -> x * 256 + y = Z.lor (Z.shiftl x 8) y.
Proof.
  intros Hy. rewrite Z.shiftl_mul_pow2 by lia. change (2 ^ 8) with 256.
  assert (H0 : Z.land (x * 256) y = 0).
  { apply Z.bits_inj'. intros n Hn.
    rewrite Z.land_spec, Z.bits_0.
    destruct (Z.lt_ge_cases n 8) as [Hlt|Hge].
    - change 256 with (2 ^ 8). rewrite Z.mul_pow2_bits_low by lia. reflexivity.
    - replace (Z.testbit y n) with false; [apply andb_false_r|].
      symmetry. destruct (Z.eq_dec y 0) as [->|Hy0]; [apply Z.bits_0|].
      apply Z.bits_above_log2; [unfold is_byte in Hy; lia|].
      assert (Z.log2 y < 8) by (apply Z.log2_lt_pow2; unfold is_byte in Hy; lia). lia. }
  rewrite <- Z.add_lor_land, H0. lia.
Qed.

Lemma lor_concat (x1 x2 y1 y2 : Z) :
  is_byte y1 -> is_byte y2 ->
  Z.lor (x1 * 256 + y1) (x2 * 256 + y2) = Z.lor x1 x2 * 256 + Z.lor y1 y2.
Proof.
  intros H1 H2.
  rewrite (byte_concat x1 y1 H1), (byte_concat x2 y2 H2),
    (byte_concat (Z.lor x1 x2) (Z.lor y1 y2) (lor_byte _ _ H1 H2)).
  rewrite Z.shiftl_lor.
  rewrite <- !Z.lor_assoc. f_equal.
  rewrite !Z.lor_assoc. f_equal. apply Z.lor_comm.
Qed.

Lemma uint8_not_sub (m : Z) : is_byte m -> uint8_not m = 255 - m.
Proof.
  unfold is_byte, uint8_not. intros Hm. change 255 with (Z.ones 8) at 1.
  rewrite Z.land_ones by lia. unfold Z.lnot. change (2 ^ 8) with 256.
  symmetry. apply (Z.mod_unique_pos _ _ (-1)); lia.
Qed.

(** The broadcast address built byte by byte is, as a 32-bit number, the
    network address OR-ed with the host mask. *)
Lemma SetBytes_broadcastIP (c : net_IPNet) :
  List.length (IP c) = 4%nat -> List.length (Mask c) = 4%nat ->
  Forall is_byte (IP c) -> Forall is_byte (Mask c) ->
  SetBytes (broadcastIP c) = Z.lor (SetBytes (IP c)) (2 ^ 32 - 1 - SetBytes (Mask c)).
Proof.
  destruct c as [ip mask]. cbn [IP Mask]. intros Hip Hmask Bip Bmask.
  destruct ip as [|a [|b [|c [|d [|? ?]]]]]; try discriminate.
  destruct mask as [|m0 [|m1 [|m2 [|m3 [|? ?]]]]]; try discriminate.
  inversion Bip as [|? ? Ha B1]; subst. inversion B1 as [|? ? Hb B2]; subst.
  inversion B2 as [|? ? Hc B3]; subst. inversion B3 as [|? ? Hd _]; subst.
  inversion Bmask as [|? ? H0 M1]; subst. inversion M1 as [|? ? H1 M2]; subst.
  inversion M2 as [|? ? H2 M3]; subst. inversion M3 as [|? ? H3 _]; subst.
  unfold broadcastIP. cbn [IP Mask combine map fst snd].
  rewrite !uint8_not_sub by assumption. rewrite !SetBytes_4.
  replace (2 ^ 32 - 1 - (((m0 * 256 + m1) * 256 + m2) * 256 + m3))
    with ((((255 - m0) * 256 + (255 - m1)) * 256 + (255 - m2)) * 256 + (255 - m3)) by lia.
  assert (is_byte (255 - m0) /\ is_byte (255 - m1) /\ is_byte (255 - m2) /\ is_byte (255 - m3))
    as (N0 & N1 & N2 & N3) by (unfold is_byte in *; lia).
  rewrite !lor_concat by assumption. reflexivity.
Qed.


(** ** The pod gateway *)

Lemma broadcast_loop_4 (c : net_IPNet) :
  List.length (IP c) = 4%nat -> (4 <= List.length (Mask c))%nat ->
  broadcast_loop (seq 0 (List.length (IP c))) (IP c) (Mask c) [0; 0; 0; 0]
  = Some (broadcastIP c)
  /\ List.length (broadcastIP c) = 4%nat.
Proof.
  destruct c as [ip mask]. cbn [IP Mask]. intros Hip Hmask.
  destruct ip as [|a [|b [|c [|d [|? ?]]]]]; try discriminate.
  destruct mask as [|m0 [|m1 [|m2 [|m3 rest]]]]; cbn in Hmask; try lia.
  split; reflexivity.
Qed.

Lemma broadcastIP_bytes (c : net_IPNet) :
  Forall is_byte (IP c) -> Forall is_byte (broadcastIP c).
Proof.
  destruct c as [ip mask]. unfold broadcastIP. cbn [IP Mask].
  revert mask. induction ip as [|a ip IH]; intros mask Hip; [constructor|].
  destruct mask as [|m mask]; [constructor|].
  inversion Hip; subst. cbn. constructor.
  - apply lor_byte; [assumption | apply uint8_not_byte].
  - apply IH. assumption.
Qed.

Lemma be4_SetBytes_list (l : list Z) :
  List.length l = 4%nat -> Forall is_byte l ->
  be4 (SetBytes l) = l /\ 0 <= SetBytes l < 2 ^ 32.
Proof.
  intros Hl Hb.
  destruct l as [|a [|b [|c [|d [|? ?]]]]]; try discriminate.
  inversion Hb as [|? ? Ha Hb1]; subst. inversion Hb1 as [|? ? Hb' Hb2]; subst.
  inversion Hb2 as [|? ? Hc Hb3]; subst. inversion Hb3 as [|? ? Hd _]; subst.
  split; [apply be4_SetBytes | apply SetBytes_4_range]; assumption.
Qed.

Lemma PrevIP_4 (l : list Z) :
  List.length l = 4%nat -> Forall is_byte l -> 2 ^ 24 < SetBytes l ->
  PrevIP l = be4 (SetBytes l - 1).
Proof.
  intros Hl Hb Hv. destruct (be4_SetBytes_list l Hl Hb) as [E R].
  rewrite <- E at 1. apply PrevIP_be4; lia.
Qed.

Lemma NextIP_4 (l : list Z) :
  List.length l = 4%nat -> Forall is_byte l -> 2 ^ 24 <= SetBytes l + 1 < 2 ^ 32 ->
  NextIP l = be4 (SetBytes l + 1).
Proof.
  intros Hl Hb Hv. destruct (be4_SetBytes_list l Hl Hb) as [E R].
  rewrite <- E at 1. apply NextIP_be4; lia.
Qed.

(** On a four-byte address the loop fills the four bytes of the
    broadcast address, and the gateway is [ip.PrevIP] of it. *)
Lemma CalcNodePodDefaultGateway_run (c : net_IPNet) (s : St) :
  List.length (IP c) = 4%nat -> (4 <= List.length (Mask c))%nat ->
  snd (CalcNodePodDefaultGateway c s)
  = Ok (GwInfo.mk (mkIPNet (PrevIP (broadcastIP c)) (Mask c)) []).
Proof.
  intros Hip Hmask. unfold CalcNodePodDefaultGateway.
  destruct (broadcast_loop_4 c Hip Hmask) as [-> _]. reflexivity.
Qed.

(** For a four-byte address under a four-byte mask, away from the
    addresses whose first byte is zero, the gateway is the four-byte
    address just below the broadcast address, with the mask of the pod
    CIDR and no MAC yet. *)
Theorem CalcNodePodDefaultGateway_below_broadcast (c : net_IPNet) (s : St) :
  List.length (IP c) = 4%nat -> List.length (Mask c) = 4%nat ->
  Forall is_byte (IP c) ->
  2 ^ 24 < SetBytes (broadcastIP c) ->
  snd (CalcNodePodDefaultGateway c s)
  = Ok (GwInfo.mk (mkIPNet (be4 (SetBytes (broadcastIP c) - 1)) (Mask c)) []).
Proof.
  intros Hip Hmask4 Hb Hv.
  assert (Hmask : (4 <= List.length (Mask c))%nat) by lia.
  rewrite CalcNodePodDefaultGateway_run by assumption.
  destruct (broadcast_loop_4 c Hip Hmask) as [_ Hlen].
  rewrite (PrevIP_4 _ Hlen (broadcastIP_bytes c Hb) Hv). reflexivity.
Qed.

Lemma CalcNodePodDefaultGateway_below_broadcast_witness :
  snd (CalcNodePodDefaultGateway (mkIPNet [10; 10; 3; 0] [255; 255; 255; 0]) Sample.st0)
  = Ok (GwInfo.mk (mkIPNet [10; 10; 3; 254] [255; 255; 255; 0]) []).
Proof.
  apply (CalcNodePodDefaultGateway_below_broadcast
           (mkIPNet [10; 10; 3; 0] [255; 255; 255; 0]) Sample.st0).
  - reflexivity.
  - reflexivity.
  - repeat constructor; unfold is_byte; lia.
  - vm_compute. reflexivity.
Defined.

(** C1, at the pod CIDR 0.0.0.0/24.  The broadcast address is 0.0.0.255
    and the address below it is 0.0.0.254; [CalcNodePodDefaultGateway]
    returns the one-byte slice [[254]] instead, because [ip.PrevIP] goes
    through [big.Int.Bytes], which drops leading zero bytes.  The slice
    is not [Equal] to 0.0.0.254 and prints as an invalid address. *)
Theorem CalcNodePodDefaultGateway_first_byte_zero :
  let podCIDR := mkIPNet [0; 0; 0; 0] [255; 255; 255; 0] in
  broadcastIP podCIDR = [0; 0; 0; 255]
  /\ be4 (SetBytes (broadcastIP podCIDR) - 1) = [0; 0; 0; 254]
  /\ snd (CalcNodePodDefaultGateway podCIDR Sample.st0)
     = Ok (GwInfo.mk (mkIPNet [254] [255; 255; 255; 0]) [])
  /\ IP_Equal [254] [0; 0; 0; 254] = false
  /\ IP_String Sample.env [254] = "?fe".
Proof. cbv zeta. repeat split; vm_compute; reflexivity. Qed.

(** C10.  [CalcNodePodDefaultGateway] has no error return at all; on a
    CIDR with a four-byte address (and a mask of at least four bytes, as
    every mask of [net.ParseCIDR] is) it returns a [GwInfo], and the
    [GwInfo] it returns always has a nil MAC and the mask of its input. *)
Theorem CalcNodePodDefaultGateway_no_error_nil_MAC (podCIDR : net_IPNet) (s : St) :
  is_err (snd (CalcNodePodDefaultGateway podCIDR s)) = false
  /\ (forall gwInfo, snd (CalcNodePodDefaultGateway podCIDR s) = Ok gwInfo ->
        GwInfo.MAC gwInfo = [] /\ Mask (GwInfo.IPNet gwInfo) = Mask podCIDR)
  /\ (List.length (IP podCIDR) = 4%nat -> (4 <= List.length (Mask podCIDR))%nat ->
        is_ok (snd (CalcNodePodDefaultGateway podCIDR s)) = true).
Proof.
  unfold CalcNodePodDefaultGateway. split; [|split].
  - destruct (broadcast_loop _ _ _ _); reflexivity.
  - intros gwInfo Hgw.
    destruct (broadcast_loop _ _ _ _); cbn in Hgw; [|discriminate].
    injection Hgw as <-. split; reflexivity.
  - intros Hip Hmask. destruct (broadcast_loop_4 podCIDR Hip Hmask) as [-> _].
    reflexivity.
Qed.

Lemma CalcNodePodDefaultGateway_no_error_nil_MAC_witness :
  is_ok (snd (CalcNodePodDefaultGateway (mkIPNet [10; 10; 3; 0] [255; 255; 255; 0])
                Sample.st0)) = true.
Proof.
  apply (CalcNodePodDefaultGateway_no_error_nil_MAC
           (mkIPNet [10; 10; 3; 0] [255; 255; 255; 0]) Sample.st0).
  - reflexivity.
  - cbn. lia.
Defined.

(** ** The VTEP address *)

Lemma parse_digits_not_digits (s : string) (n : Z) :
  all_digits s = false -> exists e, parse_digits s n = Failure e.
Proof.
  revert n. induction s as [|c r IH]; intros n H; cbn in *; [discriminate|].
  destruct (is_digit c); cbn in H; [|eexists; reflexivity].
  destruct (n >=? _); [eexists; reflexivity|].
  destruct (_ >? _); [eexists; reflexivity|].
  apply IH. assumption.
Qed.

(** [Atoi] rejects what is not a decimal integer. *)
Lemma Atoi_not_decimal (s : string) :
  is_decimal_integer s = false -> exists e, Atoi s = Failure e.
Proof.
  destruct s as [|c r]; [eexists; reflexivity|].
  unfold is_decimal_integer, Atoi.
  destruct (Ascii.eqb c "-") eqn:Em; cbn [orb].
  - destruct r as [|c' r']; [eexists; reflexivity|]. cbn [String.eqb negb andb].
    intros H. destruct (parse_digits_not_digits _ 0 H) as [e ->]. eexists; reflexivity.
  - destruct (Ascii.eqb c "+") eqn:Ep.
    + destruct r as [|c' r']; [eexists; reflexivity|]. cbn [String.eqb negb andb].
      intros H. destruct (parse_digits_not_digits _ 0 H) as [e ->]. eexists; reflexivity.
    + intros H. destruct (parse_digits_not_digits _ 0 H) as [e ->]. eexists; reflexivity.
Qed.

(** *** Decimal text read back *)

Lemma digit_is_digit (d : Z) :
  0 <= d < 10 -> is_digit (digit d) = true /\ digit_val (digit d) = d.
Proof.
  intros Hd. unfold is_digit, digit_val, digit.
  rewrite nat_ascii_embedding by lia.
  split.
  - apply andb_true_iff. split; apply Nat.leb_le; lia.
  - lia.
Qed.

Lemma parse_uitoa_aux (f : nat) :
  forall v acc,
    0 <= v < 2 ^ Z.of_nat f -> v <= maxUint64 ->
    parse_digits (uitoa_aux f v acc) 0 = parse_digits acc v.
Proof.
  induction f as [|f IH]; intros v acc Hv Hmax.
  - cbn in Hv. assert (v = 0) by lia. subst. reflexivity.
  - cbn [uitoa_aux].
    assert (Hd : 0 <= v mod 10 < 10) by (apply Z.mod_pos_bound; lia).
    destruct (digit_is_digit _ Hd) as [Hdig Hval].
    assert (Hstep : forall n, 0 <= n -> n * 10 + v mod 10 <= maxUint64 ->
                       parse_digits (String (digit (v mod 10)) acc) n
                       = parse_digits acc (n * 10 + v mod 10)).
    { intros n Hn Hb. cbn [parse_digits]. rewrite Hdig, Hval.
      unfold maxUint64 in *.
      destruct (Z.geb_spec n ((2 ^ 64 - 1) / 10 + 1)) as [Hge|Hlt].
      - exfalso. change ((2 ^ 64 - 1) / 10 + 1) with 1844674407370955162 in Hge. lia.
      - destruct (Z.gtb_spec (n * 10 + v mod 10) (2 ^ 64 - 1)); [lia | reflexivity]. }
    destruct (Z.ltb_spec v 10) as [Hlt|Hge].
    + rewrite Hstep by (unfold maxUint64; lia).
      rewrite Z.mod_small by lia. reflexivity.
    + rewrite IH.
      * rewrite Hstep.
        -- f_equal. Z.to_euclidean_division_equations; lia.
        -- Z.to_euclidean_division_equations; lia.
        -- Z.to_euclidean_division_equations; lia.
      * rewrite Nat2Z.inj_succ, Z.pow_succ_r in Hv by lia.
        Z.to_euclidean_division_equations; lia.
      * Z.to_euclidean_division_equations; lia.
Qed.

Lemma parse_uitoa (v : Z) :
  0 <= v <= maxUint64 -> parse_digits (uitoa v) 0 = Success v.
Proof.
  intros Hv. unfold uitoa. rewrite parse_uitoa_aux; [reflexivity | | lia].
  split; [lia|]. destruct (Z.eq_dec v 0) as [->|Hn]; [cbn; lia|].
  rewrite Nat2Z.inj_succ, Z2Nat.id by apply Z.log2_nonneg.
  apply Z.log2_spec. lia.
Qed.

Lemma uitoa_aux_head (f : nat) :
  forall v acc,
    0 <= v ->
    (exists c r, acc = String c r /\ is_digit c = true) \/ (f <> 0)%nat ->
    exists c r, uitoa_aux f v acc = String c r /\ is_digit c = true.
Proof.
  induction f as [|f IH]; intros v acc Hv H.
  - destruct H as [H|H]; [exact H | congruence].
  - cbn [uitoa_aux].
    assert (Hd : 0 <= v mod 10 < 10) by (apply Z.mod_pos_bound; lia).
    destruct (digit_is_digit _ Hd) as [Hdig _].
    destruct (v <? 10).
    + eexists _, _. split; [reflexivity | exact Hdig].
    + apply IH; [Z.to_euclidean_division_equations; lia|].
      left. eexists _, _. split; [reflexivity | exact Hdig].
Qed.

Lemma is_digit_not_sign (c : ascii) :
  is_digit c = true -> Ascii.eqb c "-" = false /\ Ascii.eqb c "+" = false.
Proof.
  intros H. split.
  - destruct (Ascii.eqb_spec c "-") as [->|]; [discriminate H | reflexivity].
  - destruct (Ascii.eqb_spec c "+") as [->|]; [discriminate H | reflexivity].
Qed.

(** [Atoi] reads back the decimal text of an [int]. *)
Lemma Atoi_uitoa (v : Z) : 0 <= v < 2 ^ 63 -> Atoi (uitoa v) = Success v.
Proof.
  intros Hv.
  destruct (uitoa_aux_head (S (Z.to_nat (Z.log2 v))) v "") as (c & r & E & Hc);
    [lia | right; discriminate |].
  fold (uitoa v) in E.
  pose proof (parse_uitoa v) as Hp. rewrite E in *. unfold Atoi.
  destruct (is_digit_not_sign c Hc) as [-> ->]. cbn [orb negb andb].
  rewrite Hp by (unfold maxUint64; lia).
  destruct (Z.geb_spec v (2 ^ 63)); [lia | reflexivity].
Qed.

Lemma substring_all (s : string) : String.substring 0 (String.length s) s = s.
Proof. induction s as [|c s IH]; cbn; [reflexivity | rewrite IH; reflexivity]. Qed.

Lemma HasPrefix_empty (s : string) : HasPrefix s "" = true.
Proof. destruct s; reflexivity. Qed.

Lemma TrimPrefix_worker (s : string) : TrimPrefix ("worker" ++ s) "worker" = s.
Proof.
  unfold TrimPrefix.
  cbn [append HasPrefix Ascii.eqb Bool.eqb andb String.length Nat.sub substring].
  rewrite HasPrefix_empty, Nat.sub_0_r. apply substring_all.
Qed.

(** The result of [CalcNodeVtepIPNet] is a function of the node's name
    and of the pool alone. *)
Lemma CalcNodeVtepIPNet_result (node : Node.t) (vtepCIDR : net_IPNet) (s : St) :
  snd (CalcNodeVtepIPNet node vtepCIDR s)
  = match Atoi (TrimPrefix (Node.Name node) "worker") with
    | Failure _ => Err "failed to extract %q cluster node number for Vtep IP evaluation: %v"
    | Success n => Ok (mkIPNet (Nat.iter (Z.to_nat n) NextIP (IP vtepCIDR)) (Mask vtepCIDR))
    end.
Proof.
  unfold CalcNodeVtepIPNet. destruct (Atoi _); reflexivity.
Qed.


(** C2, as the code has it.  Let the pool base [B] be a four-byte
    address whose first byte is not zero, of value [b].  The node named
    [workerN], and more generally every node whose name, after the
    prefix [worker] is trimmed, reads as the integer [N >= 0], gets the
    pool base advanced by [N] addresses, under the pool's mask, as long
    as [b + N] is still a 32-bit address; over such ordinals the address
    is strictly increasing; the result depends on the name and the pool
    alone; and a remainder that is not a decimal integer is an error. *)
Theorem CalcNodeVtepIPNet_ordinal (pool : net_IPNet) (b : Z) :
  IP pool = be4 b -> 2 ^ 24 <= b < 2 ^ 32 ->
  (forall node N s,
      Node.Name node = ("worker" ++ uitoa N)%string ->
      0 <= N -> b + N < 2 ^ 32 ->
      snd (CalcNodeVtepIPNet node pool s) = Ok (mkIPNet (be4 (b + N)) (Mask pool)))
  /\ (forall node n s,
      Atoi (TrimPrefix (Node.Name node) "worker") = Success n ->
      0 <= n -> b + n < 2 ^ 32 ->
      snd (CalcNodeVtepIPNet node pool s) = Ok (mkIPNet (be4 (b + n)) (Mask pool)))
  /\ (forall node1 node2 n1 n2 s1 s2 r1 r2,
      Atoi (TrimPrefix (Node.Name node1) "worker") = Success n1 ->
      Atoi (TrimPrefix (Node.Name node2) "worker") = Success n2 ->
      0 <= n1 < n2 -> b + n2 < 2 ^ 32 ->
      snd (CalcNodeVtepIPNet node1 pool s1) = Ok r1 ->
      snd (CalcNodeVtepIPNet node2 pool s2) = Ok r2 ->
      ipToInt (IP r1) < ipToInt (IP r2))
  /\ (forall node node' s s',
      Node.Name node = Node.Name node' ->
      snd (CalcNodeVtepIPNet node pool s) = snd (CalcNodeVtepIPNet node' pool s'))
  /\ (forall node s,
      is_decimal_integer (TrimPrefix (Node.Name node) "worker") = false ->
      is_err (snd (CalcNodeVtepIPNet node pool s)) = true).
Proof.
  intros Hpool Hb.
  assert (Hadv : forall node n s,
             Atoi (TrimPrefix (Node.Name node) "worker") = Success n ->
             0 <= n -> b + n < 2 ^ 32 ->
             snd (CalcNodeVtepIPNet node pool s) = Ok (mkIPNet (be4 (b + n)) (Mask pool))).
  { intros node n s Hn H0 Hlt. rewrite CalcNodeVtepIPNet_result, Hn, Hpool.
    rewrite iter_NextIP_be4 by lia. rewrite Z2Nat.id by lia. reflexivity. }
  split.
  { intros node N s Hname H0 Hlt. apply Hadv; try assumption.
    rewrite Hname, TrimPrefix_worker. apply Atoi_uitoa. lia. }
  split; [exact Hadv|]. split; [|split].
  - intros node1 node2 n1 n2 s1 s2 r1 r2 H1 H2 Hlt Hmax E1 E2.
    rewrite (Hadv node1 n1 s1 H1) in E1 by lia.
    rewrite (Hadv node2 n2 s2 H2) in E2 by lia.
    injection E1 as <-. injection E2 as <-. cbn [IP].
    rewrite !ipToInt_be4 by lia. lia.
  - intros node node' s s' E. rewrite !CalcNodeVtepIPNet_result, E. reflexivity.
  - intros node s H. rewrite CalcNodeVtepIPNet_result.
    destruct (Atoi_not_decimal _ H) as [e ->]. reflexivity.
Qed.

Lemma CalcNodeVtepIPNet_ordinal_witness :
  snd (CalcNodeVtepIPNet Sample.worker2 (vtepCIDR Sample.conf) Sample.st0)
  = Ok (mkIPNet [10; 18; 0; 2] [255; 255; 0; 0]).
Proof.
  assert (Hpool : IP (vtepCIDR Sample.conf) = be4 168951808) by reflexivity.
  assert (Hb : 2 ^ 24 <= 168951808 < 2 ^ 32) by lia.
  destruct (CalcNodeVtepIPNet_ordinal (vtepCIDR Sample.conf) 168951808 Hpool Hb) as [H _].
  apply (H Sample.worker2 2 Sample.st0).
  - reflexivity.
  - lia.
  - lia.
Defined.

(** Past the last address: from the base 255.255.255.0 the ordinals 257
    and 258 both end on the same malformed one-byte slice. *)
Example CalcNodeVtepIPNet_worker257 :
  Atoi (TrimPrefix "worker257" "worker") = Success 257
  /\ snd (CalcNodeVtepIPNet (Node.mk "worker257" "" [])
            (mkIPNet [255; 255; 255; 0] [255; 255; 255; 0]) Sample.st0)
     = Ok (mkIPNet [1] [255; 255; 255; 0]).
Proof. split; vm_compute; reflexivity. Qed.

Example CalcNodeVtepIPNet_worker258 :
  Atoi (TrimPrefix "worker258" "worker") = Success 258
  /\ snd (CalcNodeVtepIPNet (Node.mk "worker258" "" [])
            (mkIPNet [255; 255; 255; 0] [255; 255; 255; 0]) Sample.st0)
     = Ok (mkIPNet [1] [255; 255; 255; 0]).
Proof. split; vm_compute; reflexivity. Qed.

(** C2 as stated fails on the code.  Over all the ordinals [Atoi]
    reads it is not strictly increasing: [worker-1] (ordinal [-1]) and
    [worker0] get the same address.  Nor is it over the non-negative
    ordinals alone: from the base 255.255.255.0 the ordinals 257 and 258
    run past the last address and get the same result. *)
Lemma CalcNodeVtepIPNet_not_strictly_increasing :
  ~ (forall (pool : net_IPNet) (node1 node2 : Node.t) (n1 n2 : Z) (r1 r2 : net_IPNet),
        Atoi (TrimPrefix (Node.Name node1) "worker") = Success n1 ->
        Atoi (TrimPrefix (Node.Name node2) "worker") = Success n2 ->
        n1 < n2 ->
        snd (CalcNodeVtepIPNet node1 pool Sample.st0) = Ok r1 ->
        snd (CalcNodeVtepIPNet node2 pool Sample.st0) = Ok r2 ->
        ipToInt (IP r1) < ipToInt (IP r2))
  /\ ~ (forall (pool : net_IPNet) (node1 node2 : Node.t) (n1 n2 : Z) (r1 r2 : net_IPNet),
        List.length (IP pool) = 4%nat ->
        Atoi (TrimPrefix (Node.Name node1) "worker") = Success n1 ->
        Atoi (TrimPrefix (Node.Name node2) "worker") = Success n2 ->
        0 <= n1 < n2 ->
        snd (CalcNodeVtepIPNet node1 pool Sample.st0) = Ok r1 ->
        snd (CalcNodeVtepIPNet node2 pool Sample.st0) = Ok r2 ->
        ipToInt (IP r1) < ipToInt (IP r2)).
Proof.
  split.
  - intros H.
    specialize (H (vtepCIDR Sample.conf)
                  (Node.mk "worker-1" "" []) (Node.mk "worker0" "" []) (-1) 0
                  (mkIPNet [10; 18; 0; 0] [255; 255; 0; 0])
                  (mkIPNet [10; 18; 0; 0] [255; 255; 0; 0])
                  eq_refl eq_refl eq_refl eq_refl eq_refl).
    vm_compute in H. discriminate.
  - intros H.
    assert (H0 : 0 <= 257 < 258) by lia.
    pose proof (H (mkIPNet [255; 255; 255; 0] [255; 255; 255; 0])
                  (Node.mk "worker257" "" []) (Node.mk "worker258" "" []) 257 258
                  (mkIPNet [1] [255; 255; 255; 0])
                  (mkIPNet [1] [255; 255; 255; 0])
                  eq_refl
                  (proj1 CalcNodeVtepIPNet_worker257) (proj1 CalcNodeVtepIPNet_worker258)
                  H0
                  (proj2 CalcNodeVtepIPNet_worker257) (proj2 CalcNodeVtepIPNet_worker258))
      as H'.
    vm_compute in H'. discriminate.
Qed.

(** ** Running the monad *)

Lemma bind_Ok_inv {A B} (m : M A) (k : A -> M B) (s s' : St) (b : B) :
  bind m k s = (s', Ok b) ->
  exists s1 a, m s = (s1, Ok a) /\ k a s1 = (s', Ok b).
Proof.
  unfold bind. destruct (m s) as [s1 [a| |]]; intros H; try discriminate.
  exists s1, a. split; [reflexivity | assumption].
Qed.


(** ** Adding a peer node *)

Lemma AddNode_Ok_inv (env : Env) (vxlanIfName : string) (nodeIP : net_IP)
  (nodePodCIDR : net_IPNet) (nodeVtepIP : net_IP) (s s' : St) :
  AddNode env vxlanIfName nodeIP nodePodCIDR nodeVtepIP s = (s', Ok tt) ->
  exists link,
    LinkByName env vxlanIfName = Success link
    /\ fdb s' = fdb s ++ [fdb_entry link nodeIP]
    /\ routes s' = routes s ++ [vxlan_route env nodePodCIDR nodeVtepIP].
Proof.
  unfold AddNode. destruct (LinkByName env vxlanIfName) as [link|e]; [|discriminate].
  unfold bind at 1. cbn [get_fdb].
  destruct (NeighAppend env (fdb s) _) as [e|]; [discriminate|].
  cbn. destruct (CreateRouterRouteByID env "r0" _) as [e|]; [discriminate|].
  cbn. intros H. injection H as <-. exists link. repeat split.
Qed.

(** C4.  Whatever its outcome, [AddNode] appends at most one entry to
    the forwarding database, on the VXLAN interface it looked up by
    name, and that entry is permanent ([NUD_PERMANENT]) and maps the
    address of the peer node to the all-zero placeholder hardware
    address; when [AddNode] succeeds, it has appended exactly that one
    entry. *)
Theorem AddNode_fdb_entry (env : Env) (vxlanIfName : string) (nodeIP : net_IP)
  (nodePodCIDR : net_IPNet) (nodeVtepIP : net_IP) (s : St) :
  let run := AddNode env vxlanIfName nodeIP nodePodCIDR nodeVtepIP s in
  (exists new,
      fdb (fst run) = fdb s ++ new
      /\ (List.length new <= 1)%nat
      /\ Forall (fun e =>
                   Neigh.State e = NUD_PERMANENT
                   /\ Neigh.IP e = nodeIP
                   /\ Neigh.HardwareAddr e = [0; 0; 0; 0; 0; 0]
                   /\ exists link, LinkByName env vxlanIfName = Success link
                                   /\ Neigh.LinkIndex e = Link.Index link) new)
  /\ (snd run = Ok tt ->
      exists link, LinkByName env vxlanIfName = Success link
                   /\ fdb (fst run) = fdb s ++ [fdb_entry link nodeIP]).
Proof.
  cbv zeta. split.
  - unfold AddNode. destruct (LinkByName env vxlanIfName) as [link|e] eqn:El.
    + unfold bind at 1. cbn [get_fdb].
      destruct (NeighAppend env (fdb s) _) as [e|].
      * exists []. cbn. rewrite app_nil_r. repeat split; [lia | constructor].
      * exists [fdb_entry link nodeIP]. cbn.
        destruct (CreateRouterRouteByID env "r0" _) as [e|]; cbn;
          (repeat split; [lia | constructor; [|constructor]];
           repeat split; exists link; split; reflexivity).
    + exists []. cbn. rewrite app_nil_r. repeat split; [lia | constructor].
  - intros H.
    destruct (AddNode env vxlanIfName nodeIP nodePodCIDR nodeVtepIP s) as [s' r] eqn:E.
    cbn in H. subst r. destruct (AddNode_Ok_inv _ _ _ _ _ _ _ E) as (link & Hl & Hf & _).
    exists link. split; assumption.
Qed.

Lemma AddNode_fdb_entry_witness :
  exists link,
    LinkByName Sample.env "vxlan0" = Success link
    /\ fdb (fst (AddNode Sample.env "vxlan0" [10; 0; 0; 12]
                   (mkIPNet [10; 10; 2; 0] Sample.mask24) [10; 18; 0; 2] Sample.st0))
       = fdb Sample.st0 ++ [fdb_entry link [10; 0; 0; 12]].
Proof.
  apply (AddNode_fdb_entry Sample.env "vxlan0" [10; 0; 0; 12]
           (mkIPNet [10; 10; 2; 0] Sample.mask24) [10; 18; 0; 2] Sample.st0).
  reflexivity.
Defined.

(** ** Reachability of the peers *)






(** ** The uplink gateway *)

Lemma find_none_iff {A} (f : A -> bool) (l : list A) :
  find f l = None <-> forall x, In x l -> f x = false.
Proof.
  split.
  - apply find_none.
  - induction l as [|a l IH]; intros H; [reflexivity|]. cbn.
    rewrite (H a (or_introl eq_refl)). apply IH. intros x Hx. apply H. right. assumption.
Qed.

(** C5.  [GetNodeDefaultGateway] fails exactly when (a) the probe query
    returned a number of routes other than one, or (b) the single
    route leaves through a link whose index is not the external
    interface's, or (c) no entry of the external interface's IPv4
    neighbour table has an address [Equal] to the route's next hop.
    Otherwise it returns the next hop, under the mask of the external
    interface's address, with the hardware address of the first
    neighbour entry that matches. *)
Theorem GetNodeDefaultGateway_fails_exactly_when (env : Env) (extIface : Iface.t) (s : St) :
  let r := snd (GetNodeDefaultGateway env extIface s) in
  let extIfaceLI := Link.Index (Iface.Link extIface) in
  (is_err r = true <->
     List.length (probe_routes env) <> 1%nat
     \/ (exists route, probe_routes env = [route]
                       /\ NlRoute.LinkIndex route <> extIfaceLI)
     \/ (exists route, probe_routes env = [route]
                       /\ forall neigh, In neigh (neighbours env extIfaceLI) ->
                                        IP_Equal (Neigh.IP neigh) (NlRoute.Gw route) = false))
  /\ (is_err r = false ->
      exists route neigh,
        probe_routes env = [route]
        /\ NlRoute.LinkIndex route = extIfaceLI
        /\ find (fun n => IP_Equal (Neigh.IP n) (NlRoute.Gw route))
                (neighbours env extIfaceLI) = Some neigh
        /\ r = Ok (GwInfo.mk (mkIPNet (NlRoute.Gw route) (Mask (Iface.IPNet extIface)))
                             (Neigh.HardwareAddr neigh))).
Proof.
  cbv zeta. unfold GetNodeDefaultGateway, probe_routes, neighbours.
  destruct (RouteGet env (IPv4 1 0 0 0)) as [routes|e].
  2:{ cbn. split; [split; [intros _; left; discriminate | reflexivity] | discriminate]. }
  destruct routes as [|route [|route' rest]].
  { cbn. split; [split; [intros _; left; discriminate | reflexivity] | discriminate]. }
  2:{ cbn. split; [split; [intros _; left; discriminate | reflexivity] | discriminate]. }
  destruct (Z.eqb_spec (NlRoute.LinkIndex route) (Link.Index (Iface.Link extIface)))
    as [Ei|Ei]; cbn [negb].
  2:{ cbn. split; [split; [intros _; right; left; exists route; split; auto | reflexivity]
                  | discriminate]. }
  destruct (NeighList env (Link.Index (Iface.Link extIface))) as [neighs|e].
  2:{ cbn. split; [split; [intros _; right; right; exists route; split; [reflexivity|];
                           intros neigh []
                          | reflexivity]
                  | discriminate]. }
  cbn [IP].
  destruct (find (fun neigh => IP_Equal (Neigh.IP neigh) (NlRoute.Gw route)) neighs)
    as [neigh|] eqn:Ef.
  - cbn. split.
    + split; [discriminate|]. intros [H | [(r0 & Hr & Hi) | (r0 & Hr & Hn)]].
      * cbn in H. congruence.
      * injection Hr as <-. congruence.
      * injection Hr as <-. destruct (find_some _ _ Ef) as [Hin Heq].
        rewrite (Hn neigh Hin) in Heq. discriminate.
    + intros _. exists route, neigh. repeat split; assumption.
  - cbn. split; [|discriminate]. split; [|reflexivity].
    intros _. right; right. exists route. split; [reflexivity|].
    apply find_none_iff. assumption.
Qed.

Lemma GetNodeDefaultGateway_fails_exactly_when_witness :
  exists route neigh,
    probe_routes Sample.env = [route]
    /\ NlRoute.LinkIndex route = 2
    /\ find (fun n => IP_Equal (Neigh.IP n) (NlRoute.Gw route)) (neighbours Sample.env 2)
       = Some neigh
    /\ snd (GetNodeDefaultGateway Sample.env
              (Iface.mk (mkIPNet [10; 0; 0; 11] Sample.mask24) Sample.eth0) Sample.st0)
       = Ok (GwInfo.mk (mkIPNet (NlRoute.Gw route) Sample.mask24) (Neigh.HardwareAddr neigh)).
Proof.
  apply (GetNodeDefaultGateway_fails_exactly_when Sample.env
           (Iface.mk (mkIPNet [10; 0; 0; 11] Sample.mask24) Sample.eth0) Sample.st0).
  reflexivity.
Defined.

(** ** The external interface *)

Lemma scan_links_first_match (env : Env) (extIfaceIP : net_IP)
  (pre post : list Link.t) (link : Link.t) (addrs : list Addr.t) (addr : Addr.t) (s : St) :
  (forall l, In l pre ->
             exists addrs', AddrList env l = Success addrs'
                            /\ forall a, In a addrs' ->
                                         IP_Equal (IP (Addr.IPNet a)) extIfaceIP = false) ->
  AddrList env link = Success addrs ->
  find (fun a => IP_Equal (IP (Addr.IPNet a)) extIfaceIP) addrs = Some addr ->
  snd (scan_links env extIfaceIP (pre ++ link :: post) s)
  = Ok (Iface.mk (Addr.IPNet addr) link).
Proof.
  intros Hpre Hl Hf. induction pre as [|l pre IH]; cbn [app scan_links].
  - rewrite Hl, Hf. reflexivity.
  - destruct (Hpre l (or_introl eq_refl)) as (addrs' & -> & Hno).
    apply find_none_iff in Hno. rewrite Hno. apply IH.
    intros l' Hl'. apply Hpre. right. assumption.
Qed.

Lemma scan_links_no_match (env : Env) (extIfaceIP : net_IP) (links : list Link.t) (s : St) :
  (forall l addrs a, In l links -> AddrList env l = Success addrs -> In a addrs ->
                     IP_Equal (IP (Addr.IPNet a)) extIfaceIP = false) ->
  is_err (snd (scan_links env extIfaceIP links s)) = true.
Proof.
  induction links as [|l links IH]; intros H; cbn [scan_links]; [reflexivity|].
  destruct (AddrList env l) as [addrs|e] eqn:El; [|reflexivity].
  assert (Hno : find (fun a => IP_Equal (IP (Addr.IPNet a)) extIfaceIP) addrs = None).
  { apply find_none_iff. intros a Ha. apply (H l addrs a); auto. left. reflexivity. }
  rewrite Hno. apply IH. intros l' addrs' a Hl'. apply H. right. assumption.
Qed.

(** C6.  Let [ip] be the node's internal address as the cluster reports
    it (the first [InternalIP] entry, parsed).  When the interfaces are
    enumerated as [pre ++ link :: post], no interface of [pre] holds an
    address [Equal] to [ip] (whatever other IPv4 addresses it holds),
    and [addr] is the first address of [link] that is, then
    [GetNodeExtIface] returns [link] paired with the address and prefix
    [addr]; and when no address of any interface is [Equal] to [ip],
    it fails. *)
Theorem GetNodeExtIface_first_owner (env : Env) (node : Node.t) (s : St) :
  (forall links pre link post addrs addr,
      internalIP env node <> [] ->
      LinkList env = Success links ->
      links = pre ++ link :: post ->
      (forall l, In l pre ->
                 exists addrs', AddrList env l = Success addrs'
                                /\ forall a, In a addrs' ->
                                     IP_Equal (IP (Addr.IPNet a)) (internalIP env node) = false) ->
      AddrList env link = Success addrs ->
      find (fun a => IP_Equal (IP (Addr.IPNet a)) (internalIP env node)) addrs = Some addr ->
      snd (GetNodeExtIface env node s) = Ok (Iface.mk (Addr.IPNet addr) link))
  /\ ((forall links l addrs a,
          LinkList env = Success links -> In l links ->
          AddrList env l = Success addrs -> In a addrs ->
          IP_Equal (IP (Addr.IPNet a)) (internalIP env node) = false) ->
      is_err (snd (GetNodeExtIface env node s)) = true).
Proof.
  unfold GetNodeExtIface. split.
  - intros links pre link post addrs addr Hip Hl -> Hpre Ha Hf.
    destruct (internalIP env node) as [|b ip] eqn:Ei; [congruence|].
    rewrite Hl. apply scan_links_first_match with (addrs := addrs); assumption.
  - intros H. destruct (internalIP env node) as [|b ip] eqn:Ei; [reflexivity|].
    destruct (LinkList env) as [links|e] eqn:El; [|reflexivity].
    apply scan_links_no_match. intros l addrs a Hl Ha Hin.
    apply (H links l addrs a); auto.
Qed.

Lemma GetNodeExtIface_first_owner_witness :
  snd (GetNodeExtIface Sample.env Sample.worker1 Sample.st0)
  = Ok (Iface.mk (mkIPNet [10; 0; 0; 11] Sample.mask24) Sample.eth0).
Proof.
  apply (proj1 (GetNodeExtIface_first_owner Sample.env Sample.worker1 Sample.st0)
           [Sample.lo; Sample.eth0] [Sample.lo] Sample.eth0 []
           [Addr.mk (mkIPNet [10; 0; 0; 11] Sample.mask24)]
           (Addr.mk (mkIPNet [10; 0; 0; 11] Sample.mask24))).
  - vm_compute. discriminate.
  - reflexivity.
  - reflexivity.
  - intros l [<-|[]]. eexists. split; [reflexivity|].
    intros a [<-|[]]. reflexivity.
  - reflexivity.
  - reflexivity.
Defined.

(** ** The pod CIDR of a node *)

(** [To4] returns nil or four bytes. *)
Lemma To4_length (ip : net_IP) : To4 ip <> [] -> List.length (To4 ip) = 4%nat.
Proof.
  unfold To4. destruct (Nat.eqb_spec (List.length ip) IPv4len) as [E|E]; [intros _; exact E|].
  destruct (Nat.eqb_spec (List.length ip) IPv6len) as [E6|E6]; cbn [andb]; [|congruence].
  destruct (forallb _ _ && _ && _)%bool; [|congruence].
  intros _. rewrite length_skipn, E6. reflexivity.
Qed.

(** An address is representable in IPv4 when it has four bytes or is a
    sixteen-byte IPv4-mapped address. *)
Lemma To4_nil_iff (ip : net_IP) :
  To4 ip = [] <->
  List.length ip <> 4%nat
  /\ ~ (List.length ip = 16%nat /\ firstn 12 ip = v4InV6Prefix).
Proof.
  unfold To4, IPv4len, IPv6len.
  destruct (Nat.eqb_spec (List.length ip) 4) as [E|E].
  - split; [|tauto]. intros ->. discriminate.
  - destruct (Nat.eqb_spec (List.length ip) 16) as [E6|E6]; cbn [andb]; [|tauto].
    do 16 (destruct ip as [|? ip]; try discriminate).
    destruct ip; [|discriminate]. clear E E6.
    cbn [firstn nth skipn List.length]. unfold v4InV6Prefix.
    match goal with |- context [if ?b then _ else _] => destruct b eqn:Eb end.
    + split; [discriminate|]. intros [_ H]. exfalso. apply H. split; [reflexivity|].
      cbn [forallb] in Eb. repeat rewrite andb_true_iff in Eb.
      decompose [and] Eb.
      repeat match goal with
             | H : (_ =? _) = true |- _ => apply Z.eqb_eq in H
             end.
      subst. reflexivity.
    + split; [|reflexivity]. intros _. split; [lia|]. intros [_ H].
      injection H as; subst. cbn in Eb. discriminate.
Qed.

(** C8.  [ParseNodePodCIDR] returns an error exactly when the node's
    pod CIDR string does not parse or the parsed network address is not
    representable in IPv4 ([To4] is nil); it never panics; and a CIDR it
    returns is the parsed one with its address in the four-byte form. *)
Theorem ParseNodePodCIDR_ipv4_or_error (env : Env) (node : Node.t) (s : St) :
  let r := snd (ParseNodePodCIDR env node s) in
  (is_err r = true <->
     (exists e, ParseCIDR env (Node.PodCIDR node) = Failure e)
     \/ (exists x n, ParseCIDR env (Node.PodCIDR node) = Success (x, n) /\ To4 (IP n) = []))
  /\ (forall podCIDR, r = Ok podCIDR ->
        List.length (IP podCIDR) = 4%nat
        /\ exists x n, ParseCIDR env (Node.PodCIDR node) = Success (x, n)
                       /\ podCIDR = mkIPNet (To4 (IP n)) (Mask n))
  /\ r <> Panic.
Proof.
  cbv zeta. unfold ParseNodePodCIDR.
  destruct (ParseCIDR env (Node.PodCIDR node)) as [[x n]|e].
  - cbn [IP]. destruct (To4 (IP n)) as [|b ip4] eqn:E4.
    + cbn. split; [split; [|reflexivity] | split; [|discriminate]].
      * intros _. right. exists x, n. split; [reflexivity | exact E4].
      * intros podCIDR H. discriminate.
    + cbn. split; [split; [discriminate|] | split; [|discriminate]].
      * intros [[e He] | (x' & n' & He & H4)]; [discriminate|].
        injection He as <- <-. congruence.
      * intros podCIDR [= <-]. cbn [IP]. split.
        -- rewrite <- E4. apply To4_length. congruence.
        -- exists x, n. split; [reflexivity | rewrite E4; reflexivity].
  - cbn. split; [split; [|reflexivity] | split; [|discriminate]].
    + intros _. left. exists e. reflexivity.
    + intros podCIDR H. discriminate.
Qed.

Lemma ParseNodePodCIDR_ipv4_or_error_witness :
  List.length (IP (mkIPNet [10; 10; 1; 0] Sample.mask24)) = 4%nat
  /\ exists x n, ParseCIDR Sample.env (Node.PodCIDR Sample.worker1) = Success (x, n)
                 /\ mkIPNet [10; 10; 1; 0] Sample.mask24 = mkIPNet (To4 (IP n)) (Mask n).
Proof.
  apply (ParseNodePodCIDR_ipv4_or_error Sample.env Sample.worker1 Sample.st0).
  reflexivity.
Defined.

(** ** The MAC of the pod gateway *)

Lemma find_port_unique (ports : list Ports.t) (p : Ports.t) (name : string) :
  NoDup (map Ports.Name ports) -> In p ports -> Ports.Name p = name ->
  find (fun q => String.eqb (Ports.Name q) name) ports = Some p.
Proof.
  induction ports as [|q ports IH]; intros Hnd Hin Hname; [destruct Hin|].
  cbn [map] in Hnd. inversion Hnd as [|? ? Hnot Hnd']; subst. cbn [find].
  destruct Hin as [->|Hin].
  - rewrite String.eqb_refl. reflexivity.
  - destruct (String.eqb_spec (Ports.Name q) (Ports.Name p)) as [E|E].
    + exfalso. apply Hnot. rewrite E. apply in_map. assumption.
    + apply IH; auto.
Qed.

(** C9.  Let the router named in the configuration be readable, and let
    [port] be its port named [to_br0] (the first one of that name; the
    only one when the names of the ports are distinct).
    [GetNodePodDefaultGatewayMAC] returns an error, and no MAC, when the
    router has no such port and when the port's MAC string does not
    parse; it returns a MAC exactly when the port exists and its MAC
    string parses, and the MAC is the parsed one. *)
Theorem GetNodePodDefaultGatewayMAC_port (env : Env) (conf : EnvConf) (s : St)
  (r : Router.t) :
  ReadRouterByID env (routerName conf) = Success r ->
  let res := snd (GetNodePodDefaultGatewayMAC env conf s) in
  let port := find (fun p => String.eqb (Ports.Name p) "to_br0") (Router.Ports r) in
  ((forall p, In p (Router.Ports r) -> Ports.Name p <> "to_br0") -> is_err res = true)
  /\ (forall p e, port = Some p -> ParseMAC env (Ports.Mac p) = Failure e ->
                  is_err res = true)
  /\ (forall mac, res = Ok mac <->
                  exists p, port = Some p /\ ParseMAC env (Ports.Mac p) = Success mac)
  /\ (NoDup (map Ports.Name (Router.Ports r)) ->
      forall mac, res = Ok mac <->
                  exists p, In p (Router.Ports r) /\ Ports.Name p = "to_br0"
                            /\ ParseMAC env (Ports.Mac p) = Success mac)
  /\ (is_ok res = false -> is_err res = true).
Proof.
  intros Hr. cbv zeta.
  assert (Hres : snd (GetNodePodDefaultGatewayMAC env conf s)
                 = match find (fun p => String.eqb (Ports.Name p) "to_br0") (Router.Ports r) with
                   | Some p =>
                     match ParseMAC env (Ports.Mac p) with
                     | Success mac => Ok mac
                     | Failure _ =>
                       Err "failed to parse %q cluster node pod %q default gateway mac: %v"
                     end
                   | None =>
                     Err "failed to retrieve %q cluster node pod %q default gateway mac: %q port not found"
                   end).
  { unfold GetNodePodDefaultGatewayMAC, GetRouter. rewrite Hr. cbn [bind logf ret].
    destruct (find _ _) as [p|]; [destruct (ParseMAC env _)|]; reflexivity. }
  rewrite Hres. clear Hres.
  assert (Hiff : forall mac,
             match find (fun p => String.eqb (Ports.Name p) "to_br0") (Router.Ports r) with
             | Some p =>
               match ParseMAC env (Ports.Mac p) with
               | Success mac => Ok mac
               | Failure _ =>
                 Err "failed to parse %q cluster node pod %q default gateway mac: %v"
               end
             | None =>
               Err "failed to retrieve %q cluster node pod %q default gateway mac: %q port not found"
             end = Ok mac <->
             exists p, find (fun p => String.eqb (Ports.Name p) "to_br0") (Router.Ports r)
                       = Some p /\ ParseMAC env (Ports.Mac p) = Success mac).
  { intros mac. destruct (find _ _) as [p|] eqn:Ef.
    - destruct (ParseMAC env (Ports.Mac p)) as [mac'|e] eqn:Em; split.
      + intros [= <-]. exists p. split; [reflexivity | assumption].
      + intros (p' & [= <-] & Hp). congruence.
      + discriminate.
      + intros (p' & [= <-] & Hp). congruence.
    - split; [discriminate|]. intros (p' & Hp & _). discriminate. }
  split; [|split; [|split; [exact Hiff | split]]].
  - intros Hno. destruct (find _ _) as [p|] eqn:Ef; [|reflexivity].
    destruct (find_some _ _ Ef) as [Hin Hname]. apply String.eqb_eq in Hname.
    exfalso. exact (Hno p Hin Hname).
  - intros p e -> ->. reflexivity.
  - intros Hnd mac. rewrite Hiff. split.
    + intros (p & Ef & Hp). destruct (find_some _ _ Ef) as [Hin Hname].
      apply String.eqb_eq in Hname. exists p. repeat split; assumption.
    + intros (p & Hin & Hname & Hp). exists p. split; [|assumption].
      apply find_port_unique; assumption.
  - destruct (find _ _) as [p|]; [destruct (ParseMAC env _)|]; cbn; congruence.
Qed.

Lemma GetNodePodDefaultGatewayMAC_port_witness :
  snd (GetNodePodDefaultGatewayMAC Sample.env Sample.conf Sample.st0)
  = Ok [170; 187; 204; 221; 238; 255].
Proof.
  destruct (GetNodePodDefaultGatewayMAC_port Sample.env Sample.conf Sample.st0 Sample.r0
              eq_refl) as (_ & _ & H & _).
  apply H. eexists. split; reflexivity.
Defined.

(** ** The CNI configuration *)

Lemma IP_String_be4 (env : Env) (v : Z) : IP_String env (be4 v) = dotted (be4 v).
Proof. reflexivity. Qed.

(** When the file can be created and written, [CreateCNIConfFile]
    succeeds and the configuration it wrote holds these nine values. *)
Lemma CreateCNIConfFile_run (env : Env) (conf : EnvConf) (nodeInfo : NodeInfo) (s : St) :
  os_Create env (CNIConfFilePath conf) = None ->
  (forall c, Fprintf env (CNIConfFilePath conf) c = None) ->
  snd (CreateCNIConfFile env conf nodeInfo s) = Ok tt
  /\ emitted (fst (CreateCNIConfFile env conf nodeInfo s)) (CNIConfFilePath conf)
     = Some (mkCNIConf
               (MTU conf)
               (IPNet_String env (vClusterCIDR conf))
               (bridgeName conf)
               (IP_String env (IP (GwInfo.IPNet (podGwInfo nodeInfo))))
               (HardwareAddr_String (GwInfo.MAC (podGwInfo nodeInfo)))
               (IPNet_String env (podCIDR nodeInfo))
               (IP_String env (NextIP (IP (podCIDR nodeInfo))))
               (IP_String env (PrevIP (IP (GwInfo.IPNet (podGwInfo nodeInfo)))))
               (IP_String env (IP (GwInfo.IPNet (podGwInfo nodeInfo))))).
Proof.
  intros Hc Hf. unfold CreateCNIConfFile. rewrite Hc, Hf.
  cbv beta iota delta [bind put_file ret fst snd emitted files].
  rewrite String.eqb_refl. split; reflexivity.
Qed.

(** Away from the addresses whose first byte is zero and from the end of
    the address space, the emitted IPAM range starts at the pod CIDR's
    network address plus one, ends at the pod gateway's address minus
    one, and has the pod gateway as its gateway. *)
Theorem CreateCNIConfFile_ipam_range (env : Env) (conf : EnvConf) (nodeInfo : NodeInfo)
  (s : St) (v g : Z) :
  os_Create env (CNIConfFilePath conf) = None ->
  (forall c, Fprintf env (CNIConfFilePath conf) c = None) ->
  IP (podCIDR nodeInfo) = be4 v -> 0 <= v -> 2 ^ 24 <= v + 1 < 2 ^ 32 ->
  IP (GwInfo.IPNet (podGwInfo nodeInfo)) = be4 g -> 2 ^ 24 <= g - 1 -> g < 2 ^ 32 ->
  snd (CreateCNIConfFile env conf nodeInfo s) = Ok tt
  /\ exists c,
      emitted (fst (CreateCNIConfFile env conf nodeInfo s)) (CNIConfFilePath conf) = Some c
      /\ ipam_rangeStart c = dotted (be4 (v + 1))
      /\ ipam_rangeEnd c = dotted (be4 (g - 1))
      /\ ipam_gateway c = dotted (be4 g).
Proof.
  intros Hc Hf Hv Hv0 Hv1 Hg Hg1 Hg2.
  destruct (CreateCNIConfFile_run env conf nodeInfo s Hc Hf) as [Hok Hem].
  split; [exact Hok|]. eexists. split; [exact Hem|].
  cbn [ipam_rangeStart ipam_rangeEnd ipam_gateway].
  rewrite Hv, Hg, NextIP_be4, PrevIP_be4 by lia. repeat split.
Qed.

Lemma be4_10_10 (N d : Z) :
  0 <= N < 256 -> 0 <= d < 256 ->
  be4 (168427520 + N * 256 + d) = [10; 10; N; d].
Proof.
  intros HN Hd.
  replace (168427520 + N * 256 + d) with (SetBytes [10; 10; N; d])
    by (rewrite SetBytes_4; lia).
  apply be4_SetBytes; unfold is_byte; lia.
Qed.

(** The worked example of the specification: for the pod CIDR
    10.10.N.0/24 the derived gateway is 10.10.N.254 and the emitted
    range is [10.10.N.1, 10.10.N.253] with gateway 10.10.N.254. *)
Theorem CreateCNIConfFile_example (env : Env) (conf : EnvConf) (nodeInfo : NodeInfo)
  (s s0 : St) (N : Z) (gwInfo : GwInfo.t) :
  0 <= N < 256 ->
  os_Create env (CNIConfFilePath conf) = None ->
  (forall c, Fprintf env (CNIConfFilePath conf) c = None) ->
  podCIDR nodeInfo = mkIPNet [10; 10; N; 0] [255; 255; 255; 0] ->
  snd (CalcNodePodDefaultGateway (podCIDR nodeInfo) s0) = Ok gwInfo ->
  GwInfo.IPNet (podGwInfo nodeInfo) = GwInfo.IPNet gwInfo ->
  GwInfo.IPNet gwInfo = mkIPNet [10; 10; N; 254] [255; 255; 255; 0]
  /\ exists c,
      emitted (fst (CreateCNIConfFile env conf nodeInfo s)) (CNIConfFilePath conf) = Some c
      /\ ipam_rangeStart c = ("10.10." ++ uitoa N ++ ".1")%string
      /\ ipam_rangeEnd c = ("10.10." ++ uitoa N ++ ".253")%string
      /\ ipam_gateway c = ("10.10." ++ uitoa N ++ ".254")%string.
Proof.
  intros HN Hc Hf Hp Hgw Hni.
  assert (Hbc : broadcastIP (podCIDR nodeInfo) = [10; 10; N; 255]).
  { rewrite Hp. unfold broadcastIP. cbn [IP Mask combine map fst snd].
    change (uint8_not 255) with 0. change (uint8_not 0) with 255.
    rewrite !Z.lor_0_r. reflexivity. }
  assert (Hg : GwInfo.IPNet gwInfo = mkIPNet [10; 10; N; 254] [255; 255; 255; 0]).
  { rewrite CalcNodePodDefaultGateway_run in Hgw by (rewrite Hp; cbn; lia).
    injection Hgw as <-. cbn [GwInfo.IPNet]. rewrite Hbc, Hp. cbn [Mask]. f_equal.
    rewrite <- (be4_10_10 N 255), <- (be4_10_10 N 254) by lia.
    rewrite PrevIP_be4 by lia. f_equal. lia. }
  split; [exact Hg|].
  destruct (CreateCNIConfFile_run env conf nodeInfo s Hc Hf) as [_ Hem].
  eexists. split; [exact Hem|].
  cbn [ipam_rangeStart ipam_rangeEnd ipam_gateway]. rewrite Hni, Hg, Hp. cbn [IP].
  rewrite <- (be4_10_10 N 0), <- (be4_10_10 N 254) by lia.
  rewrite NextIP_be4, PrevIP_be4 by lia.
  replace (168427520 + N * 256 + 0 + 1) with (168427520 + N * 256 + 1) by lia.
  replace (168427520 + N * 256 + 254 - 1) with (168427520 + N * 256 + 253) by lia.
  rewrite !IP_String_be4, !be4_10_10 by lia. repeat split.
Qed.

Lemma CreateCNIConfFile_ipam_range_witness :
  exists c,
    emitted (fst (CreateCNIConfFile Sample.env Sample.conf
                    (mkNodeInfo "worker1" Sample.worker1
                       (mkIPNet [10; 10; 1; 0] Sample.mask24)
                       (GwInfo.mk (mkIPNet [10; 10; 1; 254] Sample.mask24)
                          [170; 187; 204; 221; 238; 255])
                       (Iface.mk (mkIPNet [10; 0; 0; 11] Sample.mask24) Sample.eth0)
                       (mkIPNet [10; 18; 0; 1] Sample.mask16)
                       (GwInfo.mk (mkIPNet [10; 0; 0; 1] Sample.mask24) Sample.gwMAC))
                    Sample.st0))
            "/etc/cni/net.d/00-polykube.json" = Some c
    /\ ipam_rangeStart c = "10.10.1.1"
    /\ ipam_rangeEnd c = "10.10.1.253"
    /\ ipam_gateway c = "10.10.1.254".
Proof.
  apply (CreateCNIConfFile_ipam_range Sample.env Sample.conf _ Sample.st0
           168427776 168428030).
  - reflexivity.
  - reflexivity.
  - reflexivity.
  - lia.
  - lia.
  - reflexivity.
  - lia.
  - lia.
Defined.

Lemma CreateCNIConfFile_example_witness :
  exists c,
    emitted (fst (CreateCNIConfFile Sample.env Sample.conf
                    (mkNodeInfo "worker3" Sample.worker1
                       (mkIPNet [10; 10; 3; 0] [255; 255; 255; 0])
                       (GwInfo.mk (mkIPNet [10; 10; 3; 254] [255; 255; 255; 0])
                          [170; 187; 204; 221; 238; 255])
                       (Iface.mk (mkIPNet [10; 0; 0; 11] Sample.mask24) Sample.eth0)
                       (mkIPNet [10; 18; 0; 3] Sample.mask16)
                       (GwInfo.mk (mkIPNet [10; 0; 0; 1] Sample.mask24) Sample.gwMAC))
                    Sample.st0))
            "/etc/cni/net.d/00-polykube.json" = Some c
    /\ ipam_rangeStart c = "10.10.3.1"
    /\ ipam_rangeEnd c = "10.10.3.253"
    /\ ipam_gateway c = "10.10.3.254".
Proof.
  apply (CreateCNIConfFile_example Sample.env Sample.conf _ Sample.st0 Sample.st0 3
           (GwInfo.mk (mkIPNet [10; 10; 3; 254] [255; 255; 255; 0]) [])).
  - lia.
  - reflexivity.
  - reflexivity.
  - reflexivity.
  - reflexivity.
  - reflexivity.
Defined.

(** C7, at the pod CIDR 0.0.0.0/24.  The range should be
    [0.0.0.1, 0.0.0.253] with gateway 0.0.0.254.  The gateway derived
    for this CIDR is the one-byte slice [[254]], [ip.NextIP]
    of 0.0.0.0 is the one-byte slice [[1]], and [ip.PrevIP] of [[254]]
    reads the malformed address as zero; the emitted range has none of
    the three addresses. *)
Theorem CreateCNIConfFile_first_byte_zero :
  let podCIDR := mkIPNet [0; 0; 0; 0] [255; 255; 255; 0] in
  let nodeInfo gw :=
    mkNodeInfo "worker1" Sample.worker1 podCIDR
      (GwInfo.mk (GwInfo.IPNet gw) [170; 187; 204; 221; 238; 255])
      (Iface.mk (mkIPNet [10; 0; 0; 11] Sample.mask24) Sample.eth0)
      (mkIPNet [10; 18; 0; 1] Sample.mask16)
      (GwInfo.mk (mkIPNet [10; 0; 0; 1] Sample.mask24) Sample.gwMAC) in
  exists gw c,
    snd (CalcNodePodDefaultGateway podCIDR Sample.st0) = Ok gw
    /\ snd (CreateCNIConfFile Sample.env Sample.conf (nodeInfo gw) Sample.st0) = Ok tt
    /\ emitted (fst (CreateCNIConfFile Sample.env Sample.conf (nodeInfo gw) Sample.st0))
               (CNIConfFilePath Sample.conf) = Some c
    /\ ipam_subnet c = "0.0.0.0/24"
    /\ ipam_rangeStart c = "?01"
    /\ ipam_rangeEnd c = "?01"
    /\ ipam_gateway c = "?fe".
Proof.
  cbv zeta. eexists. eexists. split; [vm_compute; reflexivity|].
  repeat split; vm_compute; reflexivity.
Qed.

(** ** The gateway of a CIDR of prefix length [p] *)

(** For a CIDR of prefix length [p] whose address is the network address
    (the host bits are zero, as in every CIDR [net.ParseCIDR] returns),
    the broadcast address is the network address plus [2^(32-p) - 1] and
    the gateway is the address just below it. *)
Theorem CalcNodePodDefaultGateway_prefix (c : net_IPNet) (p : Z) (s : St) :
  List.length (IP c) = 4%nat -> List.length (Mask c) = 4%nat ->
  Forall is_byte (IP c) -> Forall is_byte (Mask c) ->
  0 <= p <= 32 ->
  SetBytes (Mask c) = 2 ^ 32 - 2 ^ (32 - p) ->
  SetBytes (IP c) mod 2 ^ (32 - p) = 0 ->
  2 ^ 24 < SetBytes (IP c) + 2 ^ (32 - p) - 1 ->
  SetBytes (broadcastIP c) = SetBytes (IP c) + 2 ^ (32 - p) - 1
  /\ snd (CalcNodePodDefaultGateway c s)
     = Ok (GwInfo.mk (mkIPNet (be4 (SetBytes (IP c) + 2 ^ (32 - p) - 2)) (Mask c)) []).
Proof.
  intros Hip Hmask Bip Bmask Hp Hm Hal Hv.
  assert (Hbc : SetBytes (broadcastIP c) = SetBytes (IP c) + 2 ^ (32 - p) - 1).
  { rewrite SetBytes_broadcastIP by assumption. rewrite Hm.
    replace (2 ^ 32 - 1 - (2 ^ 32 - 2 ^ (32 - p))) with (Z.ones (32 - p))
      by (rewrite Z.ones_equiv; lia).
    assert (H0 : Z.land (SetBytes (IP c)) (Z.ones (32 - p)) = 0)
      by (rewrite Z.land_ones by lia; exact Hal).
    rewrite <- (Z.add_0_r (Z.lor _ _)), <- H0, Z.add_lor_land, Z.ones_equiv. lia. }
  split; [exact Hbc|].
  rewrite CalcNodePodDefaultGateway_run by lia.
  destruct (broadcast_loop_4 c Hip) as [_ Hlen]; [lia|].
  rewrite (PrevIP_4 _ Hlen (broadcastIP_bytes c Bip)) by lia.
  rewrite Hbc.
  replace (SetBytes (IP c) + 2 ^ (32 - p) - 1 - 1) with (SetBytes (IP c) + 2 ^ (32 - p) - 2)
    by lia.
  reflexivity.
Qed.

Lemma CalcNodePodDefaultGateway_prefix_witness :
  snd (CalcNodePodDefaultGateway (mkIPNet [10; 10; 3; 0] [255; 255; 255; 0]) Sample.st0)
  = Ok (GwInfo.mk (mkIPNet (be4 (168428288 + 2 ^ (32 - 24) - 2)) [255; 255; 255; 0]) []).
Proof.
  apply (CalcNodePodDefaultGateway_prefix
           (mkIPNet [10; 10; 3; 0] [255; 255; 255; 0]) 24 Sample.st0).
  - reflexivity.
  - reflexivity.
  - repeat constructor; unfold is_byte; lia.
  - repeat constructor; unfold is_byte; lia.
  - lia.
  - reflexivity.
  - reflexivity.
  - vm_compute. reflexivity.
Defined.

(** ** Errors and the fatal log *)

Lemma fatal_on_error_fatal {A} (msg : string) (e : error) :
  fatal_on_error (logf (Fatal msg) ;; @fail A e).
Proof.
  intros s _. cbn. unfold fatal_logged. cbn [log].
  rewrite existsb_app. cbn. apply orb_true_r.
Qed.

Lemma fatal_on_error_info {A} (msg : string) (a : A) :
  fatal_on_error (logf (Info msg) ;; ret a).
Proof. intros s H. discriminate H. Qed.

Lemma fatal_on_error_ret {A} (a : A) : fatal_on_error (ret a).
Proof. intros s H. discriminate H. Qed.

Lemma fatal_on_error_panic {A} : fatal_on_error (@panic A).
Proof. intros s H. discriminate H. Qed.

Lemma fatal_on_error_bind {A B} (m : M A) (k : A -> M B) :
  fatal_on_error m -> (forall a, fatal_on_error (k a)) -> fatal_on_error (bind m k).
Proof.
  intros Hm Hk s. unfold bind. specialize (Hm s).
  destruct (m s) as [s1 [a| |]]; cbn [fst snd] in *.
  - apply Hk.
  - intros _. apply Hm. reflexivity.
  - discriminate.
Qed.

Lemma fatal_on_error_wrap {A} (m : M A) (e : error) :
  fatal_on_error m -> fatal_on_error (wrap_err m e).
Proof.
  intros Hm s. unfold wrap_err. specialize (Hm s).
  destruct (m s) as [s1 [a| |]]; cbn [fst snd] in *; auto.
Qed.

Lemma fatal_on_error_quiet {A} (m : M A) :
  (forall s, is_err (snd (m s)) = false) -> fatal_on_error m.
Proof. intros H s E. rewrite H in E. discriminate. Qed.

Create HintDb fatal.
#[local] Hint Resolve fatal_on_error_fatal fatal_on_error_info fatal_on_error_ret
  fatal_on_error_panic fatal_on_error_bind fatal_on_error_wrap : fatal.

Ltac fatal_cases :=
  repeat match goal with
         | |- fatal_on_error (match ?x with _ => _ end) => destruct x
         | |- fatal_on_error (if ?b then _ else _) => destruct b
         | |- fatal_on_error (let _ := _ in _) => cbv zeta
         end;
  eauto 8 with fatal.

Lemma GetRouter_fatal (env : Env) (name : string) : fatal_on_error (GetRouter env name).
Proof. unfold GetRouter. fatal_cases. Qed.

Lemma CalcNodeVtepIPNet_fatal (node : Node.t) (pool : net_IPNet) :
  fatal_on_error (CalcNodeVtepIPNet node pool).
Proof. unfold CalcNodeVtepIPNet. fatal_cases. Qed.

Lemma CalcNodePodDefaultGateway_fatal (c : net_IPNet) :
  fatal_on_error (CalcNodePodDefaultGateway c).
Proof. unfold CalcNodePodDefaultGateway. fatal_cases. Qed.

Lemma scan_links_fatal (env : Env) (ip : net_IP) (links : list Link.t) :
  fatal_on_error (scan_links env ip links).
Proof.
  induction links as [|l links IH]; cbn [scan_links]; fatal_cases.
Qed.

Lemma AddNode_fatal (env : Env) (n : string) (ip : net_IP) (c : net_IPNet) (v : net_IP) :
  fatal_on_error (AddNode env n ip c v).
Proof.
  unfold AddNode. destruct (LinkByName env n); [|fatal_cases].
  apply fatal_on_error_bind; [apply fatal_on_error_quiet; reflexivity|].
  intros table. destruct (NeighAppend env table _); [fatal_cases|].
  apply fatal_on_error_bind; [apply fatal_on_error_quiet; reflexivity|]. intros _.
  apply fatal_on_error_bind; [apply fatal_on_error_quiet; reflexivity|]. intros _.
  destruct (CreateRouterRouteByID env "r0" _); [fatal_cases|].
  apply fatal_on_error_bind; [apply fatal_on_error_quiet; reflexivity|]. intros _.
  fatal_cases.
Qed.

Lemma addOtherNodes_loop_fatal (env : Env) (conf : EnvConf) (nodes : list Node.t) :
  fatal_on_error (addOtherNodes_loop env conf nodes).
Proof.
  induction nodes as [|node rest IH]; cbn [addOtherNodes_loop]; [fatal_cases|].
  destruct (is_other_worker conf node); [|exact IH].
  destruct (ParseCIDR env (Node.PodCIDR node)) as [[x c]|e]; [|fatal_cases].
  apply fatal_on_error_bind; [apply fatal_on_error_wrap, CalcNodeVtepIPNet_fatal|].
  intros v. apply fatal_on_error_bind; [apply fatal_on_error_wrap, AddNode_fatal|].
  intros _. exact IH.
Qed.

(** In every function of the program an error return comes after a
    [Fatal] log entry: with logrus' default exit function the process
    ends there, and the error value is never seen by the caller. *)
Theorem error_after_fatal (env : Env) (conf : EnvConf) :
  (forall name, fatal_on_error (GetNode env name))
  /\ (forall node, fatal_on_error (ParseNodePodCIDR env node))
  /\ fatal_on_error (GetNodePodDefaultGatewayMAC env conf)
  /\ (forall node, fatal_on_error (GetNodeExtIface env node))
  /\ (forall node pool, fatal_on_error (CalcNodeVtepIPNet node pool))
  /\ (forall extIface, fatal_on_error (GetNodeDefaultGateway env extIface))
  /\ (forall n ip c v, fatal_on_error (AddNode env n ip c v))
  /\ fatal_on_error (BuildNodeInfo env conf)
  /\ fatal_on_error (addOtherNodes env conf)
  /\ (forall nodeInfo, fatal_on_error (CreateCNIConfFile env conf nodeInfo)).
Proof.
  assert (Hnode : forall name, fatal_on_error (GetNode env name))
    by (intros; unfold GetNode; fatal_cases).
  assert (Hcidr : forall node, fatal_on_error (ParseNodePodCIDR env node)).
  { intros. unfold ParseNodePodCIDR.
    destruct (ParseCIDR env _) as [[x c]|e]; [|fatal_cases].
    cbv zeta. cbn [IP]. destruct (To4 (IP c)); fatal_cases. }
  assert (Hext : forall node, fatal_on_error (GetNodeExtIface env node)).
  { intros. unfold GetNodeExtIface. cbv zeta.
    destruct (internalIP env node); [fatal_cases|].
    destruct (LinkList env); [apply scan_links_fatal | fatal_cases]. }
  assert (Hgw : forall extIface, fatal_on_error (GetNodeDefaultGateway env extIface)).
  { intros. unfold GetNodeDefaultGateway. fatal_cases. }
  repeat split; try assumption.
  - unfold GetNodePodDefaultGatewayMAC.
    apply fatal_on_error_bind; [apply GetRouter_fatal|]. intros r.
    destruct (find _ _); [destruct (ParseMAC env _)|]; fatal_cases.
  - apply CalcNodeVtepIPNet_fatal.
  - apply AddNode_fatal.
  - unfold BuildNodeInfo.
    repeat (apply fatal_on_error_bind;
            [first [apply Hnode | apply Hcidr | apply CalcNodePodDefaultGateway_fatal
                   | apply Hext | apply CalcNodeVtepIPNet_fatal | apply Hgw]
            | intros ?]).
    apply fatal_on_error_ret.
  - unfold addOtherNodes. destruct (NodesList env); [apply addOtherNodes_loop_fatal|].
    fatal_cases.
  - intros nodeInfo. unfold CreateCNIConfFile. cbv zeta.
    destruct (os_Create env _); [fatal_cases|].
    apply fatal_on_error_bind; [apply fatal_on_error_quiet; reflexivity|]. intros _.
    destruct (Fprintf env _ _); [fatal_cases|].
    apply fatal_on_error_bind; [apply fatal_on_error_quiet; reflexivity|]. intros _.
    apply fatal_on_error_ret.
Qed.

(** ** The worked scenario *)

(** With the default pool 10.18.0.0/16 the node [workerN] gets the VTEP
    address 10.18.0.N, for every [N] up to 255. *)
Theorem CalcNodeVtepIPNet_example (node : Node.t) (N : Z) (s : St) :
  0 <= N < 256 ->
  Node.Name node = ("worker" ++ uitoa N)%string ->
  snd (CalcNodeVtepIPNet node (mkIPNet [10; 18; 0; 0] [255; 255; 0; 0]) s)
  = Ok (mkIPNet [10; 18; 0; N] [255; 255; 0; 0]).
Proof.
  intros HN Hname.
  rewrite CalcNodeVtepIPNet_result, Hname, TrimPrefix_worker, Atoi_uitoa by lia.
  cbn [IP Mask]. change [10; 18; 0; 0] with (be4 168951808).
  rewrite iter_NextIP_be4 by lia. rewrite Z2Nat.id by lia.
  replace (168951808 + N) with (SetBytes [10; 18; 0; N]) by (rewrite SetBytes_4; lia).
  rewrite be4_SetBytes by (unfold is_byte; lia). reflexivity.
Qed.

Lemma CalcNodeVtepIPNet_example_witness :
  snd (CalcNodeVtepIPNet (Node.mk "worker7" "10.10.7.0/24" [])
         (mkIPNet [10; 18; 0; 0] [255; 255; 0; 0]) Sample.st0)
  = Ok (mkIPNet [10; 18; 0; 7] [255; 255; 0; 0]).
Proof.
  apply (CalcNodeVtepIPNet_example (Node.mk "worker7" "10.10.7.0/24" []) 7 Sample.st0).
  - lia.
  - reflexivity.
Defined.

(** The bootstrap of [worker1] in the sample environment: pod CIDR
    10.10.1.0/24, gateway 10.10.1.254/24, uplink [eth0], VTEP address
    10.18.0.1, uplink gateway 10.0.0.1 with its MAC; then the peer
    [worker2] is made reachable. *)
Example sample_bootstrap :
  exists s nodeInfo s',
    BuildNodeInfo Sample.env Sample.conf Sample.st0 = (s, Ok nodeInfo)
    /\ podCIDR nodeInfo = mkIPNet [10; 10; 1; 0] Sample.mask24
    /\ podGwInfo nodeInfo = GwInfo.mk (mkIPNet [10; 10; 1; 254] Sample.mask24) []
    /\ extIface nodeInfo = Iface.mk (mkIPNet [10; 0; 0; 11] Sample.mask24) Sample.eth0
    /\ nodeVtepIPNet nodeInfo = mkIPNet [10; 18; 0; 1] Sample.mask16
    /\ nodeGwInfo nodeInfo = GwInfo.mk (mkIPNet [10; 0; 0; 1] Sample.mask24) Sample.gwMAC
    /\ addOtherNodes Sample.env Sample.conf s = (s', Ok tt)
    /\ fdb s' = [fdb_entry Sample.vxlan0 (IPv4 10 0 0 12)]
    /\ routes s' = [("r0", Route.mk "10.10.2.0/24" "10.18.0.2" "to_vxlan0")]
    /\ fatal_logged s' = false.
Proof.
  do 3 eexists. split; [vm_compute; reflexivity|].
  repeat split; vm_compute; reflexivity.
Qed.

(** * Properties of the rest of the program *)

(** ** [utils] *)

Lemma substring_prefix (s : string) (n : nat) :
  exists r,
    s = (String.substring 0 n s ++ r)%string
    /\ String.length (String.substring 0 n s) = Nat.min n (String.length s).
Proof.
  revert n. induction s as [|c s IH]; intros [|n]; cbn.
  - exists "". split; reflexivity.
  - exists "". split; reflexivity.
  - exists (String c s). split; reflexivity.
  - destruct (IH n) as (r & E & L). exists r. split.
    + f_equal. exact E.
    + f_equal. exact L.
Qed.

(** [Truncate(s, n)] panics exactly when [n] is negative; for every
    other [n] it returns the longest prefix of [s] of at most [n] bytes:
    [s] itself when it is short enough.  Truncating the result again
    changes nothing. *)
Theorem Truncate_longest_prefix (s : string) (n : Z) :
  (Truncate s n = Panic <-> n < 0)
  /\ (0 <= n ->
      exists t r,
        Truncate s n = Ok t
        /\ s = (t ++ r)%string
        /\ Z.of_nat (String.length t) = Z.min (Z.of_nat (String.length s)) n
        /\ Truncate t n = Ok t).
Proof.
  unfold Truncate. split.
  - destruct (Z.gtb_spec (Z.of_nat (String.length s)) n) as [E|E].
    + destruct (Z.ltb_spec n 0) as [En|En].
      * split; [intros _; lia | reflexivity].
      * split; [discriminate | lia].
    + split; [discriminate | lia].
  - intros Hn. destruct (Z.gtb_spec (Z.of_nat (String.length s)) n) as [E|E].
    + destruct (Z.ltb_spec n 0) as [En|En]; [lia|].
      destruct (substring_prefix s (Z.to_nat n)) as (r & Es & L).
      exists (String.substring 0 (Z.to_nat n) s), r.
      repeat split; [exact Es | lia |].
      destruct (Z.gtb_spec (Z.of_nat (String.length (String.substring 0 (Z.to_nat n) s))) n)
        as [E'|E']; [lia | reflexivity].
    + exists s, "". repeat split.
      * clear. induction s as [|c s IH]; cbn; [reflexivity | f_equal; exact IH].
      * lia.
      * destruct (Z.gtb_spec (Z.of_nat (String.length s)) n); [lia | reflexivity].
Qed.

Lemma Truncate_longest_prefix_witness :
  exists t r,
    Truncate "polykube-cni-plugin" 8 = Ok t
    /\ "polykube-cni-plugin" = (t ++ r)%string
    /\ Z.of_nat (String.length t) = Z.min (Z.of_nat (String.length "polykube-cni-plugin")) 8
    /\ Truncate t 8 = Ok t.
Proof.
  apply (Truncate_longest_prefix "polykube-cni-plugin" 8). lia.
Defined.

Lemma no_colon_head (a q b p : string) :
  no_colon a = true -> (a ++ String ":" q)%string = (b ++ String ":" p)%string ->
  no_colon b = true -> a = b /\ q = p.
Proof.
  revert b. induction a as [|c a IH]; intros [|d b]; cbn; intros Ha E Hb.
  - injection E as ->. split; reflexivity.
  - injection E as Ec _. subst d. discriminate Hb.
  - injection E as Ec _. subst c. discriminate Ha.
  - injection E as -> E.
    apply andb_true_iff in Ha as [_ Ha]. apply andb_true_iff in Hb as [_ Hb].
    destruct (IH b Ha E Hb) as [-> ->]. split; reflexivity.
Qed.

Lemma string_app_assoc (a b c : string) : ((a ++ b) ++ c = a ++ b ++ c)%string.
Proof. induction a as [|x a IH]; cbn; [reflexivity | f_equal; exact IH]. Qed.

(** [CreatePeer] names a port unambiguously as long as the names of the
    cubes hold no colon: two peers are equal only when cube and port
    are.  With a colon in a cube name the same peer names two ports. *)
Theorem CreatePeer_injective (a p b q : string) :
  (no_colon a = true -> no_colon b = true ->
   CreatePeer a p = CreatePeer b q -> a = b /\ p = q)
  /\ CreatePeer (a ++ ":" ++ p) q = CreatePeer a (p ++ ":" ++ q).
Proof.
  unfold CreatePeer. split.
  - intros Ha Hb E. cbn in E. apply (no_colon_head a p b q Ha E Hb).
  - rewrite string_app_assoc. reflexivity.
Qed.

Lemma CreatePeer_injective_witness :
  "r0" = "r0" /\ "to_br0" = "to_br0".
Proof.
  apply (proj1 (CreatePeer_injective "r0" "to_br0" "r0" "to_br0")); reflexivity.
Defined.

(** ** Functions that only log *)

Lemma log_only_ret {A} (a : A) : log_only (ret a).
Proof. intros s. repeat split. Qed.

Lemma log_only_fail {A} (e : error) : log_only (@fail A e).
Proof. intros s. repeat split. Qed.

Lemma log_only_panic {A} : log_only (@panic A).
Proof. intros s. repeat split. Qed.

Lemma log_only_logf (e : LogEntry) : log_only (logf e).
Proof. intros s. repeat split. Qed.

Lemma log_only_bind {A B} (m : M A) (k : A -> M B) :
  log_only m -> (forall a, log_only (k a)) -> log_only (bind m k).
Proof.
  intros Hm Hk s. unfold bind. specialize (Hm s).
  destruct (m s) as [s1 [a| |]]; cbn [fst] in *; [|exact Hm|exact Hm].
  destruct (Hk a s1) as (F & R & L). destruct Hm as (F1 & R1 & L1).
  repeat split; congruence.
Qed.

Lemma log_only_wrap {A} (m : M A) (e : error) : log_only m -> log_only (wrap_err m e).
Proof.
  intros Hm s. unfold wrap_err. specialize (Hm s).
  destruct (m s) as [s1 [a| |]]; exact Hm.
Qed.

Create HintDb frame.
#[local] Hint Resolve log_only_ret log_only_fail log_only_panic log_only_logf
  log_only_bind log_only_wrap : frame.

Ltac frame_cases :=
  repeat match goal with
         | |- log_only (match ?x with _ => _ end) => destruct x
         | |- log_only (if ?b then _ else _) => destruct b
         | |- log_only (let _ := _ in _) => cbv zeta
         | |- log_only (bind _ _) => apply log_only_bind; [|intros ?]
         end;
  eauto 8 with frame.

Lemma getEnv_log_only (sys : Sys) (v d : string) : log_only (getEnv sys v d).
Proof. unfold getEnv. frame_cases. Qed.

Lemma scan_links_log_only (env : Env) (ip : net_IP) (links : list Link.t) :
  log_only (scan_links env ip links).
Proof. induction links as [|l links IH]; cbn [scan_links]; frame_cases. Qed.

#[local] Hint Resolve getEnv_log_only scan_links_log_only : frame.

Lemma GetNode_log_only (env : Env) (name : string) : log_only (GetNode env name).
Proof. unfold GetNode. frame_cases. Qed.

Lemma ParseNodePodCIDR_log_only (env : Env) (node : Node.t) :
  log_only (ParseNodePodCIDR env node).
Proof.
  unfold ParseNodePodCIDR. destruct (ParseCIDR env _) as [[x c]|e]; [|frame_cases].
  cbv zeta. cbn [IP]. destruct (To4 (IP c)); frame_cases.
Qed.

Lemma CalcNodePodDefaultGateway_log_only (c : net_IPNet) :
  log_only (CalcNodePodDefaultGateway c).
Proof. unfold CalcNodePodDefaultGateway. frame_cases. Qed.

Lemma GetNodeExtIface_log_only (env : Env) (node : Node.t) :
  log_only (GetNodeExtIface env node).
Proof. unfold GetNodeExtIface. frame_cases. Qed.

Lemma CalcNodeVtepIPNet_log_only (node : Node.t) (pool : net_IPNet) :
  log_only (CalcNodeVtepIPNet node pool).
Proof. unfold CalcNodeVtepIPNet. frame_cases. Qed.

Lemma GetNodeDefaultGateway_log_only (env : Env) (extIface : Iface.t) :
  log_only (GetNodeDefaultGateway env extIface).
Proof. unfold GetNodeDefaultGateway. frame_cases. Qed.

Lemma GetNodePodDefaultGatewayMAC_log_only (env : Env) (conf : EnvConf) :
  log_only (GetNodePodDefaultGatewayMAC env conf).
Proof. unfold GetNodePodDefaultGatewayMAC, GetRouter. frame_cases. Qed.

Lemma BuildNodeInfo_log_only (env : Env) (conf : EnvConf) :
  log_only (BuildNodeInfo env conf).
Proof.
  unfold BuildNodeInfo.
  repeat (apply log_only_bind;
          [first [apply GetNode_log_only | apply ParseNodePodCIDR_log_only
                 | apply CalcNodePodDefaultGateway_log_only | apply GetNodeExtIface_log_only
                 | apply CalcNodeVtepIPNet_log_only | apply GetNodeDefaultGateway_log_only]
          | intros ?]).
  apply log_only_ret.
Qed.

Lemma GetEnvConf_log_only (env : Env) (sys : Sys) : log_only (GetEnvConf env sys).
Proof.
  unfold GetEnvConf. destruct (String.eqb _ _); [frame_cases|].
  apply log_only_bind; [apply getEnv_log_only | intros ?].
  apply log_only_bind; [apply getEnv_log_only | intros ?].
  destruct (ParseCIDR env _) as [[x c]|e]; [|frame_cases].
  apply log_only_bind; [apply getEnv_log_only | intros ?].
  apply log_only_bind; [apply getEnv_log_only | intros ?].
  destruct (ParseCIDR env _) as [[x' c']|e]; [|frame_cases].
  apply log_only_bind; [apply getEnv_log_only | intros ?].
  destruct (Atoi _); [|frame_cases].
  repeat (apply log_only_bind; [apply getEnv_log_only | intros ?]).
  apply log_only_ret.
Qed.

(** The functions that gather the configuration and the addressing of
    the node change nothing but the log: whatever they return, no entry
    of the forwarding database, no route of a router and no file is
    added, removed or changed by them. *)
Theorem resolver_changes_only_log (env : Env) (sys : Sys) (conf : EnvConf) :
  log_only (GetEnvConf env sys)
  /\ (forall envVar defaultVal, log_only (getEnv sys envVar defaultVal))
  /\ (forall name, log_only (GetNode env name))
  /\ (forall node, log_only (ParseNodePodCIDR env node))
  /\ (forall podCIDR, log_only (CalcNodePodDefaultGateway podCIDR))
  /\ (forall node, log_only (GetNodeExtIface env node))
  /\ (forall node pool, log_only (CalcNodeVtepIPNet node pool))
  /\ (forall extIface, log_only (GetNodeDefaultGateway env extIface))
  /\ log_only (BuildNodeInfo env conf)
  /\ log_only (GetNodePodDefaultGatewayMAC env conf).
Proof.
  repeat split;
    first [apply GetEnvConf_log_only | apply getEnv_log_only | apply GetNode_log_only
          | apply ParseNodePodCIDR_log_only | apply CalcNodePodDefaultGateway_log_only
          | apply GetNodeExtIface_log_only | apply CalcNodeVtepIPNet_log_only
          | apply GetNodeDefaultGateway_log_only | apply BuildNodeInfo_log_only
          | apply GetNodePodDefaultGatewayMAC_log_only].
Qed.

(** ** The configuration from the environment *)

Lemma getEnv_run (sys : Sys) (v d : string) (s : St) :
  exists s', getEnv sys v d s = (s', Ok (env_or sys v d)).
Proof.
  unfold getEnv, env_or. destruct (String.eqb _ _); eexists; reflexivity.
Qed.

Ltac step_getEnv :=
  match goal with
  | |- context [bind (getEnv ?sys ?v ?d) ?k ?s] =>
    let s' := fresh "s" in
    let E := fresh "E" in
    destruct (getEnv_run sys v d s) as (s' & E);
    unfold bind at 1; rewrite E; clear E
  end.

(** The outcome of [GetEnvConf] without the state: a panic when the
    node name is missing, an error when a range or the MTU cannot be
    parsed, the configuration otherwise. *)
Lemma GetEnvConf_result (env : Env) (sys : Sys) (s : St) :
  snd (GetEnvConf env sys s) =
  if String.eqb (Getenv sys "NODE_K8S_NAME") "" then Panic
  else
    match ParseCIDR env (env_or sys "NODE_VTEP_CIDR" "10.18.0.0/16") with
    | Failure _ =>
      Err "failed to parse env variable: NODE_VTEP_CIDR must be in the format w.x.y.z/n"
    | Success (_, vtep) =>
      match ParseCIDR env (env_or sys "POLYCUBE_VPODS_RANGE" "10.10.0.0/16") with
      | Failure _ =>
        Err "failed to parse env variable: POLYCUBE_VPODS_RANGE must be in the format w.x.y.z/n"
      | Success (_, vpods) =>
        match Atoi (env_or sys "POLYCUBE_MTU" "1450") with
        | Failure _ =>
          Err "failed to parse env variable: POLYCUBE_MTU must be a positive integer"
        | Success mtu =>
          Ok (mkEnvConf (Getenv sys "NODE_K8S_NAME")
                (env_or sys "NODE_VXLAN_IFACE_NAME" "vxlan0") vtep
                (env_or sys "CNI_CONF_FILE_PATH" "/etc/cni/net.d/00-polykube.json") vpods mtu
                (env_or sys "POLYCUBE_BRIDGE_NAME" "br0")
                (env_or sys "POLYCUBE_ROUTER_NAME" "r0")
                (env_or sys "POLYCUBE_LBRP_NAME" "lbrp0")
                (env_or sys "POLYCUBE_K8SDISP_NAME" "k0"))
        end
      end
    end.
Proof.
  unfold GetEnvConf. destruct (String.eqb _ _); [reflexivity|].
  do 2 step_getEnv.
  destruct (ParseCIDR env _) as [[x vtep]|e]; [|reflexivity].
  do 2 step_getEnv.
  destruct (ParseCIDR env _) as [[x' vpods]|e]; [|reflexivity].
  step_getEnv.
  destruct (Atoi _) as [mtu|e]; [|reflexivity].
  do 4 step_getEnv. reflexivity.
Qed.

(** [GetEnvConf] panics exactly when [NODE_K8S_NAME] is unset or empty;
    otherwise it returns a configuration exactly when the VTEP range and
    the pod range (each the variable, or its default when the variable is
    unset or empty) are parsed by [net.ParseCIDR] and the MTU by
    [strconv.Atoi], and the configuration then holds the parsed values
    and, for every name, the variable or its default. *)
Theorem GetEnvConf_outcome (env : Env) (sys : Sys) (s : St) :
  (snd (GetEnvConf env sys s) = Panic <-> Getenv sys "NODE_K8S_NAME" = "")
  /\ (forall conf,
        snd (GetEnvConf env sys s) = Ok conf <->
        Getenv sys "NODE_K8S_NAME" <> ""
        /\ (exists x, ParseCIDR env (env_or sys "NODE_VTEP_CIDR" "10.18.0.0/16")
                      = Success (x, vtepCIDR conf))
        /\ (exists x, ParseCIDR env (env_or sys "POLYCUBE_VPODS_RANGE" "10.10.0.0/16")
                      = Success (x, vClusterCIDR conf))
        /\ Atoi (env_or sys "POLYCUBE_MTU" "1450") = Success (MTU conf)
        /\ nodeName conf = Getenv sys "NODE_K8S_NAME"
        /\ vxlanIfName conf = env_or sys "NODE_VXLAN_IFACE_NAME" "vxlan0"
        /\ CNIConfFilePath conf
           = env_or sys "CNI_CONF_FILE_PATH" "/etc/cni/net.d/00-polykube.json"
        /\ bridgeName conf = env_or sys "POLYCUBE_BRIDGE_NAME" "br0"
        /\ routerName conf = env_or sys "POLYCUBE_ROUTER_NAME" "r0"
        /\ lbrpName conf = env_or sys "POLYCUBE_LBRP_NAME" "lbrp0"
        /\ k8sDispName conf = env_or sys "POLYCUBE_K8SDISP_NAME" "k0").
Proof.
  rewrite GetEnvConf_result.
  destruct (String.eqb_spec (Getenv sys "NODE_K8S_NAME") "") as [En|En].
  { split; [tauto|]. intros conf. split; [discriminate | tauto]. }
  destruct (ParseCIDR env (env_or sys "NODE_VTEP_CIDR" _)) as [[x vtep]|e].
  2:{ split; [split; [discriminate | tauto]|]. intros conf.
      split; [discriminate|]. intros (_ & (y & H) & _). discriminate. }
  destruct (ParseCIDR env (env_or sys "POLYCUBE_VPODS_RANGE" _)) as [[x' vpods]|e].
  2:{ split; [split; [discriminate | tauto]|]. intros conf.
      split; [discriminate|]. intros (_ & _ & (y & H) & _). discriminate. }
  destruct (Atoi _) as [mtu|e].
  2:{ split; [split; [discriminate | tauto]|]. intros conf.
      split; [discriminate|]. intros (_ & _ & _ & H & _). discriminate. }
  split; [split; [discriminate | tauto]|]. intros conf. split.
  - intros H. injection H as <-. cbn.
    repeat split; try assumption; try reflexivity; eexists; reflexivity.
  - intros (_ & (y & Hv) & (y' & Hp) & Hm & H1 & H2 & H3 & H4 & H5 & H6 & H7).
    destruct conf; cbn in *. injection Hv as _ <-. injection Hp as _ <-.
    injection Hm as <-. subst. reflexivity.
Qed.

Lemma Atoi_negative (k : Z) :
  0 <= k < 2 ^ 63 -> Atoi ("-" ++ uitoa k) = Success (- k).
Proof.
  intros Hk.
  destruct (uitoa_aux_head (S (Z.to_nat (Z.log2 k))) k "") as (c & r & E & Hc);
    [lia | right; discriminate |].
  fold (uitoa k) in E.
  pose proof (parse_uitoa k) as Hp. rewrite E in *.
  unfold Atoi. cbn [append]. cbv zeta.
  change (Ascii.eqb "-" "-") with true. cbn [orb andb negb].
  rewrite Hp by (unfold maxUint64; lia).
  destruct (Z.gtb_spec k (2 ^ 63)) as [H|H]; [lia | reflexivity].
Qed.

(** [GetEnvConf] does not ask for a positive MTU, whatever the text of
    its error says: when [POLYCUBE_MTU] is a minus sign followed by the
    decimal digits of [k] (zero included) and the two ranges are parsed,
    the configuration is returned, with the MTU [- k]. *)
Theorem GetEnvConf_accepts_nonpositive_MTU (env : Env) (sys : Sys) (s : St) (k : Z) :
  Getenv sys "NODE_K8S_NAME" <> "" ->
  (exists x c, ParseCIDR env (env_or sys "NODE_VTEP_CIDR" "10.18.0.0/16") = Success (x, c)) ->
  (exists x c, ParseCIDR env (env_or sys "POLYCUBE_VPODS_RANGE" "10.10.0.0/16")
               = Success (x, c)) ->
  0 <= k < 2 ^ 63 ->
  Getenv sys "POLYCUBE_MTU" = ("-" ++ uitoa k)%string ->
  exists conf, snd (GetEnvConf env sys s) = Ok conf /\ MTU conf = - k.
Proof.
  intros Hn (x & c & Hv) (x' & c' & Hp) Hk Hm.
  rewrite GetEnvConf_result.
  destruct (String.eqb_spec (Getenv sys "NODE_K8S_NAME") "") as [En|_]; [contradiction|].
  rewrite Hv, Hp.
  assert (E : env_or sys "POLYCUBE_MTU" "1450" = ("-" ++ uitoa k)%string).
  { unfold env_or. rewrite Hm. reflexivity. }
  rewrite E, Atoi_negative by exact Hk.
  eexists. split; reflexivity.
Qed.

Lemma GetEnvConf_accepts_nonpositive_MTU_witness :
  exists conf,
    snd (GetEnvConf SampleSys.env
           (mkSys (fun v => if String.eqb v "NODE_K8S_NAME" then "worker1"
                            else if String.eqb v "POLYCUBE_MTU" then "-5" else "")
                  (fun _ _ => None) (fun _ _ => None))
           Sample.st0) = Ok conf
    /\ MTU conf = - 5.
Proof.
  apply (GetEnvConf_accepts_nonpositive_MTU SampleSys.env _ Sample.st0 5).
  - discriminate.
  - eexists _, _. reflexivity.
  - eexists _, _. reflexivity.
  - lia.
  - reflexivity.
Defined.

(** ** Calls made one after the other *)

Lemma accepts_issue {Op} (call : list (Op * option error) -> Op -> option error)
  (plan : list Op) :
  forall t, accepts call t plan = true <-> issue call t plan = t ++ accepted plan.
Proof.
  induction plan as [|op r IH]; intros t; cbn.
  - rewrite app_nil_r. tauto.
  - destruct (call t op) as [e|].
    + split; [discriminate|]. intros H. apply app_inv_head in H. discriminate.
    + rewrite IH, <- app_assoc. reflexivity.
Qed.

Lemma issue_app {Op} (call : list (Op * option error) -> Op -> option error)
  (p q : list Op) :
  forall t,
    issue call t (p ++ q)
    = if accepts call t p then issue call (issue call t p) q else issue call t p.
Proof.
  induction p as [|op r IH]; intros t; cbn; [reflexivity|].
  destruct (call t op); [reflexivity | apply IH].
Qed.

Lemma accepts_app {Op} (call : list (Op * option error) -> Op -> option error)
  (p q : list Op) :
  forall t,
    accepts call t (p ++ q) = accepts call t p && accepts call (issue call t p) q.
Proof.
  induction p as [|op r IH]; intros t; cbn; [reflexivity|].
  destruct (call t op); [reflexivity | apply IH].
Qed.

(** The calls made are the first ones of the plan, in its order, and
    all of them but the last were accepted. *)
Lemma issue_fail_fast {Op} (call : list (Op * option error) -> Op -> option error)
  (plan : list Op) :
  forall t,
    exists answers,
      issue call t plan = t ++ answers
      /\ map fst answers = firstn (List.length answers) plan
      /\ (forall i a, nth_error answers i = Some a ->
                      (S i < List.length answers)%nat -> snd a = None).
Proof.
  induction plan as [|op r IH]; intros t; cbn [issue].
  - exists []. rewrite app_nil_r. repeat split. intros [|i] a H; discriminate.
  - destruct (call t op) as [e|].
    + exists [(op, Some e)]. repeat split. intros [|i] a H Hl; cbn in Hl; lia.
    + destruct (IH (t ++ [(op, None)])) as (answers & E & Hm & Hn).
      exists ((op, None) :: answers). rewrite E, <- app_assoc. repeat split.
      * cbn. rewrite Hm. reflexivity.
      * intros [|i] a H Hl; cbn in H.
        -- injection H as <-. reflexivity.
        -- apply (Hn i a H). cbn in Hl. lia.
Qed.

(** ** The cubes *)

Lemma requests_request (sys : Sys) (req : Request) (f : string) (e : error) :
  requests sys (request sys req f e) [req].
Proof.
  intros w. unfold request, bindW, rest_call. cbn.
  destruct (RestCall sys (rest w) req); cbn; repeat split.
Qed.

Lemma requests_log (sys : Sys) (e : LogEntry) : requests sys (liftW (logf e)) [].
Proof. intros w. cbn. repeat split. Qed.

Lemma requests_ret (sys : Sys) : requests sys (retW tt) [].
Proof. intros w. cbn. repeat split. Qed.

Lemma requests_bind (sys : Sys) (m k : W unit) (p q : list Request) :
  requests sys m p -> requests sys k q ->
  requests sys (bindW m (fun _ => k)) (p ++ q).
Proof.
  intros Hm Hk w. unfold bindW. rewrite issue_app, accepts_app.
  destruct (Hm w) as (Hr & Ho & Hke & Hf & Hro & Hfi).
  destruct (m w) as [w1 o1]. cbn [fst snd] in *.
  destruct (accepts (RestCall sys) (rest w) p).
  - subst o1. cbn [andb]. rewrite <- Hr.
    destruct (Hk w1) as (Hr2 & Ho2 & Hk2 & Hf2 & Hro2 & Hfi2).
    repeat split; congruence.
  - cbn [andb]. destruct o1 as [a|e|]; try discriminate. cbn [fst snd].
    repeat split; assumption.
Qed.

Lemma requests_step (sys : Sys) (req : Request) (f : string) (e : error) (k : W unit)
  (q : list Request) :
  requests sys k q ->
  requests sys (bindW (request sys req f e) (fun _ => k)) (req :: q).
Proof. intros Hk. apply (requests_bind sys _ _ [req] q (requests_request _ _ _ _) Hk). Qed.

Lemma requests_info (sys : Sys) (e : LogEntry) (k : W unit) (q : list Request) :
  requests sys k q ->
  requests sys (bindW (liftW (logf e)) (fun _ => k)) q.
Proof. intros Hk. apply (requests_bind sys _ _ [] q (requests_log _ _) Hk). Qed.

Ltac requests_steps :=
  repeat first [ apply requests_step | apply requests_info
               | apply requests_ret | apply requests_log ].

Lemma CreateBridge_requests (sys : Sys) (name : string) :
  requests sys (CreateBridge sys name)
    [CreateSimplebridgeByID name (Simplebridge.mk name "TRACE" [SbPorts.mk "to_r0" ""])].
Proof. unfold CreateBridge. cbv zeta. requests_steps. Qed.

Lemma ConnectCubes_requests (sys : Sys) (conf : EnvConf) (extIface : Iface.t) :
  requests sys (ConnectCubes sys conf extIface) (wiring_plan conf extIface).
Proof. unfold ConnectCubes, wiring_plan, CreatePeer. cbv zeta. requests_steps. Qed.

Lemma CreateCubes_plan (env : Env) (sys : Sys) (nodeInfo : NodeInfo) (conf : EnvConf) :
  requests sys (CreateCubes env sys nodeInfo conf) (cubes_plan env nodeInfo conf).
Proof.
  unfold CreateCubes, cubes_plan, creation_plan.
  match goal with
  | |- requests _ _ ([?a; ?b; ?c; ?d; ?e] ++ ?w) =>
    change ([a; b; c; d; e] ++ w) with ([a] ++ [b] ++ [c] ++ [d; e] ++ w ++ [])
  end.
  apply requests_bind; [apply CreateBridge_requests|].
  apply requests_bind; [unfold CreateRouter; cbv zeta; requests_steps|].
  apply requests_bind; [unfold CreateLbrp; cbv zeta; requests_steps|].
  apply requests_bind; [unfold CreateK8sDispatcher; cbv zeta; requests_steps|].
  apply requests_bind; [apply ConnectCubes_requests | apply requests_ret].
Qed.

(** [CreateCubes] makes the same requests whatever polycube answers, in
    one order: the bridge, the router, the load balancer, the
    dispatcher, the dispatcher's port [to_int], then the eight peers.
    It stops at the first request that is refused (the requests made
    are the first ones of that list, all accepted but the last) and
    returns an error then; it succeeds exactly when all thirteen were
    made and accepted.  It never panics, and it touches neither the
    kernel, nor the forwarding database, the routes or the files. *)
Theorem CreateCubes_requests (env : Env) (sys : Sys) (nodeInfo : NodeInfo) (conf : EnvConf)
  (w : World) :
  rest (fst (CreateCubes env sys nodeInfo conf w))
  = issue (RestCall sys) (rest w) (cubes_plan env nodeInfo conf)
  /\ (exists answers,
        rest (fst (CreateCubes env sys nodeInfo conf w)) = rest w ++ answers
        /\ map fst answers = firstn (List.length answers) (cubes_plan env nodeInfo conf)
        /\ (forall i a, nth_error answers i = Some a ->
                        (S i < List.length answers)%nat -> snd a = None))
  /\ (snd (CreateCubes env sys nodeInfo conf w) = Ok tt <->
      rest (fst (CreateCubes env sys nodeInfo conf w))
      = rest w ++ accepted (cubes_plan env nodeInfo conf))
  /\ (snd (CreateCubes env sys nodeInfo conf w) = Ok tt
      \/ is_err (snd (CreateCubes env sys nodeInfo conf w)) = true)
  /\ kernel (fst (CreateCubes env sys nodeInfo conf w)) = kernel w
  /\ fdb (base (fst (CreateCubes env sys nodeInfo conf w))) = fdb (base w)
  /\ routes (base (fst (CreateCubes env sys nodeInfo conf w))) = routes (base w)
  /\ files (base (fst (CreateCubes env sys nodeInfo conf w))) = files (base w).
Proof.
  destruct (CreateCubes_plan env sys nodeInfo conf w) as (Hr & Ho & Hk & Hf & Hro & Hfi).
  split; [exact Hr|]. split.
  { rewrite Hr. apply issue_fail_fast. }
  split.
  { rewrite Hr, <- accepts_issue.
    destruct (accepts (RestCall sys) (rest w) (cubes_plan env nodeInfo conf)).
    - tauto.
    - split; [|discriminate]. intros E. rewrite E in Ho. discriminate. }
  split.
  { destruct (accepts (RestCall sys) (rest w) (cubes_plan env nodeInfo conf)); tauto. }
  repeat split; assumption.
Qed.

Lemma requests_Ok (sys : Sys) (m : W unit) (plan : list Request) (w : World) :
  requests sys m plan -> snd (m w) = Ok tt ->
  rest (fst (m w)) = rest w ++ accepted plan.
Proof.
  intros Hm Ho. destruct (Hm w) as (Hr & Ha & _).
  rewrite Hr. apply accepts_issue.
  destruct (accepts (RestCall sys) (rest w) plan); [reflexivity|].
  rewrite Ho in Ha. discriminate.
Qed.

(** When [CreateCubes] succeeds, the ports it has set a peer on are the
    ports it has created, each of them once: one of the bridge, three
    of the router, two of the load balancer and two of the dispatcher.
    No port is left without a peer and no peer is set on a port that
    was not created. *)
Theorem CreateCubes_every_port_wired (env : Env) (sys : Sys) (nodeInfo : NodeInfo)
  (conf : EnvConf) (w : World) :
  snd (CreateCubes env sys nodeInfo conf w) = Ok tt ->
  exists answers,
    rest (fst (CreateCubes env sys nodeInfo conf w)) = rest w ++ answers
    /\ flat_map (fun a => created_ports (fst a)) answers
       = map fst (flat_map (fun a => wired_port (fst a)) answers)
    /\ NoDup (flat_map (fun a => created_ports (fst a)) answers)
    /\ List.length (flat_map (fun a => created_ports (fst a)) answers) = 8%nat.
Proof.
  intros Ho. exists (accepted (cubes_plan env nodeInfo conf)).
  split; [apply (requests_Ok sys _ _ w (CreateCubes_plan env sys nodeInfo conf) Ho)|].
  cbn. split; [reflexivity|]. split; [|reflexivity].
  repeat constructor; cbn; intuition congruence.
Qed.

Lemma CreateCubes_every_port_wired_witness :
  exists answers,
    rest (fst (CreateCubes SampleSys.env SampleSys.sys
                 (mkNodeInfo "worker1" Sample.worker1
                    (mkIPNet [10; 10; 1; 0] Sample.mask24)
                    (GwInfo.mk (mkIPNet [10; 10; 1; 254] Sample.mask24) [])
                    (Iface.mk (mkIPNet [10; 0; 0; 11] Sample.mask24) Sample.eth0)
                    (mkIPNet [10; 18; 0; 1] Sample.mask16)
                    (GwInfo.mk (mkIPNet [10; 0; 0; 1] Sample.mask24) Sample.gwMAC))
                 Sample.conf SampleSys.w0))
    = rest SampleSys.w0 ++ answers
    /\ flat_map (fun a => created_ports (fst a)) answers
       = map fst (flat_map (fun a => wired_port (fst a)) answers)
    /\ NoDup (flat_map (fun a => created_ports (fst a)) answers)
    /\ List.length (flat_map (fun a => created_ports (fst a)) answers) = 8%nat.
Proof.
  apply (CreateCubes_every_port_wired SampleSys.env SampleSys.sys _ Sample.conf SampleSys.w0).
  reflexivity.
Defined.

(** When [ConnectCubes] succeeds, the peers it has set are consistent:
    a port whose peer is the port [q] of the cube [B] is itself the peer
    set on that port of [B].  The two ports that leave the cubes are the
    exceptions: the router port [to_vxlan0], whose peer is the fixed
    name [vxlan0] (not the configured name of the VXLAN interface), and
    the dispatcher port [to_int], whose peer is the uplink. *)
Theorem ConnectCubes_wiring_symmetric (sys : Sys) (conf : EnvConf) (extIface : Iface.t)
  (w : World) :
  snd (ConnectCubes sys conf extIface w) = Ok tt ->
  exists answers,
    rest (fst (ConnectCubes sys conf extIface w)) = rest w ++ answers
    /\ forall c n p peer,
        In ((c, n, p), peer) (flat_map (fun a => wired_port (fst a)) answers) ->
        (exists c' n' p',
            peer = CreatePeer n' p'
            /\ In ((c', n', p'), CreatePeer n p)
                 (flat_map (fun a => wired_port (fst a)) answers))
        \/ (c = RouterCube /\ n = routerName conf /\ p = "to_vxlan0" /\ peer = "vxlan0")
        \/ (c = K8sdispatcherCube /\ n = k8sDispName conf /\ p = "to_int"
            /\ peer = Link.Name (Iface.Link extIface)).
Proof.
  intros Ho. exists (accepted (wiring_plan conf extIface)).
  split; [apply (requests_Ok sys _ _ w (ConnectCubes_requests sys conf extIface) Ho)|].
  intros c n p peer Hin. cbn in Hin.
  repeat (destruct Hin as [Hin|Hin]; [injection Hin as <- <- <- <- | ]);
    try contradiction.
  - left. exists RouterCube, (routerName conf), "to_br0". split; [reflexivity|].
    cbn. auto 10.
  - left. exists BridgeCube, (bridgeName conf), "to_r0". split; [reflexivity|].
    cbn. auto 10.
  - right. left. repeat split.
  - left. exists LbrpCube, (lbrpName conf), "to_r0". split; [reflexivity|].
    cbn. auto 10.
  - left. exists RouterCube, (routerName conf), "to_lbrp0". split; [reflexivity|].
    cbn. auto 10.
  - left. exists K8sdispatcherCube, (k8sDispName conf), "to_lbrp0". split; [reflexivity|].
    cbn. auto 10.
  - left. exists LbrpCube, (lbrpName conf), "to_k0". split; [reflexivity|].
    cbn. auto 10.
  - right. right. repeat split.
Qed.

Lemma ConnectCubes_wiring_symmetric_witness :
  exists answers,
    rest (fst (ConnectCubes SampleSys.sys Sample.conf
                 (Iface.mk (mkIPNet [10; 0; 0; 11] Sample.mask24) Sample.eth0)
                 SampleSys.w0))
    = rest SampleSys.w0 ++ answers
    /\ forall c n p peer,
        In ((c, n, p), peer) (flat_map (fun a => wired_port (fst a)) answers) ->
        (exists c' n' p',
            peer = CreatePeer n' p'
            /\ In ((c', n', p'), CreatePeer n p)
                 (flat_map (fun a => wired_port (fst a)) answers))
        \/ (c = RouterCube /\ n = routerName Sample.conf /\ p = "to_vxlan0"
            /\ peer = "vxlan0")
        \/ (c = K8sdispatcherCube /\ n = k8sDispName Sample.conf /\ p = "to_int"
            /\ peer = Link.Name
                        (Iface.Link
                           (Iface.mk (mkIPNet [10; 0; 0; 11] Sample.mask24) Sample.eth0))).
Proof.
  apply (ConnectCubes_wiring_symmetric SampleSys.sys Sample.conf _ SampleSys.w0).
  reflexivity.
Defined.

(** ** The VXLAN interface *)

Lemma CreateNodeVxlanIface_run (env : Env) (sys : Sys) (name : string)
  (extIface : Iface.t) (vtepIPNet : net_IPNet) (w : World) :
  kernel (fst (CreateNodeVxlanIface env sys name extIface vtepIPNet w))
  = issue (KernelCall sys) (kernel w)
      match LinkByName env name with
      | Success link => vxlan_plan name extIface link vtepIPNet
      | Failure _ => [LinkAdd (Vxlan.mk name 42 (Link.Index (Iface.Link extIface)) 4789)]
      end
  /\ (forall iface,
        snd (CreateNodeVxlanIface env sys name extIface vtepIPNet w) = Ok iface <->
        exists link,
          LinkByName env name = Success link
          /\ iface = Iface.mk vtepIPNet link
          /\ kernel (fst (CreateNodeVxlanIface env sys name extIface vtepIPNet w))
             = kernel w ++ accepted (vxlan_plan name extIface link vtepIPNet))
  /\ snd (CreateNodeVxlanIface env sys name extIface vtepIPNet w) <> Panic
  /\ rest (fst (CreateNodeVxlanIface env sys name extIface vtepIPNet w)) = rest w
  /\ fdb (base (fst (CreateNodeVxlanIface env sys name extIface vtepIPNet w))) = fdb (base w)
  /\ routes (base (fst (CreateNodeVxlanIface env sys name extIface vtepIPNet w)))
     = routes (base w)
  /\ files (base (fst (CreateNodeVxlanIface env sys name extIface vtepIPNet w)))
     = files (base w).
Proof.
  unfold CreateNodeVxlanIface, vxlan_plan, accepted, bindW, kernel_call, liftW, logf,
    failW, retW.
  destruct (LinkByName env name) as [link|e'] eqn:El; cbn.
  - destruct (KernelCall sys (kernel w) _) as [e|] eqn:E1; cbn.
    { repeat split; try discriminate.
      intros (l & Hl & _ & H). apply app_inv_head in H. discriminate. }
    destruct (KernelCall sys (kernel w ++ _) (LinkSetUp link)) as [e|] eqn:E2; cbn.
    { rewrite <- app_assoc. repeat split; try discriminate.
      intros (l & Hl & _ & H). injection Hl as <-.
      apply app_inv_head in H. discriminate. }
    destruct (KernelCall sys ((kernel w ++ _) ++ _) (AddrAdd link vtepIPNet))
      as [e|] eqn:E3; cbn.
    { rewrite <- !app_assoc. repeat split; try discriminate.
      intros (l & Hl & _ & H). injection Hl as <-.
      apply app_inv_head in H. discriminate. }
    rewrite <- !app_assoc. repeat split; try discriminate.
    + intros H. injection H as <-. exists link. repeat split.
    + intros (l & Hl & -> & _). injection Hl as <-. reflexivity.
  - destruct (KernelCall sys (kernel w) _) as [e|] eqn:E1; cbn;
      (repeat split; try discriminate; intros (l & Hl & _); discriminate).
Qed.

(** [CreateNodeVxlanIface] adds the VXLAN link (identifier 42, port
    4789, on the uplink), looks it up by name, sets it up and gives it
    the VTEP address, in that order; a call that is refused, or a failed
    lookup, ends it with an error and no later call is made.  It
    succeeds exactly when the lookup found the link and the three calls
    were accepted, and returns that link with the VTEP address.  It
    never panics, makes no request to polycube and leaves the forwarding
    database, the routes and the files alone. *)
Theorem CreateNodeVxlanIface_calls (env : Env) (sys : Sys) (name : string)
  (extIface : Iface.t) (vtepIPNet : net_IPNet) (w : World) :
  kernel (fst (CreateNodeVxlanIface env sys name extIface vtepIPNet w))
  = issue (KernelCall sys) (kernel w)
      match LinkByName env name with
      | Success link => vxlan_plan name extIface link vtepIPNet
      | Failure _ => [LinkAdd (Vxlan.mk name 42 (Link.Index (Iface.Link extIface)) 4789)]
      end
  /\ (exists answers,
        kernel (fst (CreateNodeVxlanIface env sys name extIface vtepIPNet w))
        = kernel w ++ answers
        /\ (forall i a, nth_error answers i = Some a ->
                        (S i < List.length answers)%nat -> snd a = None))
  /\ (forall iface,
        snd (CreateNodeVxlanIface env sys name extIface vtepIPNet w) = Ok iface <->
        exists link,
          LinkByName env name = Success link
          /\ iface = Iface.mk vtepIPNet link
          /\ kernel (fst (CreateNodeVxlanIface env sys name extIface vtepIPNet w))
             = kernel w ++ accepted (vxlan_plan name extIface link vtepIPNet))
  /\ snd (CreateNodeVxlanIface env sys name extIface vtepIPNet w) <> Panic
  /\ rest (fst (CreateNodeVxlanIface env sys name extIface vtepIPNet w)) = rest w
  /\ fdb (base (fst (CreateNodeVxlanIface env sys name extIface vtepIPNet w))) = fdb (base w)
  /\ routes (base (fst (CreateNodeVxlanIface env sys name extIface vtepIPNet w)))
     = routes (base w)
  /\ files (base (fst (CreateNodeVxlanIface env sys name extIface vtepIPNet w)))
     = files (base w).
Proof.
  destruct (CreateNodeVxlanIface_run env sys name extIface vtepIPNet w)
    as (Hk & Ho & Hp & Hr & Hf & Hro & Hfi).
  split; [exact Hk|]. split.
  { rewrite Hk.
    destruct (issue_fail_fast (KernelCall sys)
                match LinkByName env name with
                | Success link => vxlan_plan name extIface link vtepIPNet
                | Failure _ =>
                  [LinkAdd (Vxlan.mk name 42 (Link.Index (Iface.Link extIface)) 4789)]
                end (kernel w)) as (answers & E & _ & Hn).
    exists answers. split; assumption. }
  repeat split; try assumption; apply Ho.
Qed.

Lemma CreateNodeVxlanIface_calls_witness :
  snd (CreateNodeVxlanIface SampleSys.env SampleSys.sys "vxlan0"
         (Iface.mk (mkIPNet [10; 0; 0; 11] Sample.mask24) Sample.eth0)
         (mkIPNet [10; 18; 0; 1] Sample.mask16) SampleSys.w0)
  = Ok (Iface.mk (mkIPNet [10; 18; 0; 1] Sample.mask16) Sample.vxlan0).
Proof.
  destruct (CreateNodeVxlanIface_calls SampleSys.env SampleSys.sys "vxlan0"
              (Iface.mk (mkIPNet [10; 0; 0; 11] Sample.mask24) Sample.eth0)
              (mkIPNet [10; 18; 0; 1] Sample.mask16) SampleSys.w0) as (_ & _ & H & _).
  apply H. exists Sample.vxlan0. repeat split.
Defined.

(** ** The addressing of the node, put together *)

Lemma scan_links_Ok_inv (env : Env) (ip : net_IP) (links : list Link.t) :
  forall s s' iface,
    scan_links env ip links s = (s', Ok iface) ->
    In (Iface.Link iface) links
    /\ exists addrs,
        AddrList env (Iface.Link iface) = Success addrs
        /\ In (Addr.mk (Iface.IPNet iface)) addrs
        /\ IP_Equal (IP (Iface.IPNet iface)) ip = true.
Proof.
  induction links as [|l links IH]; intros s s' iface H; cbn [scan_links] in H.
  - discriminate.
  - destruct (AddrList env l) as [addrs|e] eqn:El; [|discriminate].
    destruct (find _ addrs) as [addr|] eqn:Ef.
    + cbn in H. injection H as _ <-. cbn [Iface.Link Iface.IPNet].
      apply find_some in Ef as [Hin Heq]. split; [left; reflexivity|].
      exists addrs. destruct addr as [n]. repeat split; assumption.
    + destruct (IH _ _ _ H) as (Hin & R). split; [right; exact Hin | exact R].
Qed.

(** What [BuildNodeInfo] returns hangs together: the node is the one the
    API server returned for the configured name; the pod range is the
    node's [PodCIDR] in 4-byte form; the pod gateway carries the mask of
    the pod range and no hardware address; the uplink is an interface
    of the kernel's list with an address equal to the node's internal
    address; the VTEP address carries the mask of the VTEP range and is
    that range's address stepped as many times as the number in the name
    of the node says; the uplink gateway is the next hop of the single
    probe route, which leaves through the uplink, with the mask of the
    uplink's address (not one of its own) and the hardware address of a
    neighbour of the uplink with that address. *)
Theorem BuildNodeInfo_consistent (env : Env) (conf : EnvConf) (s s' : St) (ni : NodeInfo) :
  BuildNodeInfo env conf s = (s', Ok ni) ->
  name ni = nodeName conf
  /\ NodesGet env (nodeName conf) = Success (kNode ni)
  /\ (exists x c, ParseCIDR env (Node.PodCIDR (kNode ni)) = Success (x, c)
                  /\ podCIDR ni = mkIPNet (To4 (IP c)) (Mask c))
  /\ List.length (IP (podCIDR ni)) = 4%nat
  /\ GwInfo.MAC (podGwInfo ni) = []
  /\ Mask (GwInfo.IPNet (podGwInfo ni)) = Mask (podCIDR ni)
  /\ (exists links addrs,
        LinkList env = Success links
        /\ In (Iface.Link (extIface ni)) links
        /\ AddrList env (Iface.Link (extIface ni)) = Success addrs
        /\ In (Addr.mk (Iface.IPNet (extIface ni))) addrs
        /\ IP_Equal (IP (Iface.IPNet (extIface ni))) (internalIP env (kNode ni)) = true)
  /\ (exists n, Atoi (TrimPrefix (Node.Name (kNode ni)) "worker") = Success n
                /\ nodeVtepIPNet ni
                   = mkIPNet (Nat.iter (Z.to_nat n) NextIP (IP (vtepCIDR conf)))
                       (Mask (vtepCIDR conf)))
  /\ (exists route neigh,
        RouteGet env (IPv4 1 0 0 0) = Success [route]
        /\ NlRoute.LinkIndex route = Link.Index (Iface.Link (extIface ni))
        /\ In neigh (neighbours env (Link.Index (Iface.Link (extIface ni))))
        /\ IP_Equal (Neigh.IP neigh) (NlRoute.Gw route) = true
        /\ nodeGwInfo ni
           = GwInfo.mk (mkIPNet (NlRoute.Gw route) (Mask (Iface.IPNet (extIface ni))))
               (Neigh.HardwareAddr neigh)).
Proof.
  intros H. unfold BuildNodeInfo in H.
  apply bind_Ok_inv in H as (s1 & node & Hnode & H).
  apply bind_Ok_inv in H as (s2 & pc & Hpc & H).
  apply bind_Ok_inv in H as (s3 & pgw & Hpgw & H).
  apply bind_Ok_inv in H as (s4 & ext & Hext & H).
  apply bind_Ok_inv in H as (s5 & vtep & Hvtep & H).
  apply bind_Ok_inv in H as (s6 & ngw & Hngw & H).
  cbn in H. injection H as _ <-. cbn [name kNode podCIDR podGwInfo extIface nodeVtepIPNet nodeGwInfo].
  split; [reflexivity|].
  (* the node *)
  assert (En : NodesGet env (nodeName conf) = Success node).
  { unfold GetNode in Hnode. destruct (NodesGet env _) as [n|e]; [|discriminate].
    cbn in Hnode. injection Hnode as _ <-. reflexivity. }
  split; [exact En|].
  (* the pod range *)
  assert (Ep : exists x c, ParseCIDR env (Node.PodCIDR node) = Success (x, c)
                           /\ pc = mkIPNet (To4 (IP c)) (Mask c)
                           /\ To4 (IP c) <> []).
  { unfold ParseNodePodCIDR in Hpc.
    destruct (ParseCIDR env _) as [[x c]|e]; [|discriminate].
    cbv zeta in Hpc. cbn [IP] in Hpc.
    destruct (To4 (IP c)) as [|b r] eqn:E4; [discriminate|].
    cbn in Hpc. injection Hpc as _ <-. exists x, c. rewrite E4. repeat split. discriminate. }
  destruct Ep as (x & c & Ec & -> & H4).
  split; [exists x, c; split; [exact Ec | reflexivity]|].
  split; [cbn [IP]; apply To4_length; exact H4|].
  (* the pod gateway *)
  assert (Eg : GwInfo.MAC pgw = [] /\ Mask (GwInfo.IPNet pgw) = Mask c).
  { unfold CalcNodePodDefaultGateway in Hpgw. cbn [IP Mask] in Hpgw.
    destruct (broadcast_loop _ _ _ _); [|discriminate].
    cbn in Hpgw. injection Hpgw as _ <-. split; reflexivity. }
  destruct Eg as [Eg1 Eg2].
  split; [exact Eg1|]. split; [exact Eg2|].
  (* the uplink *)
  split.
  { unfold GetNodeExtIface in Hext. cbv zeta in Hext.
    destruct (internalIP env node) as [|b r] eqn:Ei; [discriminate|].
    destruct (LinkList env) as [links|e]; [|discriminate].
    destruct (scan_links_Ok_inv _ _ _ _ _ _ Hext) as (Hin & addrs & Ha & Hina & Heq).
    exists links, addrs. repeat split; assumption. }
  (* the VTEP address *)
  split.
  { unfold CalcNodeVtepIPNet in Hvtep.
    destruct (Atoi _) as [n|e]; [|discriminate].
    cbn in Hvtep. injection Hvtep as _ <-. exists n. split; reflexivity. }
  (* the uplink gateway *)
  unfold GetNodeDefaultGateway in Hngw. unfold neighbours.
  destruct (RouteGet env _) as [[|route [|r2 rs]]|e]; try discriminate.
  cbv zeta in Hngw.
  destruct (NlRoute.LinkIndex route =? Link.Index (Iface.Link ext)) eqn:Ei;
    [|discriminate].
  cbn [negb] in Hngw.
  destruct (NeighList env _) as [neighs|e]; [|discriminate].
  destruct (find _ neighs) as [neigh|] eqn:Ef; [|discriminate].
  cbn in Hngw. injection Hngw as _ <-.
  apply find_some in Ef as [Hin Heq]. cbn [IP] in Heq.
  exists route, neigh. repeat split; try assumption. lia.
Qed.

Lemma BuildNodeInfo_consistent_witness :
  exists ni,
    snd (BuildNodeInfo Sample.env Sample.conf Sample.st0) = Ok ni
    /\ name ni = nodeName Sample.conf
    /\ GwInfo.MAC (podGwInfo ni) = [].
Proof.
  exists (mkNodeInfo "worker1" Sample.worker1
            (mkIPNet [10; 10; 1; 0] Sample.mask24)
            (GwInfo.mk (mkIPNet [10; 10; 1; 254] Sample.mask24) [])
            (Iface.mk (mkIPNet [10; 0; 0; 11] Sample.mask24) Sample.eth0)
            (mkIPNet [10; 18; 0; 1] Sample.mask16)
            (GwInfo.mk (mkIPNet [10; 0; 0; 1] Sample.mask24) Sample.gwMAC)).
  split; [vm_compute; reflexivity|].
  destruct (BuildNodeInfo_consistent Sample.env Sample.conf Sample.st0
              (fst (BuildNodeInfo Sample.env Sample.conf Sample.st0)) _
              ltac:(vm_compute; reflexivity)) as (H1 & _ & _ & _ & H5 & _).
  split; [exact H1 | exact H5].
Defined.

(** ** Peers left half-way *)

Lemma AddNode_cases (env : Env) (vxlanIfName : string) (nodeIP : net_IP)
  (nodePodCIDR : net_IPNet) (nodeVtepIP : net_IP) (s : St) :
  files (fst (AddNode env vxlanIfName nodeIP nodePodCIDR nodeVtepIP s)) = files s
  /\ ((snd (AddNode env vxlanIfName nodeIP nodePodCIDR nodeVtepIP s) = Ok tt
       /\ exists link,
           LinkByName env vxlanIfName = Success link
           /\ fdb (fst (AddNode env vxlanIfName nodeIP nodePodCIDR nodeVtepIP s))
              = fdb s ++ [fdb_entry link nodeIP]
           /\ routes (fst (AddNode env vxlanIfName nodeIP nodePodCIDR nodeVtepIP s))
              = routes s ++ [vxlan_route env nodePodCIDR nodeVtepIP])
      \/ (is_err (snd (AddNode env vxlanIfName nodeIP nodePodCIDR nodeVtepIP s)) = true
          /\ routes (fst (AddNode env vxlanIfName nodeIP nodePodCIDR nodeVtepIP s)) = routes s
          /\ ((fdb (fst (AddNode env vxlanIfName nodeIP nodePodCIDR nodeVtepIP s)) = fdb s
               /\ forall link,
                   LinkByName env vxlanIfName = Success link ->
                   NeighAppend env (fdb s) (fdb_entry link nodeIP) <> None)
              \/ exists link,
                  LinkByName env vxlanIfName = Success link
                  /\ fdb (fst (AddNode env vxlanIfName nodeIP nodePodCIDR nodeVtepIP s))
                     = fdb s ++ [fdb_entry link nodeIP]
                  /\ NeighAppend env (fdb s) (fdb_entry link nodeIP) = None
                  /\ CreateRouterRouteByID env "r0"
                       (snd (vxlan_route env nodePodCIDR nodeVtepIP)) <> None))).
Proof.
  unfold AddNode. destruct (LinkByName env vxlanIfName) as [link|e].
  - unfold bind, get_fdb, add_fdb, add_route, logf, fail, ret. cbn.
    fold (fdb_entry link nodeIP).
    destruct (NeighAppend env (fdb s) (fdb_entry link nodeIP)) as [e|] eqn:En; cbn.
    + split; [reflexivity|]. right. split; [reflexivity|]. split; [reflexivity|].
      left. split; [reflexivity|]. intros l Hl. injection Hl as <-. rewrite En.
      discriminate.
    + destruct (CreateRouterRouteByID env "r0" _) as [e|] eqn:Er; cbn.
      * split; [reflexivity|]. right. split; [reflexivity|]. split; [reflexivity|].
        right. exists link. split; [reflexivity|]. split; [reflexivity|].
        split; [exact En|]. unfold vxlan_route. cbn. cbn in Er. congruence.
      * split; [reflexivity|]. left. split; [reflexivity|]. exists link. repeat split.
  - cbn. split; [reflexivity|]. right. split; [reflexivity|]. split; [reflexivity|].
    left. split; [reflexivity|]. intros l Hl. discriminate Hl.
Qed.

Lemma addOtherNodes_loop_partial (env : Env) (conf : EnvConf) (nodes : list Node.t) :
  forall s,
    files (fst (addOtherNodes_loop env conf nodes s)) = files s
    /\ exists done todo new_fdb new_routes,
        peers conf nodes = done ++ todo
        /\ fdb (fst (addOtherNodes_loop env conf nodes s)) = fdb s ++ new_fdb
        /\ routes (fst (addOtherNodes_loop env conf nodes s)) = routes s ++ new_routes
        /\ Forall2 (is_route_of env conf) done new_routes
        /\ ((snd (addOtherNodes_loop env conf nodes s) = Ok tt
             /\ todo = []
             /\ Forall2 (is_fdb_entry_of env conf) done new_fdb)
            \/ (is_err (snd (addOtherNodes_loop env conf nodes s)) = true
                /\ exists next rest,
                    todo = next :: rest
                    /\ ((Forall2 (is_fdb_entry_of env conf) done new_fdb
                         /\ ~ route_refused env conf next (fdb s ++ new_fdb))
                        \/ exists before entry,
                            new_fdb = before ++ [entry]
                            /\ Forall2 (is_fdb_entry_of env conf) done before
                            /\ is_fdb_entry_of env conf next entry
                            /\ route_refused env conf next (fdb s ++ before)))).
Proof.
  induction nodes as [|node rest IH]; intros s.
  - cbn. split; [reflexivity|]. exists [], [], [], []. rewrite !app_nil_r.
    split; [reflexivity|]. split; [reflexivity|]. split; [reflexivity|].
    split; [constructor|]. left. repeat split. constructor.
  - cbn [addOtherNodes_loop]. unfold peers. cbn [filter].
    destruct (is_other_worker conf node) eqn:Ew; [|apply IH].
    fold (peers conf rest).
    (* the peer [node] stops the loop before its FDB entry is appended *)
    assert (Stop0 : forall (s' : St) (o : outcome unit),
               is_err o = true -> files s' = files s -> routes s' = routes s ->
               fdb s' = fdb s ->
               ~ route_refused env conf node (fdb s) ->
               files s' = files s
               /\ exists done todo new_fdb new_routes,
                   node :: peers conf rest = done ++ todo
                   /\ fdb s' = fdb s ++ new_fdb
                   /\ routes s' = routes s ++ new_routes
                   /\ Forall2 (is_route_of env conf) done new_routes
                   /\ ((o = Ok tt /\ todo = []
                        /\ Forall2 (is_fdb_entry_of env conf) done new_fdb)
                       \/ (is_err o = true
                           /\ exists next rest0,
                               todo = next :: rest0
                               /\ ((Forall2 (is_fdb_entry_of env conf) done new_fdb
                                    /\ ~ route_refused env conf next (fdb s ++ new_fdb))
                                   \/ exists before entry,
                                       new_fdb = before ++ [entry]
                                       /\ Forall2 (is_fdb_entry_of env conf) done before
                                       /\ is_fdb_entry_of env conf next entry
                                       /\ route_refused env conf next (fdb s ++ before))))).
    { intros s' o Ho Hfi Hro Hf Hno. split; [exact Hfi|].
      exists [], (node :: peers conf rest), [], []. rewrite !app_nil_r.
      split; [reflexivity|]. split; [exact Hf|]. split; [exact Hro|].
      split; [constructor|].
      right. split; [exact Ho|]. exists node, (peers conf rest).
      split; [reflexivity|]. left. split; [constructor | exact Hno]. }
    destruct (ParseCIDR env (Node.PodCIDR node)) as [[x nodePodCIDR]|e] eqn:Ec.
    2:{ cbn. apply Stop0; auto. intros (x & c & v & l & H & _). congruence. }
    unfold bind, wrap_err.
    pose proof (CalcNodeVtepIPNet_log_only node (vtepCIDR conf) s) as (Vf & Vr & Vfi).
    pose proof (CalcNodeVtepIPNet_result node (vtepCIDR conf) s) as Vres.
    destruct (CalcNodeVtepIPNet node (vtepCIDR conf) s) as [s1 [vtep|e|]] eqn:Ev;
      cbn [fst snd] in *.
    2:{ apply Stop0; auto. intros (x' & c & v & l & _ & H & _).
        specialize (H s). rewrite CalcNodeVtepIPNet_result, <- Vres in H. discriminate H. }
    2:{ destruct (Atoi _); discriminate. }
    assert (Hvtep : forall s0, snd (CalcNodeVtepIPNet node (vtepCIDR conf) s0) = Ok vtep).
    { intros s0. rewrite CalcNodeVtepIPNet_result, <- Vres. reflexivity. }
    pose proof (AddNode_cases env (vxlanIfName conf) (internalIP env node) nodePodCIDR
                  (IP vtep) s1) as (Afi & A).
    destruct (AddNode env (vxlanIfName conf) (internalIP env node) nodePodCIDR (IP vtep) s1)
      as [s2 o2] eqn:Ea; cbn [fst snd] in *.
    destruct A as [(-> & link & Hl & Af & Ar) | (Ho & Ar & Af)].
    + destruct (IH s2) as (Hfi & done & todo & nf & nr & Hp & Ef & Er & Fr & Hcase).
      split; [congruence|].
      exists (node :: done), todo, (fdb_entry link (internalIP env node) :: nf),
             (vxlan_route env nodePodCIDR (IP vtep) :: nr).
      assert (Hentry : is_fdb_entry_of env conf node (fdb_entry link (internalIP env node))).
      { exists link. split; [exact Hl | reflexivity]. }
      assert (Hs2 : forall l, fdb s2 ++ l
                              = fdb s ++ fdb_entry link (internalIP env node) :: l).
      { intros l. rewrite Af, Vf, <- app_assoc. reflexivity. }
      split; [rewrite Hp; reflexivity|].
      split; [rewrite Ef; apply Hs2|].
      split; [rewrite Er, Ar, Vr, <- app_assoc; reflexivity|].
      split.
      { constructor; [|exact Fr]. exists x, nodePodCIDR, vtep.
        split; [exact Ec|]. split; [exact Hvtep | reflexivity]. }
      destruct Hcase as [(Ho & Ht & Ff) | (Ho & next & rest0 & Ht & Hstop)].
      * left. split; [exact Ho|]. split; [exact Ht|]. constructor; assumption.
      * right. split; [exact Ho|]. exists next, rest0. split; [exact Ht|].
        destruct Hstop as [(Ff & Hno) | (before & entry & Enf & Ff & He & Hyes)].
        -- left. split; [constructor; assumption|]. rewrite <- Hs2. exact Hno.
        -- right. exists (fdb_entry link (internalIP env node) :: before), entry.
           split; [rewrite Enf; reflexivity|].
           split; [constructor; assumption|]. split; [exact He|].
           rewrite <- Hs2. exact Hyes.
    + destruct o2 as [[]|e|]; try discriminate. cbn [fst snd].
      destruct Af as [(Af & Hno) | (link & Hl & Af & Hna & Hrr)].
      * apply Stop0; [reflexivity | congruence | congruence | congruence |].
        intros (x' & c & v & l & Hc & Hv & Hl & Hna & _).
        rewrite <- Vf in Hna. exact (Hno l Hl Hna).
      * split; [congruence|].
        exists [], (node :: peers conf rest), [fdb_entry link (internalIP env node)], [].
        split; [reflexivity|]. split; [congruence|].
        split; [rewrite app_nil_r; congruence|]. split; [constructor|].
        right. split; [reflexivity|]. exists node, (peers conf rest).
        split; [reflexivity|]. right.
        exists [], (fdb_entry link (internalIP env node)).
        split; [reflexivity|]. split; [constructor|].
        split; [exists link; split; [exact Hl | reflexivity]|].
        rewrite app_nil_r. exists x, nodePodCIDR, vtep, link.
        split; [exact Ec|]. split; [exact Hvtep|]. split; [exact Hl|].
        split; [rewrite <- Vf; exact Hna | exact Hrr].
Qed.

(** Whatever its outcome, [addOtherNodes] has gone through the peers (the
    nodes named [worker...], the local one left out) in the order of the
    list and has stopped at the first one it could not add.  Every peer
    before that one has its route and its FDB entry, and the one it
    stopped at has no route.  The FDB entry of the peer it stopped at is
    there exactly when the request of its route was reached and the
    router refused it: the entry is not taken back.  It succeeds exactly
    when no peer is left, it never panics and it writes no file. *)
Theorem addOtherNodes_stops_at_first_failure (env : Env) (conf : EnvConf)
  (nodes : list Node.t) (s : St) :
  NodesList env = Success nodes ->
  files (fst (addOtherNodes env conf s)) = files s
  /\ exists done todo new_fdb new_routes,
      peers conf nodes = done ++ todo
      /\ fdb (fst (addOtherNodes env conf s)) = fdb s ++ new_fdb
      /\ routes (fst (addOtherNodes env conf s)) = routes s ++ new_routes
      /\ Forall2 (is_route_of env conf) done new_routes
      /\ ((snd (addOtherNodes env conf s) = Ok tt
           /\ todo = []
           /\ Forall2 (is_fdb_entry_of env conf) done new_fdb)
          \/ (is_err (snd (addOtherNodes env conf s)) = true
              /\ exists next rest,
                  todo = next :: rest
                  /\ ((Forall2 (is_fdb_entry_of env conf) done new_fdb
                       /\ ~ route_refused env conf next (fdb s ++ new_fdb))
                      \/ exists before entry,
                          new_fdb = before ++ [entry]
                          /\ Forall2 (is_fdb_entry_of env conf) done before
                          /\ is_fdb_entry_of env conf next entry
                          /\ route_refused env conf next (fdb s ++ before)))).
Proof.
  intros Hn. unfold addOtherNodes. rewrite Hn. apply addOtherNodes_loop_partial.
Qed.

(** In the sample cluster with a router that refuses every route, the
    loop stops at [worker2]: no route is added, and the FDB entry of
    [worker2] stays. *)
Lemma addOtherNodes_stops_at_first_failure_witness :
  fdb (fst (addOtherNodes SampleSys.env_router_down Sample.conf Sample.st0))
  = [fdb_entry Sample.vxlan0 (IPv4 10 0 0 12)]
  /\ routes (fst (addOtherNodes SampleSys.env_router_down Sample.conf Sample.st0)) = []
  /\ route_refused SampleSys.env_router_down Sample.conf Sample.worker2 []
  /\ files (fst (addOtherNodes SampleSys.env_router_down Sample.conf Sample.st0))
     = files Sample.st0
  /\ exists done todo new_fdb new_routes,
      peers Sample.conf [Sample.master; Sample.worker1; Sample.worker2] = done ++ todo
      /\ fdb (fst (addOtherNodes SampleSys.env_router_down Sample.conf Sample.st0))
         = fdb Sample.st0 ++ new_fdb
      /\ routes (fst (addOtherNodes SampleSys.env_router_down Sample.conf Sample.st0))
         = routes Sample.st0 ++ new_routes
      /\ Forall2 (is_route_of SampleSys.env_router_down Sample.conf) done new_routes
      /\ ((snd (addOtherNodes SampleSys.env_router_down Sample.conf Sample.st0) = Ok tt
           /\ todo = []
           /\ Forall2 (is_fdb_entry_of SampleSys.env_router_down Sample.conf) done new_fdb)
          \/ (is_err (snd (addOtherNodes SampleSys.env_router_down Sample.conf Sample.st0))
              = true
              /\ exists next rest,
                  todo = next :: rest
                  /\ ((Forall2 (is_fdb_entry_of SampleSys.env_router_down Sample.conf)
                         done new_fdb
                       /\ ~ route_refused SampleSys.env_router_down Sample.conf next
                              (fdb Sample.st0 ++ new_fdb))
                      \/ exists before entry,
                          new_fdb = before ++ [entry]
                          /\ Forall2 (is_fdb_entry_of SampleSys.env_router_down Sample.conf)
                               done before
                          /\ is_fdb_entry_of SampleSys.env_router_down Sample.conf next
                               entry
                          /\ route_refused SampleSys.env_router_down Sample.conf next
                               (fdb Sample.st0 ++ before)))).
Proof.
  split; [vm_compute; reflexivity|]. split; [vm_compute; reflexivity|].
  split.
  { exists (IPv4 10 10 2 0), (mkIPNet [10; 10; 2; 0] Sample.mask24),
           (mkIPNet [10; 18; 0; 2] Sample.mask16), Sample.vxlan0.
    split; [reflexivity|]. split; [intros s; vm_compute; reflexivity|].
    split; [reflexivity|]. split; [reflexivity | discriminate]. }
  apply (addOtherNodes_stops_at_first_failure SampleSys.env_router_down Sample.conf
           [Sample.master; Sample.worker1; Sample.worker2] Sample.st0).
  reflexivity.
Defined.

(** ** The program *)

Lemma main_step_lift {A B} (m : M A) (k : A -> W B) (w : World) :
  bindW (or_panic (liftW m)) k w
  = match m (base w) with
    | (s', Ok a) => k a (mkWorld s' (kernel w) (rest w))
    | (s', _) => (mkWorld s' (kernel w) (rest w), Panic)
    end.
Proof.
  unfold bindW, or_panic, liftW. destruct (m (base w)) as [s' [a|e|]]; reflexivity.
Qed.

Lemma main_step {A B} (m : W A) (k : A -> W B) (w : World) :
  bindW (or_panic m) k w
  = match m w with
    | (w', Ok a) => k a w'
    | (w', _) => (w', Panic)
    end.
Proof. unfold bindW, or_panic. destruct (m w) as [w' [a|e|]]; reflexivity. Qed.

Lemma main_last (m : M unit) (w : World) :
  or_panic (liftW m) w
  = match m (base w) with
    | (s', Ok a) => (mkWorld s' (kernel w) (rest w), Ok a)
    | (s', _) => (mkWorld s' (kernel w) (rest w), Panic)
    end.
Proof. unfold or_panic, liftW. destruct (m (base w)) as [s' [a|e|]]; reflexivity. Qed.

(** The hardware address [GetNodePodDefaultGatewayMAC] returns does not
    depend on the state. *)
Lemma GetNodePodDefaultGatewayMAC_result (env : Env) (conf : EnvConf) (s s0 : St) :
  snd (GetNodePodDefaultGatewayMAC env conf s)
  = snd (GetNodePodDefaultGatewayMAC env conf s0).
Proof.
  unfold GetNodePodDefaultGatewayMAC, GetRouter, bind.
  destruct (ReadRouterByID env _) as [r|e]; cbn; [|reflexivity].
  destruct (find _ _) as [port|]; [|reflexivity].
  destruct (ParseMAC env _); reflexivity.
Qed.

Lemma CreateCNIConfFile_cases (env : Env) (conf : EnvConf) (nodeInfo : NodeInfo) (s : St) :
  fdb (fst (CreateCNIConfFile env conf nodeInfo s)) = fdb s
  /\ routes (fst (CreateCNIConfFile env conf nodeInfo s)) = routes s
  /\ ((is_err (snd (CreateCNIConfFile env conf nodeInfo s)) = true
       /\ (files (fst (CreateCNIConfFile env conf nodeInfo s)) = files s
           \/ files (fst (CreateCNIConfFile env conf nodeInfo s))
              = (CNIConfFilePath conf, None) :: files s))
      \/ (snd (CreateCNIConfFile env conf nodeInfo s) = Ok tt
          /\ exists c,
              files (fst (CreateCNIConfFile env conf nodeInfo s))
              = (CNIConfFilePath conf, Some c) :: (CNIConfFilePath conf, None) :: files s
              /\ conf_gateway_mac c = HardwareAddr_String (GwInfo.MAC (podGwInfo nodeInfo))
              /\ conf_gateway_ip c
                 = IP_String env (IP (GwInfo.IPNet (podGwInfo nodeInfo)))
              /\ ipam_subnet c = IPNet_String env (podCIDR nodeInfo)
              /\ conf_bridge c = bridgeName conf
              /\ conf_MTU c = MTU conf)).
Proof.
  unfold CreateCNIConfFile. cbv zeta.
  destruct (os_Create env _) as [e|].
  - cbn. repeat split. left. split; [reflexivity|]. left. reflexivity.
  - unfold bind, put_file, logf, fail, ret. cbn.
    destruct (Fprintf env _ _) as [e|]; cbn.
    + repeat split. left. split; [reflexivity|]. right. reflexivity.
    + repeat split. right. split; [reflexivity|]. eexists. repeat split.
Qed.

Lemma addOtherNodes_files (env : Env) (conf : EnvConf) (s : St) :
  files (fst (addOtherNodes env conf s)) = files s.
Proof.
  unfold addOtherNodes. destruct (NodesList env) as [nodes|e]; [|reflexivity].
  apply addOtherNodes_loop_partial.
Qed.

(** ** Errors and the fatal log, in the rest of the program *)

Lemma fatal_logged_logf_Fatal (msg : string) (s : St) :
  fatal_logged (fst (logf (Fatal msg) s)) = true.
Proof. unfold fatal_logged. cbn. rewrite existsb_app. cbn. apply orb_true_r. Qed.

Lemma getEnv_fatal (sys : Sys) (v d : string) : fatal_on_error (getEnv sys v d).
Proof.
  apply fatal_on_error_quiet. intros s.
  destruct (getEnv_run sys v d s) as (s' & ->). reflexivity.
Qed.

Lemma GetEnvConf_fatal (env : Env) (sys : Sys) : fatal_on_error (GetEnvConf env sys).
Proof.
  unfold GetEnvConf. destruct (String.eqb _ _).
  { apply fatal_on_error_quiet. reflexivity. }
  apply fatal_on_error_bind; [apply getEnv_fatal | intros ?].
  apply fatal_on_error_bind; [apply getEnv_fatal | intros ?].
  destruct (ParseCIDR env _) as [[x c]|e]; [|fatal_cases].
  apply fatal_on_error_bind; [apply getEnv_fatal | intros ?].
  apply fatal_on_error_bind; [apply getEnv_fatal | intros ?].
  destruct (ParseCIDR env _) as [[x' c']|e]; [|fatal_cases].
  apply fatal_on_error_bind; [apply getEnv_fatal | intros ?].
  destruct (Atoi _); [|fatal_cases].
  repeat (apply fatal_on_error_bind; [apply getEnv_fatal | intros ?]).
  apply fatal_on_error_ret.
Qed.

Lemma GetEnvConf_panic_fatal (env : Env) (sys : Sys) (s : St) :
  snd (GetEnvConf env sys s) = Panic -> fatal_logged (fst (GetEnvConf env sys s)) = true.
Proof.
  intros H. pose proof (GetEnvConf_result env sys s) as R. rewrite H in R.
  unfold GetEnvConf. destruct (String.eqb _ _).
  - apply fatal_logged_logf_Fatal.
  - exfalso. destruct (ParseCIDR env _) as [[x c]|e]; [|discriminate].
    destruct (ParseCIDR env _) as [[x' c']|e]; [|discriminate].
    destruct (Atoi _); discriminate.
Qed.

Lemma fatal_on_errorW_ret {A} (a : A) : fatal_on_errorW (retW a).
Proof. intros w H. discriminate H. Qed.

Lemma fatal_on_errorW_lift {A} (m : M A) : fatal_on_error m -> fatal_on_errorW (liftW m).
Proof.
  intros Hm w. unfold liftW. specialize (Hm (base w)).
  destruct (m (base w)) as [s' r]. exact Hm.
Qed.

Lemma fatal_on_errorW_bind {A B} (m : W A) (k : A -> W B) :
  fatal_on_errorW m -> (forall a, fatal_on_errorW (k a)) -> fatal_on_errorW (bindW m k).
Proof.
  intros Hm Hk w. unfold bindW. specialize (Hm w).
  destruct (m w) as [w1 [a| |]]; cbn [fst snd] in *.
  - apply Hk.
  - intros _. apply Hm. reflexivity.
  - discriminate.
Qed.

Lemma fatal_on_errorW_fatal {A} (msg : string) (e : error) :
  fatal_on_errorW (bindW (liftW (logf (Fatal msg))) (fun _ => @failW A e)).
Proof. intros w _. apply fatal_logged_logf_Fatal. Qed.

Lemma request_fatal (sys : Sys) (req : Request) (f : string) (e : error) :
  fatal_on_errorW (request sys req f e).
Proof.
  unfold request. apply fatal_on_errorW_bind.
  - intros w H. discriminate H.
  - intros [x|]; [apply fatal_on_errorW_fatal | apply fatal_on_errorW_ret].
Qed.

Lemma kernel_call_fatal (sys : Sys) (op : KernelOp) : fatal_on_errorW (kernel_call sys op).
Proof. intros w H. discriminate H. Qed.

Lemma info_fatal (msg : string) : fatal_on_errorW (liftW (logf (Info msg))).
Proof. intros w H. discriminate H. Qed.

Ltac fatalW_steps :=
  repeat first
    [ apply fatal_on_errorW_ret
    | apply info_fatal
    | apply request_fatal
    | apply fatal_on_errorW_fatal
    | apply fatal_on_errorW_bind; [|intros ?] ].

Lemma CreateNodeVxlanIface_fatal (env : Env) (sys : Sys) (name : string)
  (extIface : Iface.t) (vtepIPNet : net_IPNet) :
  fatal_on_errorW (CreateNodeVxlanIface env sys name extIface vtepIPNet).
Proof.
  unfold CreateNodeVxlanIface. cbv zeta.
  apply fatal_on_errorW_bind; [apply kernel_call_fatal|]. intros [e|]; [fatalW_steps|].
  destruct (LinkByName env name) as [link|e]; [|fatalW_steps].
  apply fatal_on_errorW_bind; [apply kernel_call_fatal|]. intros [e|]; [fatalW_steps|].
  apply fatal_on_errorW_bind; [apply kernel_call_fatal|]. intros [e|]; fatalW_steps.
Qed.

Lemma CreateBridge_fatal (sys : Sys) (name : string) :
  fatal_on_errorW (CreateBridge sys name).
Proof. unfold CreateBridge. cbv zeta. fatalW_steps. Qed.

Lemma CreateRouter_fatal (env : Env) (sys : Sys) (name : string) (extIface : Iface.t)
  (podsGwInfo nodeGwInfo : GwInfo.t) :
  fatal_on_errorW (CreateRouter env sys name extIface podsGwInfo nodeGwInfo).
Proof. unfold CreateRouter. cbv zeta. fatalW_steps. Qed.

Lemma CreateLbrp_fatal (sys : Sys) (name : string) : fatal_on_errorW (CreateLbrp sys name).
Proof. unfold CreateLbrp. cbv zeta. fatalW_steps. Qed.

Lemma CreateK8sDispatcher_fatal (env : Env) (sys : Sys) (name : string)
  (podCIDR : net_IPNet) :
  fatal_on_errorW (CreateK8sDispatcher env sys name podCIDR).
Proof. unfold CreateK8sDispatcher. cbv zeta. fatalW_steps. Qed.

Lemma ConnectCubes_fatal (sys : Sys) (conf : EnvConf) (extIface : Iface.t) :
  fatal_on_errorW (ConnectCubes sys conf extIface).
Proof. unfold ConnectCubes. cbv zeta. fatalW_steps. Qed.

Lemma CreateCubes_fatal (env : Env) (sys : Sys) (nodeInfo : NodeInfo) (conf : EnvConf) :
  fatal_on_errorW (CreateCubes env sys nodeInfo conf).
Proof.
  unfold CreateCubes.
  repeat (apply fatal_on_errorW_bind;
          [first [apply CreateBridge_fatal | apply CreateRouter_fatal
                 | apply CreateLbrp_fatal | apply CreateK8sDispatcher_fatal
                 | apply ConnectCubes_fatal]
          | intros ?]).
  apply fatal_on_errorW_ret.
Qed.

(** In the rest of the program too an error return comes after a
    [Fatal] log entry: in the reading of the environment (whose panic on
    a missing node name also follows one), in the creation of the VXLAN
    interface and in every function that talks to polycube. *)
Theorem error_after_fatal_rest (env : Env) (sys : Sys) :
  fatal_on_error (GetEnvConf env sys)
  /\ (forall s, snd (GetEnvConf env sys s) = Panic ->
                fatal_logged (fst (GetEnvConf env sys s)) = true)
  /\ (forall name extIface vtepIPNet,
        fatal_on_errorW (CreateNodeVxlanIface env sys name extIface vtepIPNet))
  /\ (forall name, fatal_on_errorW (CreateBridge sys name))
  /\ (forall name extIface podsGwInfo nodeGwInfo,
        fatal_on_errorW (CreateRouter env sys name extIface podsGwInfo nodeGwInfo))
  /\ (forall name, fatal_on_errorW (CreateLbrp sys name))
  /\ (forall name podCIDR, fatal_on_errorW (CreateK8sDispatcher env sys name podCIDR))
  /\ (forall conf extIface, fatal_on_errorW (ConnectCubes sys conf extIface))
  /\ (forall nodeInfo conf, fatal_on_errorW (CreateCubes env sys nodeInfo conf)).
Proof.
  split; [apply GetEnvConf_fatal|]. split; [apply GetEnvConf_panic_fatal|].
  split; [intros; apply CreateNodeVxlanIface_fatal|].
  split; [intros; apply CreateBridge_fatal|].
  split; [intros; apply CreateRouter_fatal|].
  split; [intros; apply CreateLbrp_fatal|].
  split; [intros; apply CreateK8sDispatcher_fatal|].
  split; [intros; apply ConnectCubes_fatal|].
  intros; apply CreateCubes_fatal.
Qed.

(** ** Panics of the program *)

Lemma GetNode_fatal (env : Env) (name : string) : fatal_on_error (GetNode env name).
Proof. unfold GetNode. fatal_cases. Qed.

Lemma ParseNodePodCIDR_fatal (env : Env) (node : Node.t) :
  fatal_on_error (ParseNodePodCIDR env node).
Proof.
  unfold ParseNodePodCIDR. destruct (ParseCIDR env _) as [[x c]|e]; [|fatal_cases].
  cbv zeta. cbn [IP]. destruct (To4 (IP c)); fatal_cases.
Qed.

Lemma GetNodeExtIface_fatal (env : Env) (node : Node.t) :
  fatal_on_error (GetNodeExtIface env node).
Proof.
  unfold GetNodeExtIface. cbv zeta.
  destruct (internalIP env node); [fatal_cases|].
  destruct (LinkList env); [apply scan_links_fatal | fatal_cases].
Qed.

Lemma GetNodeDefaultGateway_fatal (env : Env) (extIface : Iface.t) :
  fatal_on_error (GetNodeDefaultGateway env extIface).
Proof. unfold GetNodeDefaultGateway. fatal_cases. Qed.

Lemma BuildNodeInfo_fatal (env : Env) (conf : EnvConf) :
  fatal_on_error (BuildNodeInfo env conf).
Proof.
  unfold BuildNodeInfo.
  repeat (apply fatal_on_error_bind;
          [first [apply GetNode_fatal | apply ParseNodePodCIDR_fatal
                 | apply CalcNodePodDefaultGateway_fatal | apply GetNodeExtIface_fatal
                 | apply CalcNodeVtepIPNet_fatal | apply GetNodeDefaultGateway_fatal]
          | intros ?]).
  apply fatal_on_error_ret.
Qed.

Lemma GetNodePodDefaultGatewayMAC_fatal (env : Env) (conf : EnvConf) :
  fatal_on_error (GetNodePodDefaultGatewayMAC env conf).
Proof.
  unfold GetNodePodDefaultGatewayMAC.
  apply fatal_on_error_bind; [apply GetRouter_fatal|]. intros r.
  destruct (find _ _); [destruct (ParseMAC env _)|]; fatal_cases.
Qed.

Lemma CreateCNIConfFile_fatal (env : Env) (conf : EnvConf) (nodeInfo : NodeInfo) :
  fatal_on_error (CreateCNIConfFile env conf nodeInfo).
Proof.
  unfold CreateCNIConfFile. cbv zeta.
  destruct (os_Create env _); [fatal_cases|].
  apply fatal_on_error_bind; [apply fatal_on_error_quiet; reflexivity|]. intros _.
  destruct (Fprintf env _ _); [fatal_cases|].
  apply fatal_on_error_bind; [apply fatal_on_error_quiet; reflexivity|]. intros _.
  apply fatal_on_error_ret.
Qed.

Lemma addOtherNodes_fatal (env : Env) (conf : EnvConf) :
  fatal_on_error (addOtherNodes env conf).
Proof.
  unfold addOtherNodes. destruct (NodesList env); [apply addOtherNodes_loop_fatal|].
  fatal_cases.
Qed.

Lemma never_panics_ret {A} (a : A) : never_panics (ret a).
Proof. intros s. discriminate. Qed.

Lemma never_panics_fail {A} (e : error) : never_panics (@fail A e).
Proof. intros s. discriminate. Qed.

Lemma never_panics_logf (e : LogEntry) : never_panics (logf e).
Proof. intros s. discriminate. Qed.

Lemma never_panics_bind {A B} (m : M A) (k : A -> M B) :
  never_panics m -> (forall a, never_panics (k a)) -> never_panics (bind m k).
Proof.
  intros Hm Hk s. unfold bind. specialize (Hm s).
  destruct (m s) as [s1 [a| |]]; cbn [snd] in *;
    [apply Hk | discriminate | exfalso; apply Hm; reflexivity].
Qed.

Create HintDb panics.
#[local] Hint Resolve never_panics_ret never_panics_fail never_panics_logf
  never_panics_bind : panics.

Ltac panic_cases :=
  repeat match goal with
         | |- never_panics (match ?x with _ => _ end) => destruct x
         | |- never_panics (if ?b then _ else _) => destruct b
         | |- never_panics (let _ := _ in _) => cbv zeta
         | |- never_panics (bind _ _) => apply never_panics_bind; [|intros ?]
         end;
  eauto 8 with panics.

Lemma GetNode_never_panics (env : Env) (name : string) : never_panics (GetNode env name).
Proof. unfold GetNode. panic_cases. Qed.

Lemma ParseNodePodCIDR_never_panics (env : Env) (node : Node.t) :
  never_panics (ParseNodePodCIDR env node).
Proof.
  unfold ParseNodePodCIDR. destruct (ParseCIDR env _) as [[x c]|e]; [|panic_cases].
  cbv zeta. cbn [IP]. destruct (To4 (IP c)); panic_cases.
Qed.

Lemma scan_links_never_panics (env : Env) (ip : net_IP) (links : list Link.t) :
  never_panics (scan_links env ip links).
Proof. induction links as [|l links IH]; cbn [scan_links]; panic_cases. Qed.

Lemma GetNodeExtIface_never_panics (env : Env) (node : Node.t) :
  never_panics (GetNodeExtIface env node).
Proof.
  unfold GetNodeExtIface. cbv zeta.
  destruct (internalIP env node); [panic_cases|].
  destruct (LinkList env); [apply scan_links_never_panics | panic_cases].
Qed.

Lemma CalcNodeVtepIPNet_never_panics (node : Node.t) (pool : net_IPNet) :
  never_panics (CalcNodeVtepIPNet node pool).
Proof. unfold CalcNodeVtepIPNet. panic_cases. Qed.

Lemma GetNodeDefaultGateway_never_panics (env : Env) (extIface : Iface.t) :
  never_panics (GetNodeDefaultGateway env extIface).
Proof. unfold GetNodeDefaultGateway. panic_cases. Qed.

Lemma GetNodePodDefaultGatewayMAC_never_panics (env : Env) (conf : EnvConf) :
  never_panics (GetNodePodDefaultGatewayMAC env conf).
Proof. unfold GetNodePodDefaultGatewayMAC, GetRouter. panic_cases. Qed.

Lemma ParseNodePodCIDR_Ok_shape (env : Env) (node : Node.t) (s s' : St) (pc : net_IPNet) :
  ParseNodePodCIDR env node s = (s', Ok pc) ->
  List.length (IP pc) = 4%nat
  /\ exists x c, ParseCIDR env (Node.PodCIDR node) = Success (x, c) /\ Mask pc = Mask c.
Proof.
  unfold ParseNodePodCIDR. destruct (ParseCIDR env _) as [[x c]|e]; [|discriminate].
  cbv zeta. cbn [IP]. destruct (To4 (IP c)) as [|b r] eqn:E4; [discriminate|].
  cbn. intros H. injection H as _ <-. cbn [IP Mask]. split.
  - rewrite <- E4. apply To4_length. rewrite E4. discriminate.
  - exists x, c. split; reflexivity.
Qed.

(** With the masks [net.ParseCIDR] returns (four bytes or sixteen),
    [BuildNodeInfo] never panics. *)
Lemma BuildNodeInfo_never_panics (env : Env) (conf : EnvConf) :
  (forall t x c, ParseCIDR env t = Success (x, c) -> (4 <= List.length (Mask c))%nat) ->
  never_panics (BuildNodeInfo env conf).
Proof.
  intros Hmask. unfold BuildNodeInfo.
  apply never_panics_bind; [apply GetNode_never_panics | intros node].
  intros s. unfold bind at 1.
  pose proof (ParseNodePodCIDR_never_panics env node s) as Hp.
  destruct (ParseNodePodCIDR env node s) as [s1 [pc|e|]] eqn:Ep; cbn [snd] in *;
    [| discriminate | contradiction].
  destruct (ParseNodePodCIDR_Ok_shape _ _ _ _ _ Ep) as (Hlen & x & c & Hc & Hm).
  unfold bind at 1.
  pose proof (CalcNodePodDefaultGateway_run pc s1 Hlen) as Hrun.
  rewrite Hm in Hrun. specialize (Hrun (Hmask _ _ _ Hc)).
  destruct (CalcNodePodDefaultGateway pc s1) as [s2 o]. cbn [snd] in Hrun. subst o.
  revert s2.
  change (never_panics
            (extIface <- GetNodeExtIface env node ;;
             nodeVtepIPNet <- CalcNodeVtepIPNet node (vtepCIDR conf) ;;
             nodeGwInfo <- GetNodeDefaultGateway env extIface ;;
             ret (mkNodeInfo (nodeName conf) node pc
                    (GwInfo.mk (mkIPNet (PrevIP (broadcastIP pc)) (Mask c)) [])
                    extIface nodeVtepIPNet nodeGwInfo))).
  apply never_panics_bind; [apply GetNodeExtIface_never_panics | intros ext].
  apply never_panics_bind; [apply CalcNodeVtepIPNet_never_panics | intros vtep].
  apply never_panics_bind; [apply GetNodeDefaultGateway_never_panics | intros gw].
  apply never_panics_ret.
Qed.

Lemma addOtherNodes_never_panics (env : Env) (conf : EnvConf) :
  never_panics (addOtherNodes env conf).
Proof.
  intros s. unfold addOtherNodes. destruct (NodesList env) as [nodes|e]; [|discriminate].
  destruct (addOtherNodes_loop_partial env conf nodes s)
    as (_ & done & todo & nf & nr & _ & _ & _ & _ & [(-> & _) | (H & _)]).
  - discriminate.
  - intros E. rewrite E in H. discriminate.
Qed.

(** [main] runs its seven steps in order ([GetEnvConf], [BuildNodeInfo],
    [CreateNodeVxlanIface], [CreateCubes], [GetNodePodDefaultGatewayMAC],
    [CreateCNIConfFile] on the node info with that hardware address,
    [addOtherNodes]), each on the state the step before left, and stops
    with a panic at the first one that does not succeed, in the state
    that step left; it returns normally exactly when all seven succeed,
    and never returns an error value.  So: nothing is asked of the
    kernel or of polycube, and no file, FDB entry or route is written,
    unless the configuration and the node info were obtained; no request
    goes to polycube unless the VXLAN interface was added, found, set up
    and addressed; the CNI file is not created unless the thirteen
    requests were accepted and the hardware address of the pod gateway
    was read back from the router; no FDB entry or route of a peer is
    written unless the CNI file was written, and the file then holds the
    hardware address read back from the router. *)
Theorem main_steps_in_order (env : Env) (sys : Sys) (w : World) :
  exists w' o,
    main env sys w = (w', o)
    /\ (o = Ok tt \/ o = Panic)
    /\ ((is_ok (snd (GetEnvConf env sys (base w))) = false
         /\ o = Panic
         /\ w' = mkWorld (fst (GetEnvConf env sys (base w))) (kernel w) (rest w)
         /\ files (base w') = files (base w)
         /\ fdb (base w') = fdb (base w) /\ routes (base w') = routes (base w))
        \/ exists conf s1,
            GetEnvConf env sys (base w) = (s1, Ok conf)
            /\ ((is_ok (snd (BuildNodeInfo env conf s1)) = false
                 /\ o = Panic
                 /\ w' = mkWorld (fst (BuildNodeInfo env conf s1)) (kernel w) (rest w)
                 /\ files (base w') = files (base w)
                 /\ fdb (base w') = fdb (base w) /\ routes (base w') = routes (base w))
                \/ exists nodeInfo s2,
                    BuildNodeInfo env conf s1 = (s2, Ok nodeInfo)
                    /\ ((is_ok (snd (CreateNodeVxlanIface env sys (vxlanIfName conf)
                                       (extIface nodeInfo) (nodeVtepIPNet nodeInfo)
                                       (mkWorld s2 (kernel w) (rest w)))) = false
                         /\ o = Panic
                         /\ w' = fst (CreateNodeVxlanIface env sys (vxlanIfName conf)
                                        (extIface nodeInfo) (nodeVtepIPNet nodeInfo)
                                        (mkWorld s2 (kernel w) (rest w)))
                         /\ rest w' = rest w
                         /\ files (base w') = files (base w)
                         /\ fdb (base w') = fdb (base w)
                         /\ routes (base w') = routes (base w))
                        \/ exists link w3,
                            CreateNodeVxlanIface env sys (vxlanIfName conf)
                              (extIface nodeInfo) (nodeVtepIPNet nodeInfo)
                              (mkWorld s2 (kernel w) (rest w))
                            = (w3, Ok (Iface.mk (nodeVtepIPNet nodeInfo) link))
                            /\ LinkByName env (vxlanIfName conf) = Success link
                            /\ kernel w'
                               = kernel w ++ accepted (vxlan_plan (vxlanIfName conf)
                                                         (extIface nodeInfo) link
                                                         (nodeVtepIPNet nodeInfo))
                            /\ ((is_ok (snd (CreateCubes env sys nodeInfo conf w3)) = false
                                 /\ o = Panic
                                 /\ w' = fst (CreateCubes env sys nodeInfo conf w3)
                                 /\ rest w'
                                    = issue (RestCall sys) (rest w)
                                        (cubes_plan env nodeInfo conf)
                                 /\ files (base w') = files (base w)
                                 /\ fdb (base w') = fdb (base w)
                                 /\ routes (base w') = routes (base w))
                                \/ exists w4,
                                    CreateCubes env sys nodeInfo conf w3 = (w4, Ok tt)
                                    /\ rest w'
                                       = rest w ++ accepted (cubes_plan env nodeInfo conf)
                                    /\ ((is_ok (snd (GetNodePodDefaultGatewayMAC env conf
                                                       (base w4))) = false
                                         /\ o = Panic
                                         /\ w' = mkWorld
                                                   (fst (GetNodePodDefaultGatewayMAC env
                                                           conf (base w4)))
                                                   (kernel w4) (rest w4)
                                         /\ files (base w') = files (base w)
                                         /\ fdb (base w') = fdb (base w)
                                         /\ routes (base w') = routes (base w))
                                        \/ exists podGwMAC s5,
                                            GetNodePodDefaultGatewayMAC env conf (base w4)
                                            = (s5, Ok podGwMAC)
                                            /\ ((is_ok (snd (CreateCNIConfFile env conf
                                                               (set_podGwMAC nodeInfo
                                                                  podGwMAC) s5)) = false
                                                 /\ o = Panic
                                                 /\ w' = mkWorld
                                                           (fst (CreateCNIConfFile env conf
                                                                   (set_podGwMAC nodeInfo
                                                                      podGwMAC) s5))
                                                           (kernel w4) (rest w4)
                                                 /\ (files (base w') = files (base w)
                                                     \/ files (base w')
                                                        = (CNIConfFilePath conf, None)
                                                            :: files (base w))
                                                 /\ fdb (base w') = fdb (base w)
                                                 /\ routes (base w') = routes (base w))
                                                \/ exists c s6,
                                                    CreateCNIConfFile env conf
                                                      (set_podGwMAC nodeInfo podGwMAC) s5
                                                    = (s6, Ok tt)
                                                    /\ w' = mkWorld
                                                              (fst (addOtherNodes env conf
                                                                      s6))
                                                              (kernel w4) (rest w4)
                                                    /\ o = (if is_ok
                                                                 (snd (addOtherNodes env
                                                                         conf s6))
                                                            then Ok tt else Panic)
                                                    /\ files (base w')
                                                       = (CNIConfFilePath conf, Some c)
                                                           :: (CNIConfFilePath conf, None)
                                                           :: files (base w)
                                                    /\ conf_gateway_mac c
                                                       = HardwareAddr_String podGwMAC
                                                    /\ conf_gateway_ip c
                                                       = IP_String env
                                                           (IP (GwInfo.IPNet
                                                                  (podGwInfo
                                                                     nodeInfo))))))))).
Proof.
  unfold main.
  (* GetEnvConf *)
  rewrite main_step_lift.
  pose proof (GetEnvConf_log_only env sys (base w)) as (A1 & A2 & A3).
  destruct (GetEnvConf env sys (base w)) as [s1 oA] eqn:EA. cbn [fst snd] in *.
  destruct oA as [conf|e|];
    [| eexists _, _; split; [reflexivity|]; split; [right; reflexivity|];
       left; cbn [base kernel rest]; repeat split; assumption ..].
  (* BuildNodeInfo *)
  rewrite main_step_lift. cbn [base kernel rest].
  pose proof (BuildNodeInfo_log_only env conf s1) as (B1 & B2 & B3).
  destruct (BuildNodeInfo env conf s1) as [s2 oB] eqn:EB. cbn [fst] in B1, B2, B3.
  destruct oB as [nodeInfo|e|];
    [| eexists _, _; split; [reflexivity|]; split; [right; reflexivity|];
       right; exists conf, s1; split; [reflexivity|];
       left; rewrite EB; cbn [fst snd base kernel rest]; repeat split; congruence ..].
  (* CreateNodeVxlanIface *)
  rewrite main_step.
  pose proof (CreateNodeVxlanIface_run env sys (vxlanIfName conf) (extIface nodeInfo)
                (nodeVtepIPNet nodeInfo) (mkWorld s2 (kernel w) (rest w)))
    as (_ & C1 & C2 & C3 & C4 & C5 & C6).
  destruct (CreateNodeVxlanIface env sys (vxlanIfName conf) (extIface nodeInfo)
              (nodeVtepIPNet nodeInfo) (mkWorld s2 (kernel w) (rest w)))
    as [w3 oC] eqn:EC.
  cbn [fst snd base kernel rest] in C1, C2, C3, C4, C5, C6.
  destruct oC as [iface|e|]; [| |contradiction].
  2:{ eexists _, _. split; [reflexivity|]. split; [right; reflexivity|].
      right. exists conf, s1. split; [reflexivity|].
      right. exists nodeInfo, s2. split; [exact EB|].
      left. rewrite EC. cbn [fst snd]. repeat split; congruence. }
  destruct (proj1 (C1 iface) eq_refl) as (link & Hlink & -> & Hkernel).
  (* CreateCubes *)
  rewrite main_step.
  pose proof (CreateCubes_plan env sys nodeInfo conf) as D.
  pose proof (requests_Ok sys _ _ w3 D) as DOk.
  destruct (D w3) as (D1 & D2 & D3 & D4 & D5 & D6).
  destruct (CreateCubes env sys nodeInfo conf w3) as [w4 oD] eqn:ED.
  cbn [fst snd] in D1, D2, D3, D4, D5, D6, DOk.
  assert (Hk4 : kernel w4
                = kernel w ++ accepted (vxlan_plan (vxlanIfName conf) (extIface nodeInfo)
                                          link (nodeVtepIPNet nodeInfo)))
    by congruence.
  destruct oD as [[]|e|].
  2,3: eexists _, _; split; [reflexivity|]; split; [right; reflexivity|];
       right; exists conf, s1; split; [reflexivity|];
       right; exists nodeInfo, s2; split; [exact EB|];
       right; exists link, w3; split; [exact EC|]; split; [exact Hlink|];
       split; [exact Hk4|];
       left; rewrite ED; cbn [fst snd]; repeat split; congruence.
  specialize (DOk eq_refl).
  assert (Hr4 : rest w4 = rest w ++ accepted (cubes_plan env nodeInfo conf))
    by congruence.
  (* GetNodePodDefaultGatewayMAC *)
  rewrite main_step_lift.
  pose proof (GetNodePodDefaultGatewayMAC_log_only env conf (base w4)) as (E1 & E2 & E3).
  destruct (GetNodePodDefaultGatewayMAC env conf (base w4)) as [s5 oE] eqn:EE.
  cbn [fst snd] in E1, E2, E3.
  destruct oE as [podGwMAC|e|].
  2,3: eexists _, _; split; [reflexivity|]; split; [right; reflexivity|];
       right; exists conf, s1; split; [reflexivity|];
       right; exists nodeInfo, s2; split; [exact EB|];
       right; exists link, w3; split; [exact EC|]; split; [exact Hlink|];
       split; [exact Hk4|];
       right; exists w4; split; [exact ED|]; split; [exact Hr4|];
       left; rewrite EE; cbn [fst snd base kernel rest]; repeat split; congruence.
  (* CreateCNIConfFile *)
  cbv zeta. rewrite main_step_lift. cbn [base kernel rest].
  pose proof (CreateCNIConfFile_cases env conf (set_podGwMAC nodeInfo podGwMAC) s5)
    as (F1 & F2 & F3).
  destruct (CreateCNIConfFile env conf (set_podGwMAC nodeInfo podGwMAC) s5)
    as [s6 oF] eqn:EF.
  cbn [fst snd] in F1, F2, F3.
  destruct F3 as [(HF & Hfiles) | (-> & c & Hfiles & Hmac & Hip & _)].
  { destruct oF as [[]|e|]; try discriminate.
    eexists _, _. split; [reflexivity|]. split; [right; reflexivity|].
    right. exists conf, s1. split; [reflexivity|].
    right. exists nodeInfo, s2. split; [exact EB|].
    right. exists link, w3. split; [exact EC|]. split; [exact Hlink|].
    split; [exact Hk4|].
    right. exists w4. split; [exact ED|]. split; [exact Hr4|].
    right. exists podGwMAC, s5. split; [exact EE|].
    left. rewrite EF. cbn [fst snd base kernel rest].
    split; [reflexivity|]. split; [reflexivity|]. split; [reflexivity|].
    split; [destruct Hfiles as [H|H]; [left | right]; congruence|].
    split; congruence. }
  (* addOtherNodes *)
  cbv beta iota. rewrite main_last. cbn [base kernel rest].
  pose proof (addOtherNodes_files env conf s6) as G.
  pose proof (addOtherNodes_never_panics env conf s6) as G'.
  destruct (addOtherNodes env conf s6) as [s7 oG] eqn:EG. cbn [fst snd] in G, G'.
  assert (Hf7 : files s7 = (CNIConfFilePath conf, Some c)
                             :: (CNIConfFilePath conf, None) :: files (base w))
    by congruence.
  cbn [set_podGwMAC podGwInfo GwInfo.MAC GwInfo.IPNet] in Hmac, Hip.
  destruct oG as [[]|e|]; [| |contradiction];
    (eexists _, _; split; [reflexivity|];
     split; [first [left; reflexivity | right; reflexivity]|];
     right; exists conf, s1; split; [reflexivity|];
     right; exists nodeInfo, s2; split; [exact EB|];
     right; exists link, w3; split; [exact EC|]; split; [exact Hlink|];
     split; [exact Hk4|];
     right; exists w4; split; [exact ED|]; split; [exact Hr4|];
     right; exists podGwMAC, s5; split; [exact EE|];
     right; exists c, s6; split; [exact EF|];
     rewrite EG; cbn [fst snd base kernel rest is_ok];
     split; [reflexivity|]; split; [reflexivity|]; split; [exact Hf7|];
     split; [exact Hmac | exact Hip]).
Qed.

(** With the masks [net.ParseCIDR] returns (four bytes or sixteen),
    every panic of [main] comes after a [Fatal] log entry: [main] panics
    on the error of a step, or on the missing node name, and each of
    these was logged as fatal first. *)
Theorem main_panics_after_fatal (env : Env) (sys : Sys) (w : World) :
  (forall t x c, ParseCIDR env t = Success (x, c) -> (4 <= List.length (Mask c))%nat) ->
  snd (main env sys w) = Panic ->
  fatal_logged (base (fst (main env sys w))) = true.
Proof.
  intros Hmask. unfold main.
  (* GetEnvConf *)
  rewrite main_step_lift.
  pose proof (GetEnvConf_fatal env sys (base w)) as A.
  pose proof (GetEnvConf_panic_fatal env sys (base w)) as A'.
  destruct (GetEnvConf env sys (base w)) as [s1 [conf|e|]]; cbn [fst snd] in *;
    [| intros _; apply A; reflexivity | intros _; apply A'; reflexivity].
  (* BuildNodeInfo *)
  rewrite main_step_lift. cbn [base kernel rest].
  pose proof (BuildNodeInfo_fatal env conf s1) as B.
  pose proof (BuildNodeInfo_never_panics env conf Hmask s1) as B'.
  destruct (BuildNodeInfo env conf s1) as [s2 [nodeInfo|e|]]; cbn [fst snd] in *;
    [| intros _; apply B; reflexivity | contradiction].
  (* CreateNodeVxlanIface *)
  rewrite main_step.
  pose proof (CreateNodeVxlanIface_fatal env sys (vxlanIfName conf) (extIface nodeInfo)
                (nodeVtepIPNet nodeInfo) (mkWorld s2 (kernel w) (rest w))) as C.
  pose proof (CreateNodeVxlanIface_run env sys (vxlanIfName conf) (extIface nodeInfo)
                (nodeVtepIPNet nodeInfo) (mkWorld s2 (kernel w) (rest w)))
    as (_ & _ & C' & _).
  destruct (CreateNodeVxlanIface env sys (vxlanIfName conf) (extIface nodeInfo)
              (nodeVtepIPNet nodeInfo) (mkWorld s2 (kernel w) (rest w)))
    as [w3 [iface|e|]]; cbn [fst snd] in *;
    [| intros _; apply C; reflexivity | contradiction].
  (* CreateCubes *)
  rewrite main_step.
  pose proof (CreateCubes_fatal env sys nodeInfo conf w3) as D.
  destruct (CreateCubes_plan env sys nodeInfo conf w3) as (_ & D' & _).
  destruct (CreateCubes env sys nodeInfo conf w3) as [w4 [[]|e|]]; cbn [fst snd] in *;
    [| intros _; apply D; reflexivity
     | destruct (accepts _ _ _); discriminate].
  (* GetNodePodDefaultGatewayMAC *)
  rewrite main_step_lift.
  pose proof (GetNodePodDefaultGatewayMAC_fatal env conf (base w4)) as E.
  pose proof (GetNodePodDefaultGatewayMAC_never_panics env conf (base w4)) as E'.
  destruct (GetNodePodDefaultGatewayMAC env conf (base w4)) as [s5 [mac|e|]];
    cbn [fst snd] in *;
    [| intros _; apply E; reflexivity | contradiction].
  (* CreateCNIConfFile *)
  cbv zeta. rewrite main_step_lift. cbn [base kernel rest].
  pose proof (CreateCNIConfFile_fatal env conf (set_podGwMAC nodeInfo mac) s5) as F.
  pose proof (CreateCNIConfFile_cases env conf (set_podGwMAC nodeInfo mac) s5)
    as (_ & _ & F').
  destruct (CreateCNIConfFile env conf (set_podGwMAC nodeInfo mac) s5)
    as [s6 [[]|e|]]; cbn [fst snd] in *;
    [| intros _; apply F; reflexivity
     | destruct F' as [(H & _) | (H & _)]; discriminate].
  (* addOtherNodes *)
  rewrite main_last. cbn [base kernel rest].
  pose proof (addOtherNodes_fatal env conf s6) as G.
  pose proof (addOtherNodes_never_panics env conf s6) as G'.
  destruct (addOtherNodes env conf s6) as [s7 [[]|e|]]; cbn [fst snd] in *;
    [discriminate | intros _; apply G; reflexivity | contradiction].
Qed.

Lemma main_panics_after_fatal_witness :
  fatal_logged
    (base (fst (main SampleSys.env
                  (mkSys (fun _ => "") (fun _ _ => None) (fun _ _ => None))
                  SampleSys.w0))) = true.
Proof.
  apply (main_panics_after_fatal SampleSys.env
           (mkSys (fun _ => "") (fun _ _ => None) (fun _ _ => None)) SampleSys.w0).
  - intros t x c. cbn [ParseCIDR SampleSys.env].
    unfold SampleSys.parseCIDR, Sample.parseCIDR.
    repeat match goal with
           | |- context [String.eqb t ?k] => destruct (String.eqb t k)
           end;
      intros H; try discriminate H; injection H as _ <-; cbn; lia.
  - reflexivity.
Defined.

(** ** The two forms of an IPv4 address *)

Lemma bytes_eqb_sym (a b : list Z) : bytes_eqb a b = bytes_eqb b a.
Proof.
  unfold bytes_eqb.
  destruct (list_eq_dec Z.eq_dec a b) as [E|E], (list_eq_dec Z.eq_dec b a) as [E'|E'];
    congruence.
Qed.

Lemma bytes_eqb_true (a b : list Z) : bytes_eqb a b = true <-> a = b.
Proof.
  unfold bytes_eqb. destruct (list_eq_dec Z.eq_dec a b); split; congruence.
Qed.

Lemma To4_of_mapped (x : net_IP) :
  List.length x = 16%nat -> firstn 12 x = v4InV6Prefix -> To4 x = skipn 12 x.
Proof.
  intros Hl Hp.
  do 16 (destruct x as [|? x]; [discriminate Hl|]).
  destruct x; [|discriminate Hl].
  cbn in Hp. injection Hp as -> -> -> -> -> -> -> -> -> -> -> ->. reflexivity.
Qed.

(** [Equal] does not tell the 4-byte form of an IPv4 address from its
    16-byte form: it is symmetric, a 4-byte address is equal to its
    16-byte form ([To16]), whose 4-byte form ([To4]) it is, and two
    addresses of 4 or 16 bytes that are equal have the same 4-byte
    form. *)
Theorem IP_Equal_forms (ip x : net_IP) :
  IP_Equal ip x = IP_Equal x ip
  /\ (List.length ip = 4%nat ->
      IP_Equal ip (To16 ip) = true /\ To4 (To16 ip) = ip)
  /\ (IP_Equal ip x = true -> To4 ip = To4 x).
Proof.
  split; [|split].
  - unfold IP_Equal.
    destruct (Nat.eqb_spec (List.length ip) (List.length x)) as [E|E].
    + rewrite E, Nat.eqb_refl. apply bytes_eqb_sym.
    + destruct (Nat.eqb_spec (List.length x) (List.length ip)) as [E'|E']; [congruence|].
      destruct (Nat.eqb_spec (List.length ip) IPv4len) as [H4|H4],
               (Nat.eqb_spec (List.length x) IPv6len) as [H6|H6],
               (Nat.eqb_spec (List.length ip) IPv6len) as [G6|G6],
               (Nat.eqb_spec (List.length x) IPv4len) as [G4|G4];
        cbn [andb]; try reflexivity;
        try (unfold IPv4len, IPv6len in *; congruence);
        first [ rewrite (bytes_eqb_sym ip (skipn 12 x)); reflexivity
              | rewrite (bytes_eqb_sym (skipn 12 ip) x); reflexivity ].
  - intros Hl.
    do 4 (destruct ip as [|? ip]; [discriminate Hl|]).
    destruct ip; [|discriminate Hl].
    change (To16 [z; z0; z1; z2]) with (v4InV6Prefix ++ [z; z0; z1; z2]).
    split; [|reflexivity].
    change (IP_Equal [z; z0; z1; z2] (v4InV6Prefix ++ [z; z0; z1; z2]))
      with (bytes_eqb v4InV6Prefix v4InV6Prefix
            && bytes_eqb [z; z0; z1; z2] [z; z0; z1; z2])%bool.
    apply andb_true_iff. split; apply bytes_eqb_true; reflexivity.
  - unfold IP_Equal.
    destruct (Nat.eqb_spec (List.length ip) (List.length x)) as [E|E].
    { intros H. apply bytes_eqb_true in H. subst. reflexivity. }
    destruct (Nat.eqb_spec (List.length ip) IPv4len) as [H4|H4],
             (Nat.eqb_spec (List.length x) IPv6len) as [H6|H6]; cbn [andb].
    + intros H. apply andb_true_iff in H as [Hp Hs].
      apply bytes_eqb_true in Hp, Hs.
      rewrite (To4_of_mapped x H6 Hp), <- Hs.
      unfold To4. rewrite H4. reflexivity.
    + destruct (Nat.eqb_spec (List.length ip) IPv6len) as [G6|G6]; cbn [andb];
        [unfold IPv4len, IPv6len in *; congruence | discriminate].
    + destruct (Nat.eqb_spec (List.length ip) IPv6len) as [G6|G6],
               (Nat.eqb_spec (List.length x) IPv4len) as [G4|G4]; cbn [andb];
        try discriminate.
      unfold IPv4len, IPv6len in *. congruence.
    + destruct (Nat.eqb_spec (List.length ip) IPv6len) as [G6|G6],
               (Nat.eqb_spec (List.length x) IPv4len) as [G4|G4]; cbn [andb];
        try discriminate.
      intros H. apply andb_true_iff in H as [Hp Hs].
      apply bytes_eqb_true in Hp, Hs.
      rewrite (To4_of_mapped ip G6 Hp), Hs.
      unfold To4. rewrite G4. reflexivity.
Qed.

Lemma IP_Equal_forms_witness :
  IP_Equal [10; 0; 0; 11] (To16 [10; 0; 0; 11]) = true
  /\ To4 (To16 [10; 0; 0; 11]) = [10; 0; 0; 11].
Proof.
  apply (IP_Equal_forms [10; 0; 0; 11] []). reflexivity.
Defined.

(** ** Stepping an address forth and back *)

(** On the four-byte addresses whose first byte is not zero, the
    broadcast address 255.255.255.255 left out, [PrevIP] undoes
    [NextIP]; and [NextIP] undoes [PrevIP] on those above 1.0.0.0. *)
Theorem NextIP_PrevIP_round_trip (ip : net_IP) :
  List.length ip = 4%nat -> Forall is_byte ip ->
  (2 ^ 24 <= SetBytes ip < 2 ^ 32 - 1 -> PrevIP (NextIP ip) = ip)
  /\ (2 ^ 24 < SetBytes ip -> NextIP (PrevIP ip) = ip).
Proof.
  intros Hl Hb. destruct (be4_SetBytes_list ip Hl Hb) as [E R]. split; intros Hv.
  - rewrite (NextIP_4 ip Hl Hb) by lia.
    rewrite PrevIP_be4 by lia.
    replace (SetBytes ip + 1 - 1) with (SetBytes ip) by lia. exact E.
  - rewrite (PrevIP_4 ip Hl Hb) by lia.
    rewrite NextIP_be4 by lia.
    replace (SetBytes ip - 1 + 1) with (SetBytes ip) by lia. exact E.
Qed.

Lemma NextIP_PrevIP_round_trip_witness :
  PrevIP (NextIP [10; 10; 1; 255]) = [10; 10; 1; 255].
Proof.
  apply (NextIP_PrevIP_round_trip [10; 10; 1; 255]).
  - reflexivity.
  - repeat constructor; unfold is_byte; lia.
  - cbn. lia.
Defined.

(** ** Names the program does not take from its configuration *)

Lemma is_route_of_on_r0 (env : Env) (conf : EnvConf) (done : list Node.t)
  (new_routes : list (string * Route.t)) :
  Forall2 (is_route_of env conf) done new_routes ->
  Forall (fun r => fst r = "r0" /\ Route.Interface_ (snd r) = "to_vxlan0") new_routes.
Proof.
  induction 1 as [|node r done rs (x & c & v & _ & _ & ->) _ IH]; constructor.
  - split; reflexivity.
  - exact IH.
Qed.

(** Whatever the configuration and whatever its outcome, every route
    [addOtherNodes] adds goes to the router named [r0], on the port
    [to_vxlan0]: the configured name of the router, under which
    [CreateCubes] creates it, is not used. *)
Theorem addOtherNodes_routes_on_r0 (env : Env) (conf : EnvConf) (s : St) :
  exists new_routes,
    routes (fst (addOtherNodes env conf s)) = routes s ++ new_routes
    /\ Forall (fun r => fst r = "r0" /\ Route.Interface_ (snd r) = "to_vxlan0") new_routes.
Proof.
  unfold addOtherNodes. destruct (NodesList env) as [nodes|e].
  - destruct (addOtherNodes_loop_partial env conf nodes s)
      as (_ & done & todo & nf & nr & _ & _ & Hr & Fr & _).
    exists nr. split; [exact Hr | apply (is_route_of_on_r0 env conf done nr Fr)].
  - exists []. cbn. rewrite app_nil_r. split; [reflexivity | constructor].
Qed.
